(** * The NPM data-plane orchestrator (npm/pkg/dataplane/dataplane.go)

    A shallow embedding of the [DataPlane] type and of its methods, with
    the collaborators that live in other packages (the IPSetManager, the
    PolicyManager, the update-pod queue and the platform specific
    methods of the data plane) taken as an interface.

    Conventions.
    - A Go [int] or [time.Duration] is a [Z]; the one arithmetic
      operation of the file, [n++], is written with its 64-bit
      wrap-around ([int_incr]).
    - A Go [error] result is an [option error]: [None] is [nil].
    - Go maps are [gmap]s, [map[string]struct{}] is a [gset string].
    - Locks are not modelled: every method below is one sequential run.
    - The calls the orchestrator makes to its collaborators, and the
      error metrics it sends, are recorded in a history field, [trace],
      oldest event first. *)

From Stdlib Require Import ZArith List String Bool Lia.
From stdpp Require Import base gmap strings list fin_maps.

Local Open Scope string_scope.
Local Open Scope Z_scope.

(** ** Go integers *)

Module GoInt.

Definition min_int : Z := - 2 ^ 63.
Definition max_int : Z := 2 ^ 63 - 1.

Definition in_range (z : Z) : Prop := min_int <= z <= max_int.

(** Two's complement reduction of an unbounded integer to an [int]. *)
Definition wrap (z : Z) : Z := (z + 2 ^ 63) mod 2 ^ 64 - 2 ^ 63.

(** [n++] *)
Definition int_incr (n : Z) : Z := wrap (n + 1).

End GoInt.

Export GoInt.

(** ** Errors *)

(** [npmerrors] operation kinds used by this file. *)
Inductive OperationKind :=
| AddSelectorReference
| AddNetPolReference
| DeleteSelectorReference
| DeleteNetPolReference.

(** An error value.  A formatted message is kept as its format string
    and its arguments. *)
Inductive error :=
| ErrInvalidApplyConfig
    (* errors.New("invalid apply config") *)
| ExternalError (msg : string)
    (* an error made by a collaborator *)
| Wrapped (fmt : string) (ctx : list string) (cause : error)
    (* fmt.Errorf(fmt, ctx..., cause) with a %w verb for [cause] *)
| NPMError (op : OperationKind) (retry : bool) (fmt : string) (cause : error).
    (* npmerrors.Errorf(op, retry, fmt.Sprintf(fmt, cause.Error())) *)

(** ** Data of the [ipsets] and [policies] packages *)

Inductive ReferenceType := SelectorType | NetPolType.

Inductive SetType :=
| CIDRBlocks
| NestedLabelOfPod
| OtherSetType (code : Z).

Inductive SetKind := ListSet | HashSet | UnknownKind.

Record IPSetMetadata := mkIPSetMetadata {
  Name : string;
  Type_ : SetType
}.

Record TranslatedIPSet := mkTranslatedIPSet {
  Metadata : IPSetMetadata;
  Members : list string
}.

(** Modelled from the spec: the fields of [NPMNetworkPolicy] that the
    orchestrator reads ("a key, the address sets required by its rules,
    the address sets required by its endpoint selector, and a mapping
    from on-node pod address to endpoint identifier"); the type is
    declared in the [policies] package.  [AllPodSelectorIPSets] is the
    method that returns the selector sets. *)
Record NPMNetworkPolicy := mkNPMNetworkPolicy {
  PolicyKey : string;
  PodSelectorIPSets : list TranslatedIPSet;
  RuleIPSets : list TranslatedIPSet;
  PodEndpoints : gmap string string
}.

Definition AllPodSelectorIPSets (p : NPMNetworkPolicy) : list TranslatedIPSet :=
  PodSelectorIPSets p.

Record PodMetadata := mkPodMetadata {
  PodKey : string;
  PodIP : string;
  NodeName : string
}.

(** Modelled from the spec: an entry of the endpoint cache ("holds the
    set of policy keys currently referencing this endpoint"); the type
    [npmEndpoint] is declared in another file of the package. *)
Record npmEndpoint := mkNpmEndpoint {
  endpointID : string;
  netPolReference : gset string
}.

Instance ReferenceType_eq_dec : EqDecision ReferenceType.
Proof. solve_decision. Defined.

Instance SetType_eq_dec : EqDecision SetType.
Proof. solve_decision. Defined.

Instance SetKind_eq_dec : EqDecision SetKind.
Proof. solve_decision. Defined.

Instance IPSetMetadata_eq_dec : EqDecision IPSetMetadata.
Proof. solve_decision. Defined.

(** ** Configuration *)

Record Config := mkConfig {
  ApplyInBackground : bool;
  ApplyMaxBatches : Z;
  ApplyInterval : Z;
  (* *ipsets.IPSetManagerCfg *)
  AddEmptySetToLists : bool;
  (* *policies.PolicyManagerCfg *)
  IPTablesInBackground : bool;
  IPTablesMaxBatches : Z;
  IPTablesInterval : Z
}.

Definition set_AddEmptySetToLists (b : bool) (c : Config) : Config :=
  mkConfig (ApplyInBackground c) (ApplyMaxBatches c) (ApplyInterval c)
           b
           (IPTablesInBackground c) (IPTablesMaxBatches c) (IPTablesInterval c).

(** ** History of calls *)

Inductive Event :=
| CallCreateIPSets (ms : list IPSetMetadata)
| CallAddReference (m : IPSetMetadata) (ref : string) (t : ReferenceType) (res : option error)
| CallDeleteReference (set ref : string) (t : ReferenceType) (res : option error)
| CallAddToSets (ms : list IPSetMetadata) (ip key : string) (res : option error)
| CallRemoveFromSets (ms : list IPSetMetadata) (ip key : string) (res : option error)
| CallAddToLists (ls ms : list IPSetMetadata) (res : option error)
| CallRemoveFromList (l : IPSetMetadata) (ms : list IPSetMetadata) (res : option error)
| CallApplyIPSets (res : option error)
| CallGetEndpointsToApplyPolicy (key : string) (res : option error)
| CallPolicyMgrAddPolicy (key : string) (res : option error)
| CallPolicyMgrRemovePolicy (key : string) (res : option error)
| CallReconcileDirtyNetPols (res : option error)
| CallRefreshPodEndpoints (res : option error)
| CallUpdatePod (key : string) (res : option error)
| CallRequeue (key : string)
| ErrorMetric (fmt : string) (args : list string) (cause : option error).

(** ** The collaborators *)

(** What the orchestrator consumes from the rest of the agent.  None of
    these is defined in dataplane.go; the state of each collaborator is
    a type of the interface and every operation returns its next state. *)
Class Collaborators := {
  (* package ipsets *)
  IPSetManager : Type;
  NewIPSetManager : Config -> IPSetManager;
  GetPrefixName : IPSetMetadata -> string;
  GetSetKind : IPSetMetadata -> SetKind;
  GetMembersOfTranslatedSets : list string -> list IPSetMetadata;
  ipsets_CreateIPSets : IPSetManager -> list IPSetMetadata -> IPSetManager;
  ipsets_AddReference :
    IPSetManager -> IPSetMetadata -> string -> ReferenceType -> IPSetManager * option error;
  ipsets_DeleteReference :
    IPSetManager -> string -> string -> ReferenceType -> IPSetManager * option error;
  ipsets_AddToSets :
    IPSetManager -> list IPSetMetadata -> string -> string -> IPSetManager * option error;
  ipsets_RemoveFromSets :
    IPSetManager -> list IPSetMetadata -> string -> string -> IPSetManager * option error;
  ipsets_AddToLists :
    IPSetManager -> list IPSetMetadata -> list IPSetMetadata -> IPSetManager * option error;
  ipsets_RemoveFromList :
    IPSetManager -> IPSetMetadata -> list IPSetMetadata -> IPSetManager * option error;
  ipsets_ApplyIPSets : IPSetManager -> IPSetManager * option error;

  (* package policies; the policy objects are reached through pointers
     that the manager and the orchestrator share, so the manager state
     also answers what a pointer holds *)
  PolicyManager : Type;
  PolicyPtr : Type;
  NewPolicyManager : Config -> PolicyManager;
  policies_GetPolicy : PolicyManager -> string -> option PolicyPtr * bool;
  policies_deref : PolicyManager -> PolicyPtr -> NPMNetworkPolicy;
  policies_PolicyExists : PolicyManager -> string -> bool;
  policies_AddPolicy :
    PolicyManager -> NPMNetworkPolicy -> gmap string string -> PolicyManager * option error;
  policies_RemovePolicy : PolicyManager -> string -> PolicyManager * option error;
  policies_ReconcileDirtyNetPols : PolicyManager -> PolicyManager * option error;

  (* the update-pod queue (type updatePodCache) *)
  UpdatePodCache : Type;
  updateNPMPod : Type;
  PodRef : Type;
  PodKeyOf : updateNPMPod -> string;
  newUpdatePodCache : Z -> UpdatePodCache;
  upc_isEmpty : UpdatePodCache -> bool;
  upc_enqueue : UpdatePodCache -> PodMetadata -> UpdatePodCache * PodRef;
  upc_dequeue : UpdatePodCache -> UpdatePodCache * option updateNPMPod;
  upc_requeue : UpdatePodCache -> updateNPMPod -> UpdatePodCache;
  updateIPSetsToAdd : UpdatePodCache -> PodRef -> list IPSetMetadata -> UpdatePodCache;
  updateIPSetsToRemove : UpdatePodCache -> PodRef -> list IPSetMetadata -> UpdatePodCache;

  (* platform: util.IsWindowsDP and the methods of DataPlane that are
     written per platform; they work on the two managers and on the
     endpoint cache *)
  IsWindowsDP : bool;
  shouldUpdatePod : bool;
  bootupDataPlane :
    PolicyManager * IPSetManager * gmap string npmEndpoint ->
    PolicyManager * IPSetManager * gmap string npmEndpoint * option error;
  refreshPodEndpoints :
    gmap string npmEndpoint -> gmap string npmEndpoint * option error;
  updatePod :
    PolicyManager * IPSetManager * gmap string npmEndpoint -> updateNPMPod ->
    PolicyManager * IPSetManager * gmap string npmEndpoint * option error;
  getEndpointsToApplyPolicy :
    IPSetManager -> gmap string npmEndpoint -> NPMNetworkPolicy ->
    gmap string npmEndpoint * gmap string string * option error
}.

(** ** Results of a run *)

(** How a call that may loop ends.  [Unfinished] is the answer of a run
    that was still inside a loop when its step budget was spent;
    [Panicked] is a Go run-time panic.  The state reached is always
    returned next to the outcome. *)
Inductive outcome (A : Type) : Type :=
| Returned (a : A)
| Panicked (why : string)
| Unfinished.

Arguments Returned {A} a.
Arguments Panicked {A} why.
Arguments Unfinished {A}.

Section Orchestrator.

Context `{C : Collaborators}.

(** ** The [DataPlane] state *)

(** [applyInfo] and [netPolInfo] are flattened into their fields;
    [ioShim], [endpointQuery] and [stopChannel] carry no state that the
    methods below read. *)
Record DataPlane := mkDataPlane {
  cfg : Config;
  applyInBackground : bool;
  iptablesInBackground : bool;
  policyMgr : PolicyManager;
  ipsetMgr : IPSetManager;
  networkID : string;
  nodeName : string;
  endpointCache : gmap string npmEndpoint;
  updatePodCache : UpdatePodCache;
  applyInfo_numBatches : Z;
  netPolInfo_numBatches : Z;
  toDeleteNetPolReferences : gmap string (list string);
  trace : list Event
}.

Definition set_policyMgr (x : PolicyManager) (d : DataPlane) : DataPlane :=
  mkDataPlane (cfg d) (applyInBackground d) (iptablesInBackground d) x (ipsetMgr d)
    (networkID d) (nodeName d) (endpointCache d) (updatePodCache d)
    (applyInfo_numBatches d) (netPolInfo_numBatches d) (toDeleteNetPolReferences d) (trace d).

Definition set_ipsetMgr (x : IPSetManager) (d : DataPlane) : DataPlane :=
  mkDataPlane (cfg d) (applyInBackground d) (iptablesInBackground d) (policyMgr d) x
    (networkID d) (nodeName d) (endpointCache d) (updatePodCache d)
    (applyInfo_numBatches d) (netPolInfo_numBatches d) (toDeleteNetPolReferences d) (trace d).

Definition set_endpointCache (x : gmap string npmEndpoint) (d : DataPlane) : DataPlane :=
  mkDataPlane (cfg d) (applyInBackground d) (iptablesInBackground d) (policyMgr d) (ipsetMgr d)
    (networkID d) (nodeName d) x (updatePodCache d)
    (applyInfo_numBatches d) (netPolInfo_numBatches d) (toDeleteNetPolReferences d) (trace d).

Definition set_updatePodCache (x : UpdatePodCache) (d : DataPlane) : DataPlane :=
  mkDataPlane (cfg d) (applyInBackground d) (iptablesInBackground d) (policyMgr d) (ipsetMgr d)
    (networkID d) (nodeName d) (endpointCache d) x
    (applyInfo_numBatches d) (netPolInfo_numBatches d) (toDeleteNetPolReferences d) (trace d).

Definition set_applyInfo_numBatches (x : Z) (d : DataPlane) : DataPlane :=
  mkDataPlane (cfg d) (applyInBackground d) (iptablesInBackground d) (policyMgr d) (ipsetMgr d)
    (networkID d) (nodeName d) (endpointCache d) (updatePodCache d)
    x (netPolInfo_numBatches d) (toDeleteNetPolReferences d) (trace d).

Definition set_netPolInfo_numBatches (x : Z) (d : DataPlane) : DataPlane :=
  mkDataPlane (cfg d) (applyInBackground d) (iptablesInBackground d) (policyMgr d) (ipsetMgr d)
    (networkID d) (nodeName d) (endpointCache d) (updatePodCache d)
    (applyInfo_numBatches d) x (toDeleteNetPolReferences d) (trace d).

Definition set_toDeleteNetPolReferences (x : gmap string (list string)) (d : DataPlane) : DataPlane :=
  mkDataPlane (cfg d) (applyInBackground d) (iptablesInBackground d) (policyMgr d) (ipsetMgr d)
    (networkID d) (nodeName d) (endpointCache d) (updatePodCache d)
    (applyInfo_numBatches d) (netPolInfo_numBatches d) x (trace d).

(** Append one event to the history. *)
Definition emit (e : Event) (d : DataPlane) : DataPlane :=
  mkDataPlane (cfg d) (applyInBackground d) (iptablesInBackground d) (policyMgr d) (ipsetMgr d)
    (networkID d) (nodeName d) (endpointCache d) (updatePodCache d)
    (applyInfo_numBatches d) (netPolInfo_numBatches d) (toDeleteNetPolReferences d)
    (trace d ++ [e])%list.

(** The three parts of the state that the platform methods work on. *)
Definition managed (d : DataPlane) : PolicyManager * IPSetManager * gmap string npmEndpoint :=
  (policyMgr d, ipsetMgr d, endpointCache d).

Definition set_managed (x : PolicyManager * IPSetManager * gmap string npmEndpoint)
    (d : DataPlane) : DataPlane :=
  let '(pm, im, ec) := x in
  set_endpointCache ec (set_ipsetMgr im (set_policyMgr pm d)).

Definition contextBackground : string := "BACKGROUND".
Definition contextApplyDP : string := "APPLY-DP".
Definition contextAddNetPol : string := "ADD-NETPOL".
Definition contextDelNetPol : string := "DEL-NETPOL".

(** ** NewDataPlane *)

Definition NewDataPlane (nodeName0 : string) (cfg0 : Config) : option DataPlane * option error :=
  let cfg1 := if IsWindowsDP then set_AddEmptySetToLists true cfg0 else cfg0 in
  let iptablesInBackground0 := IPTablesInBackground cfg1 && negb IsWindowsDP in
  (* do not let Linux apply in background *)
  let applyInBackground0 := ApplyInBackground cfg1 && IsWindowsDP in
  let queue :=
    if applyInBackground0 then newUpdatePodCache (ApplyMaxBatches cfg1)
    else newUpdatePodCache 1 in
  let dp :=
    mkDataPlane cfg1 applyInBackground0 iptablesInBackground0
      (NewPolicyManager cfg1) (NewIPSetManager cfg1)
      "" nodeName0 ∅ queue 0 0 ∅ [] in
  if applyInBackground0 && ((ApplyMaxBatches cfg1 <=? 0) || (ApplyInterval cfg1 =? 0)) then
    (None, Some ErrInvalidApplyConfig)
  else
    (* BootupDataplane *)
    let '(m, err) := bootupDataPlane (managed dp) in
    match err with
    | Some e => (None, Some e)
    | None => (Some (set_managed m dp), None)
    end.

(** ** Set mutation API (the two methods that feed the pod queue) *)

Definition AddToSets (dp : DataPlane) (setNames : list IPSetMetadata)
    (podMetadata : PodMetadata) : DataPlane * option error :=
  let '(im, err) :=
    ipsets_AddToSets (ipsetMgr dp) setNames (PodIP podMetadata) (PodKey podMetadata) in
  let dp := emit (CallAddToSets setNames (PodIP podMetadata) (PodKey podMetadata) err)
                 (set_ipsetMgr im dp) in
  match err with
  | Some e => (dp, Some (Wrapped "[DataPlane] error while adding to set: %w" [] e))
  | None =>
    if shouldUpdatePod && String.eqb (NodeName podMetadata) (nodeName dp) then
      let '(q, updatePod0) := upc_enqueue (updatePodCache dp) podMetadata in
      (set_updatePodCache (updateIPSetsToAdd q updatePod0 setNames) dp, None)
    else (dp, None)
  end.

Definition RemoveFromSets (dp : DataPlane) (setNames : list IPSetMetadata)
    (podMetadata : PodMetadata) : DataPlane * option error :=
  let '(im, err) :=
    ipsets_RemoveFromSets (ipsetMgr dp) setNames (PodIP podMetadata) (PodKey podMetadata) in
  let dp := emit (CallRemoveFromSets setNames (PodIP podMetadata) (PodKey podMetadata) err)
                 (set_ipsetMgr im dp) in
  match err with
  | Some e => (dp, Some (Wrapped "[DataPlane] error while removing from set: %w" [] e))
  | None =>
    if shouldUpdatePod && String.eqb (NodeName podMetadata) (nodeName dp) then
      let '(q, updatePod0) := upc_enqueue (updatePodCache dp) podMetadata in
      (set_updatePodCache (updateIPSetsToRemove q updatePod0 setNames) dp, None)
    else (dp, None)
  end.

(** ** Apply / flush of the set path *)

(** The loop [for !dp.updatePodCache.isEmpty() { ... }] of
    applyDataPlaneNow; one unit of [fuel] pays for one iteration. *)
Fixpoint drainUpdatePods (fuel : nat) (dp : DataPlane) : DataPlane * outcome unit :=
  if upc_isEmpty (updatePodCache dp) then (dp, Returned tt)
  else
    match fuel with
    | O => (dp, Unfinished)
    | S fuel' =>
      let '(q, pod) := upc_dequeue (updatePodCache dp) in
      let dp := set_updatePodCache q dp in
      match pod with
      | None =>
        (* break *)
        (emit (ErrorMetric "[DataPlane] failed to dequeue pod while applying the dataplane"
                 [] None) dp,
         Returned tt)
      | Some pod =>
        let '(m, err) := updatePod (managed dp) pod in
        let dp := emit (CallUpdatePod (PodKeyOf pod) err) (set_managed m dp) in
        match err with
        | Some e =>
          let dp :=
            emit (ErrorMetric
                    "failed to update pod while applying the dataplane. key: [%s], err: [%s]"
                    [PodKeyOf pod] (Some e)) dp in
          let dp :=
            emit (CallRequeue (PodKeyOf pod))
                 (set_updatePodCache (upc_requeue (updatePodCache dp) pod) dp) in
          drainUpdatePods fuel' dp
        | None => drainUpdatePods fuel' dp
        end
      end
    end.

Definition applyDataPlaneNow (fuel : nat) (context : string) (dp : DataPlane)
    : DataPlane * outcome (option error) :=
  let '(im, err) := ipsets_ApplyIPSets (ipsetMgr dp) in
  let dp := emit (CallApplyIPSets err) (set_ipsetMgr im dp) in
  match err with
  | Some e =>
    (dp, Returned (Some (Wrapped "[DataPlane] [%s] error while applying IPSets: %w" [context] e)))
  | None =>
    let dp := if applyInBackground dp then set_applyInfo_numBatches 0 dp else dp in
    if shouldUpdatePod then
      (* do not refresh endpoints if the updatePodCache is empty *)
      if upc_isEmpty (updatePodCache dp) then (dp, Returned None)
      else
        let '(ec, err) := refreshPodEndpoints (endpointCache dp) in
        let dp := emit (CallRefreshPodEndpoints err) (set_endpointCache ec dp) in
        match err with
        | Some e =>
          (emit (ErrorMetric
                   "[DataPlane] failed to refresh endpoints while updating pods. err: [%s]"
                   [] (Some e)) dp,
           Returned None)
        | None =>
          let '(dp, o) := drainUpdatePods fuel dp in
          match o with
          | Returned _ => (dp, Returned None)
          | Panicked w => (dp, Panicked w)
          | Unfinished => (dp, Unfinished)
          end
        end
    else (dp, Returned None)
  end.

Definition incrementBatchAndApplyIfNeeded (fuel : nat) (context : string) (dp : DataPlane)
    : DataPlane * outcome (option error) :=
  let dp := set_applyInfo_numBatches (int_incr (applyInfo_numBatches dp)) dp in
  let newCount := applyInfo_numBatches dp in
  if ApplyMaxBatches (cfg dp) <=? newCount then applyDataPlaneNow fuel context dp
  else (dp, Returned None).

Definition ApplyDataPlane (fuel : nat) (dp : DataPlane) : DataPlane * outcome (option error) :=
  if applyInBackground dp then incrementBatchAndApplyIfNeeded fuel contextApplyDP dp
  else applyDataPlaneNow fuel contextApplyDP dp.

(** ** Set references of a policy *)

Definition addErrorString (referenceType : ReferenceType) : OperationKind :=
  match referenceType with
  | NetPolType => AddNetPolReference
  | SelectorType => AddSelectorReference
  end.

Definition deleteErrorString (referenceType : ReferenceType) : OperationKind :=
  match referenceType with
  | NetPolType => DeleteNetPolReference
  | SelectorType => DeleteSelectorReference
  end.

(** First loop of createIPSetsAndReferences. *)
Fixpoint createReferences (sets : list TranslatedIPSet) (netpolName : string)
    (referenceType : ReferenceType) (dp : DataPlane) : DataPlane * option error :=
  match sets with
  | [] => (dp, None)
  | set :: rest =>
    let dp :=
      emit (CallCreateIPSets [Metadata set])
           (set_ipsetMgr (ipsets_CreateIPSets (ipsetMgr dp) [Metadata set]) dp) in
    let '(im, err) := ipsets_AddReference (ipsetMgr dp) (Metadata set) netpolName referenceType in
    let dp := emit (CallAddReference (Metadata set) netpolName referenceType err)
                   (set_ipsetMgr im dp) in
    match err with
    | Some e =>
      (dp, Some (NPMError (addErrorString referenceType) false
                   "[DataPlane] failed to add reference with err: %s" e))
    | None => createReferences rest netpolName referenceType dp
    end
  end.

(** [for _, ipblock := range set.Members] of createIPSetsAndReferences. *)
Fixpoint addIPBlocks (set : TranslatedIPSet) (members : list string)
    (referenceType : ReferenceType) (dp : DataPlane) : DataPlane * option error :=
  match members with
  | [] => (dp, None)
  | ipblock :: rest =>
    let '(im, err) := ipsets_AddToSets (ipsetMgr dp) [Metadata set] ipblock "" in
    let dp := emit (CallAddToSets [Metadata set] ipblock "" err) (set_ipsetMgr im dp) in
    match err with
    | Some e =>
      (dp, Some (NPMError (addErrorString referenceType) false
                   "[DataPlane] failed to AddToSet in addIPSetReferences with err: %s" e))
    | None => addIPBlocks set rest referenceType dp
    end
  end.

(** Second loop of createIPSetsAndReferences. *)
Fixpoint addTranslatedMembers (sets : list TranslatedIPSet) (referenceType : ReferenceType)
    (dp : DataPlane) : DataPlane * option error :=
  match sets with
  | [] => (dp, None)
  | set :: rest =>
    let setType := Type_ (Metadata set) in
    if bool_decide (setType = CIDRBlocks) then
      match addIPBlocks set (Members set) referenceType dp with
      | (dp, Some e) => (dp, Some e)
      | (dp, None) => addTranslatedMembers rest referenceType dp
      end
    else if bool_decide (setType = NestedLabelOfPod) && (0 <? Z.of_nat (length (Members set))) then
      let '(im, err) :=
        ipsets_AddToLists (ipsetMgr dp) [Metadata set]
          (GetMembersOfTranslatedSets (Members set)) in
      let dp :=
        emit (CallAddToLists [Metadata set] (GetMembersOfTranslatedSets (Members set)) err)
             (set_ipsetMgr im dp) in
      match err with
      | Some e =>
        (dp, Some (NPMError (addErrorString referenceType) false
                     "[DataPlane] failed to AddToList in addIPSetReferences with err: %s" e))
      | None => addTranslatedMembers rest referenceType dp
      end
    else addTranslatedMembers rest referenceType dp
  end.

Definition createIPSetsAndReferences (sets : list TranslatedIPSet) (netpolName : string)
    (referenceType : ReferenceType) (dp : DataPlane) : DataPlane * option error :=
  match createReferences sets netpolName referenceType dp with
  | (dp, Some e) => (dp, Some e)
  | (dp, None) => addTranslatedMembers sets referenceType dp
  end.

(** [dp.ipsetMgr.DeleteReference(prefixName, netpolName, referenceType)];
    its error is logged and dropped. *)
Definition releaseReference (prefixName refName : string) (referenceType : ReferenceType)
    (dp : DataPlane) : DataPlane :=
  let '(im, err) := ipsets_DeleteReference (ipsetMgr dp) prefixName refName referenceType in
  emit (CallDeleteReference prefixName refName referenceType err) (set_ipsetMgr im dp).

(** Body of the first loop of deleteIPSetsAndReferences. *)
Definition deleteReferenceOf (netpolName : string) (referenceType : ReferenceType)
    (dp : DataPlane) (set : TranslatedIPSet) : DataPlane :=
  let tmp := String.append "TMP" netpolName in
  let prefixName := GetPrefixName (Metadata set) in
  if iptablesInBackground dp then
    (* add temporary reference so that we don't delete the IPSet while
       it's in an iptables rule *)
    let '(im, err) := ipsets_AddReference (ipsetMgr dp) (Metadata set) tmp referenceType in
    let dp := emit (CallAddReference (Metadata set) tmp referenceType err)
                   (set_ipsetMgr im dp) in
    match err with
    | Some _ => dp (* continue *)
    | None =>
      let pending := default [] (toDeleteNetPolReferences dp !! prefixName) in
      let dp :=
        set_toDeleteNetPolReferences
          (<[prefixName := (pending ++ [netpolName])%list]> (toDeleteNetPolReferences dp)) dp in
      releaseReference prefixName netpolName referenceType dp
    end
  else releaseReference prefixName netpolName referenceType dp.

Definition deleteReferences (sets : list TranslatedIPSet) (netpolName : string)
    (referenceType : ReferenceType) (dp : DataPlane) : DataPlane :=
  foldl (deleteReferenceOf netpolName referenceType) dp sets.

(** [for _, ipblock := range set.Members] of deleteIPSetsAndReferences. *)
Fixpoint removeIPBlocks (set : TranslatedIPSet) (members : list string)
    (referenceType : ReferenceType) (dp : DataPlane) : DataPlane * option error :=
  match members with
  | [] => (dp, None)
  | ipblock :: rest =>
    let '(im, err) := ipsets_RemoveFromSets (ipsetMgr dp) [Metadata set] ipblock "" in
    let dp := emit (CallRemoveFromSets [Metadata set] ipblock "" err) (set_ipsetMgr im dp) in
    match err with
    | Some e =>
      (dp, Some (NPMError (deleteErrorString referenceType) false
                   "[DataPlane] failed to RemoveFromSet in deleteIPSetReferences with err: %s" e))
    | None => removeIPBlocks set rest referenceType dp
    end
  end.

(** Second loop of deleteIPSetsAndReferences. *)
Fixpoint removeTranslatedMembers (sets : list TranslatedIPSet) (referenceType : ReferenceType)
    (dp : DataPlane) : DataPlane * option error :=
  match sets with
  | [] => (dp, None)
  | set :: rest =>
    let setType := Type_ (Metadata set) in
    if bool_decide (setType = CIDRBlocks) then
      match removeIPBlocks set (Members set) referenceType dp with
      | (dp, Some e) => (dp, Some e)
      | (dp, None) => removeTranslatedMembers rest referenceType dp
      end
    else if bool_decide (GetSetKind (Metadata set) = ListSet)
            && (0 <? Z.of_nat (length (Members set))) then
      let '(im, err) :=
        ipsets_RemoveFromList (ipsetMgr dp) (Metadata set)
          (GetMembersOfTranslatedSets (Members set)) in
      let dp :=
        emit (CallRemoveFromList (Metadata set) (GetMembersOfTranslatedSets (Members set)) err)
             (set_ipsetMgr im dp) in
      match err with
      | Some e =>
        (dp, Some (NPMError (deleteErrorString referenceType) false
                     "[DataPlane] failed to RemoveFromList in deleteIPSetReferences with err: %s" e))
      | None => removeTranslatedMembers rest referenceType dp
      end
    else removeTranslatedMembers rest referenceType dp
  end.

Definition deleteIPSetsAndReferences (sets : list TranslatedIPSet) (netpolName : string)
    (referenceType : ReferenceType) (dp : DataPlane) : DataPlane * option error :=
  removeTranslatedMembers sets referenceType
    (deleteReferences sets netpolName referenceType dp).

(** ** Flush of the rule path *)

(** Inner loop of reconcileDirtyNetPolsNow, for one entry
    [policyKey, ipsetNames] of the range over
    [toDeleteNetPolReferences]. *)
Definition releaseTemporaryReferences (dp : DataPlane) (entry : string * list string)
    : DataPlane :=
  let '(policyKey, ipsetNames) := entry in
  let tmp := String.append "TMP" policyKey in
  foldl (fun dp ipsetName => releaseReference ipsetName tmp NetPolType dp) dp ipsetNames.

(** The range over [toDeleteNetPolReferences] visits the entries in
    the order of [map_to_list].  Go leaves the order of a range over a
    map open; [reconcileDirtyNetPolsNowIn], further down, takes the
    order of the visit as an argument. *)
Definition reconcileDirtyNetPolsNow (context : string) (dp : DataPlane)
    : DataPlane * option error :=
  let '(pm, err) := policies_ReconcileDirtyNetPols (policyMgr dp) in
  let dp := emit (CallReconcileDirtyNetPols err) (set_policyMgr pm dp) in
  match err with
  | Some e =>
    (emit (ErrorMetric "[DataPlane] [%s] failed to reconcile dirty network policies due to %s"
             [context] (Some e)) dp,
     Some (Wrapped "[DataPlane] [%s] failed to reconcile dirty network policies. err: %w"
             [context] e))
  | None =>
    let dp := set_netPolInfo_numBatches 0 dp in
    (* remove all temporary references after successfully reconciling dirty netpols *)
    let dp :=
      foldl releaseTemporaryReferences dp (map_to_list (toDeleteNetPolReferences dp)) in
    (set_toDeleteNetPolReferences ∅ dp, None)
  end.

Definition incrementBatchAndReconcileDirtyNetPolsIfNeeded (context : string) (dp : DataPlane)
    : DataPlane * option error :=
  if negb (iptablesInBackground dp) then (dp, None)
  else
    let dp := set_netPolInfo_numBatches (int_incr (netPolInfo_numBatches dp)) dp in
    let newCount := netPolInfo_numBatches dp in
    if IPTablesMaxBatches (cfg dp) <=? newCount then reconcileDirtyNetPolsNow context dp
    else (dp, None).

(** ** Policy lifecycle *)

Definition AddPolicy (fuel : nat) (dp : DataPlane) (policy : NPMNetworkPolicy)
    : DataPlane * outcome (option error) :=
  (* Create and add references for Selector IPSets first *)
  match createIPSetsAndReferences (AllPodSelectorIPSets policy) (PolicyKey policy)
          SelectorType dp with
  | (dp, Some e) =>
    (dp, Returned (Some (Wrapped "[DataPlane] error while adding Selector IPSet references: %w"
                           [] e)))
  | (dp, None) =>
    (* Create and add references for Rule IPSets *)
    match createIPSetsAndReferences (RuleIPSets policy) (PolicyKey policy) NetPolType dp with
    | (dp, Some e) =>
      (dp, Returned (Some (Wrapped "[DataPlane] error while adding Rule IPSet references: %w"
                             [] e)))
    | (dp, None) =>
      match applyDataPlaneNow fuel contextAddNetPol dp with
      | (dp, Returned (Some e)) => (dp, Returned (Some e))
      | (dp, Panicked w) => (dp, Panicked w)
      | (dp, Unfinished) => (dp, Unfinished)
      | (dp, Returned None) =>
        let '(ec, endpointList, err) :=
          getEndpointsToApplyPolicy (ipsetMgr dp) (endpointCache dp) policy in
        let dp := emit (CallGetEndpointsToApplyPolicy (PolicyKey policy) err)
                       (set_endpointCache ec dp) in
        match err with
        | Some e =>
          (dp, Returned (Some (Wrapped
             "[DataPlane] error while getting endpoints to apply policy after applying dataplane: %w"
             [] e)))
        | None =>
          let '(pm, err) := policies_AddPolicy (policyMgr dp) policy endpointList in
          let dp := emit (CallPolicyMgrAddPolicy (PolicyKey policy) err)
                         (set_policyMgr pm dp) in
          match err with
          | Some e =>
            (dp, Returned (Some (Wrapped "[DataPlane] error while adding policy: %w" [] e)))
          | None =>
            let '(dp, err) :=
              incrementBatchAndReconcileDirtyNetPolsIfNeeded contextAddNetPol dp in
            (dp, Returned err)
          end
        end
      end
    end
  end.

(** [endpoints := make(...); for podIP, endpointID := range
    policy.PodEndpoints { endpoints[podIP] = endpointID }] *)
Definition copyEndpoints (podEndpoints : gmap string string) : gmap string string :=
  map_fold (fun podIP endpointID endpoints => <[podIP := endpointID]> endpoints) ∅ podEndpoints.

(** [delete(endpoint.netPolReference, policyKey)] *)
Definition dropNetPolReference (policyKey : string) (endpoint : npmEndpoint) : npmEndpoint :=
  mkNpmEndpoint (endpointID endpoint) (netPolReference endpoint ∖ {[policyKey]}).

(** Body of [for podIP := range endpoints] in RemovePolicy;
    [podEndpoints] is [policy.PodEndpoints] as it is when the loop
    runs, after the policy manager has removed the policy. *)
Definition pruneEndpoint (podEndpoints : gmap string string) (policyKey : string)
    (cache : gmap string npmEndpoint) (podIP : string) : gmap string npmEndpoint :=
  match podEndpoints !! podIP with
  | Some _ => cache
  | None =>
    (* if the endpoint is not in the policy's endpoint list, delete
       policy reference from cache *)
    match cache !! podIP with
    | Some endpoint => <[podIP := dropNetPolReference policyKey endpoint]> cache
    | None => cache
    end
  end.

Definition pruneEndpointCache (endpoints podEndpoints : gmap string string)
    (policyKey : string) (cache : gmap string npmEndpoint) : gmap string npmEndpoint :=
  foldl (pruneEndpoint podEndpoints policyKey) cache (map fst (map_to_list endpoints)).

(** The block of RemovePolicy guarded by [dp.shouldUpdatePod()];
    [policy] is the pointer obtained before the policy manager removed
    the policy and [endpoints] the snapshot taken before it, while
    [policy.PodEndpoints] is read now, after the removal. *)
Definition pruneAfterRemoval (dp : DataPlane) (policyKey : string) (policy : PolicyPtr)
    (endpoints : gmap string string) : DataPlane :=
  if shouldUpdatePod then
    set_endpointCache
      (pruneEndpointCache endpoints
         (PodEndpoints (policies_deref (policyMgr dp) policy)) policyKey
         (endpointCache dp)) dp
  else dp.

(** The rest of RemovePolicy: release of the set references, forced
    apply and rule batching. *)
Definition releasePolicyReferences (fuel : nat) (dp : DataPlane) (policy : PolicyPtr)
    : DataPlane * outcome (option error) :=
  (* Remove references for Rule IPSets first *)
  match deleteIPSetsAndReferences (RuleIPSets (policies_deref (policyMgr dp) policy))
          (PolicyKey (policies_deref (policyMgr dp) policy)) NetPolType dp with
  | (dp, Some e) => (dp, Returned (Some e))
  | (dp, None) =>
    (* Remove references for Selector IPSets *)
    match deleteIPSetsAndReferences
            (AllPodSelectorIPSets (policies_deref (policyMgr dp) policy))
            (PolicyKey (policies_deref (policyMgr dp) policy)) SelectorType dp with
    | (dp, Some e) => (dp, Returned (Some e))
    | (dp, None) =>
      match applyDataPlaneNow fuel contextApplyDP dp with
      | (dp, Returned (Some e)) => (dp, Returned (Some e))
      | (dp, Panicked w) => (dp, Panicked w)
      | (dp, Unfinished) => (dp, Unfinished)
      | (dp, Returned None) =>
        let '(dp, err) := incrementBatchAndReconcileDirtyNetPolsIfNeeded contextDelNetPol dp in
        (dp, Returned err)
      end
    end
  end.

Definition nilDereference : string :=
  "runtime error: invalid memory address or nil pointer dereference".

Definition RemovePolicy (fuel : nat) (dp : DataPlane) (policyKey : string)
    : DataPlane * outcome (option error) :=
  let '(policy, ok) := policies_GetPolicy (policyMgr dp) policyKey in
  (* endpoints := make(map[string]string, len(policy.PodEndpoints)) reads
     a field through [policy] *)
  match policy with
  | None => (dp, Panicked nilDereference)
  | Some policy =>
    let endpoints := copyEndpoints (PodEndpoints (policies_deref (policyMgr dp) policy)) in
    if negb ok then (dp, Returned None)
    else
      let key := PolicyKey (policies_deref (policyMgr dp) policy) in
      let '(pm, err) := policies_RemovePolicy (policyMgr dp) key in
      let dp := emit (CallPolicyMgrRemovePolicy key err) (set_policyMgr pm dp) in
      match err with
      | Some e =>
        (dp, Returned (Some (Wrapped "[DataPlane] error while removing policy: %w" [] e)))
      | None =>
        releasePolicyReferences fuel (pruneAfterRemoval dp policyKey policy endpoints) policy
      end
  end.

Definition UpdatePolicy (fuel : nat) (dp : DataPlane) (policy : NPMNetworkPolicy)
    : DataPlane * outcome (option error) :=
  if negb (policies_PolicyExists (policyMgr dp) (PolicyKey policy)) then AddPolicy fuel dp policy
  else
    match RemovePolicy fuel dp (PolicyKey policy) with
    | (dp, Returned (Some e)) =>
      (dp, Returned (Some (Wrapped "[DataPlane] error while updating policy: %w" [] e)))
    | (dp, Panicked w) => (dp, Panicked w)
    | (dp, Unfinished) => (dp, Unfinished)
    | (dp, Returned None) =>
      match AddPolicy fuel dp policy with
      | (dp, Returned (Some e)) =>
        (dp, Returned (Some (Wrapped "[DataPlane] error while updating policy: %w" [] e)))
      | r => r
      end
    end.

(** ** Reading the history *)

(** The events added to the history between two states. *)
Definition newEvents (before after : DataPlane) : list Event :=
  drop (length (trace before)) (trace after).

End Orchestrator.

Definition isApplyIPSets (e : Event) : bool :=
  match e with CallApplyIPSets _ => true | _ => false end.

Definition isDeleteReference (e : Event) : bool :=
  match e with CallDeleteReference _ _ _ _ => true | _ => false end.

(** Events of the steps of AddPolicy that follow the creation of the
    set references: the forced apply, the endpoint resolution and the
    rule install. *)
Definition isLaterAddPolicyStep (e : Event) : bool :=
  match e with
  | CallApplyIPSets _ | CallGetEndpointsToApplyPolicy _ _ | CallPolicyMgrAddPolicy _ _
  | CallRefreshPodEndpoints _ | CallUpdatePod _ _ | CallRequeue _ => true
  | _ => false
  end.

(** Number of [ApplyIPSets] commits asked of the backend. *)
Definition commits (tr : list Event) : nat := length (filter (fun e => isApplyIPSets e = true) tr).

(** ** A reference model of the collaborators *)

(** The runs shown at the end of the file need collaborators that
    compute.  This module gives one family of them, small enough to run,
    with switches that make a chosen operation fail. *)
Module Model.

Record Faults := mkFaults {
  failApplyIPSets : bool;       (* ApplyIPSets returns an error *)
  failReconcile : bool;         (* ReconcileDirtyNetPols returns an error *)
  failAddToSets : bool;         (* AddToSets and RemoveFromSets return an error *)
  failGetEndpoints : bool;      (* getEndpointsToApplyPolicy returns an error *)
  failPolicyAdd : bool;         (* the policy manager's AddPolicy returns an error *)
  refusedSets : list string;    (* AddReference fails on these sets *)
  failingPods : list string     (* updatePod always fails for these pod keys *)
}.

Definition noFaults : Faults := mkFaults false false false false false [] [].

(** Modelled from the spec: the IPSetManager ("owns address-set/list
    storage, reference counting"): the sets that exist, the references
    held on them as triples (set, owner, reference type), the members,
    and the number of commits made. *)
Record ipsetState := mkIpsetState {
  sets : list string;
  references : list (string * string * ReferenceType);
  members : list (string * string);
  applied : nat
}.

Definition setExists (st : ipsetState) (s : string) : bool := bool_decide (s ∈ sets st).

Definition createSets (st : ipsetState) (ms : list IPSetMetadata) : ipsetState :=
  mkIpsetState
    (foldl (fun acc m => if bool_decide (Name m ∈ acc) then acc else (acc ++ [Name m])%list)
           (sets st) ms)
    (references st) (members st) (applied st).

Definition addReference (F : Faults) (st : ipsetState) (m : IPSetMetadata) (ref : string)
    (t : ReferenceType) : ipsetState * option error :=
  if negb (setExists st (Name m)) then (st, Some (ExternalError "ipset does not exist"))
  else if bool_decide (Name m ∈ refusedSets F) then
    (st, Some (ExternalError "ipset cannot be referenced"))
  else
    (mkIpsetState (sets st)
       (if bool_decide ((Name m, ref, t) ∈ references st) then references st
        else (Name m, ref, t) :: references st)
       (members st) (applied st),
     None).

Definition deleteReference (st : ipsetState) (s ref : string) (t : ReferenceType)
    : ipsetState * option error :=
  if negb (setExists st s) then (st, Some (ExternalError "ipset does not exist"))
  else
    (mkIpsetState (sets st) (filter (fun x => x ≠ (s, ref, t)) (references st))
       (members st) (applied st),
     None).

Definition addMembers (F : Faults) (st : ipsetState) (ms : list IPSetMetadata)
    (member : string) : ipsetState * option error :=
  if failAddToSets F then (st, Some (ExternalError "failed to update members"))
  else
    (mkIpsetState (sets st) (references st)
       ((map (fun m => (Name m, member)) ms ++ members st)%list) (applied st),
     None).

Definition removeMembers (F : Faults) (st : ipsetState) (ms : list IPSetMetadata)
    (member : string) : ipsetState * option error :=
  if failAddToSets F then (st, Some (ExternalError "failed to update members"))
  else
    (mkIpsetState (sets st) (references st)
       (filter (fun x => x ∉ map (fun m => (Name m, member)) ms) (members st)) (applied st),
     None).

Definition addToLists (st : ipsetState) (ls ms : list IPSetMetadata)
    : ipsetState * option error :=
  (mkIpsetState (sets st) (references st)
     ((flat_map (fun l => map (fun m => (Name l, Name m)) ms) ls ++ members st)%list)
     (applied st),
   None).

Definition removeFromList (st : ipsetState) (l : IPSetMetadata) (ms : list IPSetMetadata)
    : ipsetState * option error :=
  (mkIpsetState (sets st) (references st)
     (filter (fun x => x ∉ map (fun m => (Name l, Name m)) ms) (members st)) (applied st),
   None).

Definition applyIPSets (F : Faults) (st : ipsetState) : ipsetState * option error :=
  if failApplyIPSets F then (st, Some (ExternalError "failed to apply ipsets"))
  else (mkIpsetState (sets st) (references st) (members st) (S (applied st)), None).

(** Modelled from the spec: the PolicyManager ("owns firewall-rule
    storage"): the policy objects by address, the cache from policy key
    to the address of its object, and how many more pod updates are
    going to fail.  A lookup of a key that is not in the cache gives the
    nil pointer and [false], as a lookup in a Go map of pointers does. *)
Record policyState := mkPolicyState {
  objects : gmap nat NPMNetworkPolicy;
  cache : gmap string nat;
  nextPtr : nat;
  updateFailuresLeft : nat;
  reconciled : nat
}.

Definition noPolicy : NPMNetworkPolicy := mkNPMNetworkPolicy "" [] [] ∅.

Definition deref (st : policyState) (p : nat) : NPMNetworkPolicy :=
  default noPolicy (objects st !! p).

Definition getPolicy (st : policyState) (key : string) : option nat * bool :=
  match cache st !! key with
  | Some p => (Some p, true)
  | None => (None, false)
  end.

Definition policyExists (st : policyState) (key : string) : bool :=
  bool_decide (is_Some (cache st !! key)).

Definition withEndpoints (eps : gmap string string) (p : NPMNetworkPolicy) : NPMNetworkPolicy :=
  mkNPMNetworkPolicy (PolicyKey p) (PodSelectorIPSets p) (RuleIPSets p) eps.

Definition addPolicy (F : Faults) (st : policyState) (policy : NPMNetworkPolicy)
    (endpointList : gmap string string) : policyState * option error :=
  if failPolicyAdd F then (st, Some (ExternalError "failed to add policy"))
  else
    (mkPolicyState (<[nextPtr st := withEndpoints endpointList policy]> (objects st))
       (<[PolicyKey policy := nextPtr st]> (cache st))
       (S (nextPtr st)) (updateFailuresLeft st) (reconciled st),
     None).

Definition removePolicy (st : policyState) (key : string) : policyState * option error :=
  match cache st !! key with
  | None => (st, None)
  | Some p =>
    (mkPolicyState (alter (withEndpoints ∅) p (objects st))
       (delete key (cache st)) (nextPtr st) (updateFailuresLeft st) (reconciled st),
     None)
  end.

Definition reconcileDirtyNetPols (F : Faults) (st : policyState) : policyState * option error :=
  if failReconcile F then (st, Some (ExternalError "failed to restore rules"))
  else
    (mkPolicyState (objects st) (cache st) (nextPtr st) (updateFailuresLeft st)
       (S (reconciled st)),
     None).

(** Modelled from the spec: the update-pod queue ("a deduplicated,
    per-pod-key entry holding the accumulated sets-to-add and
    sets-to-remove"; "re-enqueue merges into the existing entry rather
    than creating a duplicate"), first in first out. *)
Record queuedPod := mkQueuedPod {
  qPodKey : string;
  qPodIP : string;
  IPSetsToAdd : list IPSetMetadata;
  IPSetsToRemove : list IPSetMetadata
}.

Definition isEmpty (q : list queuedPod) : bool :=
  match q with [] => true | _ => false end.

Definition queued (q : list queuedPod) (key : string) : bool :=
  bool_decide (key ∈ map qPodKey q).

Definition enqueue (q : list queuedPod) (m : PodMetadata) : list queuedPod * string :=
  if queued q (PodKey m) then (q, PodKey m)
  else ((q ++ [mkQueuedPod (PodKey m) (PodIP m) [] []])%list, PodKey m).

Definition dequeue (q : list queuedPod) : list queuedPod * option queuedPod :=
  match q with
  | [] => ([], None)
  | pod :: rest => (rest, Some pod)
  end.

Definition requeue (q : list queuedPod) (pod : queuedPod) : list queuedPod :=
  if queued q (qPodKey pod) then q else (q ++ [pod])%list.

Definition without (ms : list IPSetMetadata) (l : list IPSetMetadata) : list IPSetMetadata :=
  filter (fun x => x ∉ ms) l.

Definition toAdd (q : list queuedPod) (ref : string) (ms : list IPSetMetadata)
    : list queuedPod :=
  map (fun pod =>
         if String.eqb (qPodKey pod) ref then
           mkQueuedPod (qPodKey pod) (qPodIP pod)
             (without ms (IPSetsToAdd pod) ++ ms)%list (without ms (IPSetsToRemove pod))
         else pod) q.

Definition toRemove (q : list queuedPod) (ref : string) (ms : list IPSetMetadata)
    : list queuedPod :=
  map (fun pod =>
         if String.eqb (qPodKey pod) ref then
           mkQueuedPod (qPodKey pod) (qPodIP pod)
             (without ms (IPSetsToAdd pod)) (without ms (IPSetsToRemove pod) ++ ms)%list
         else pod) q.

(** The platform methods: only [updatePod] and
    [getEndpointsToApplyPolicy] can fail, and none changes the endpoint
    cache. *)
Definition updatePodOf (F : Faults)
    (m : policyState * ipsetState * gmap string npmEndpoint) (pod : queuedPod)
    : policyState * ipsetState * gmap string npmEndpoint * option error :=
  let '(pm, im, ec) := m in
  if bool_decide (qPodKey pod ∈ failingPods F) then
    (m, Some (ExternalError "failed to update pod"))
  else
    match updateFailuresLeft pm with
    | S n =>
      ((mkPolicyState (objects pm) (cache pm) (nextPtr pm) n (reconciled pm), im, ec),
       Some (ExternalError "failed to update pod"))
    | O => (m, None)
    end.

Definition endpointsToApplyPolicy (F : Faults) (im : ipsetState)
    (ec : gmap string npmEndpoint) (policy : NPMNetworkPolicy)
    : gmap string npmEndpoint * gmap string string * option error :=
  if failGetEndpoints F then (ec, ∅, Some (ExternalError "failed to get endpoints"))
  else (ec, PodEndpoints policy, None).

Definition collaborators (windows : bool) (F : Faults) : Collaborators := {|
  IPSetManager := ipsetState;
  NewIPSetManager := fun _ => mkIpsetState [] [] [] 0;
  GetPrefixName := Name;
  GetSetKind := fun m => match Type_ m with NestedLabelOfPod => ListSet | _ => HashSet end;
  GetMembersOfTranslatedSets := map (fun n => mkIPSetMetadata n (OtherSetType 0));
  ipsets_CreateIPSets := createSets;
  ipsets_AddReference := addReference F;
  ipsets_DeleteReference := deleteReference;
  ipsets_AddToSets := fun st ms ip _ => addMembers F st ms ip;
  ipsets_RemoveFromSets := fun st ms ip _ => removeMembers F st ms ip;
  ipsets_AddToLists := addToLists;
  ipsets_RemoveFromList := removeFromList;
  ipsets_ApplyIPSets := applyIPSets F;
  PolicyManager := policyState;
  PolicyPtr := nat;
  NewPolicyManager := fun _ => mkPolicyState ∅ ∅ 0 0 0;
  policies_GetPolicy := getPolicy;
  policies_deref := deref;
  policies_PolicyExists := policyExists;
  policies_AddPolicy := addPolicy F;
  policies_RemovePolicy := removePolicy;
  policies_ReconcileDirtyNetPols := reconcileDirtyNetPols F;
  UpdatePodCache := list queuedPod;
  updateNPMPod := queuedPod;
  PodRef := string;
  PodKeyOf := qPodKey;
  newUpdatePodCache := fun _ => [];
  upc_isEmpty := isEmpty;
  upc_enqueue := enqueue;
  upc_dequeue := dequeue;
  upc_requeue := requeue;
  updateIPSetsToAdd := toAdd;
  updateIPSetsToRemove := toRemove;
  IsWindowsDP := windows;
  shouldUpdatePod := windows;
  bootupDataPlane := fun m => (m, None);
  refreshPodEndpoints := fun ec => (ec, None);
  updatePod := updatePodOf F;
  getEndpointsToApplyPolicy := endpointsToApplyPolicy F
|}.

End Model.

(** ** Vocabulary of the statements *)

Section Statements.

Context `{C : Collaborators}.

(** AddToSets and RemoveFromSets, side by side with the manager
    operation each of them calls. *)
Inductive SetUpdate := AddMember | RemoveMember.

Definition managerUpdate (op : SetUpdate)
    : IPSetManager -> list IPSetMetadata -> string -> string -> IPSetManager * option error :=
  match op with
  | AddMember => ipsets_AddToSets
  | RemoveMember => ipsets_RemoveFromSets
  end.

Definition dataplaneUpdate (op : SetUpdate)
    : DataPlane -> list IPSetMetadata -> PodMetadata -> DataPlane * option error :=
  match op with
  | AddMember => AddToSets
  | RemoveMember => RemoveFromSets
  end.

(** The state after [n] calls of ApplyDataPlane in a row, each given
    [fuel] steps. *)
Fixpoint applyCalls (fuel : nat) (n : nat) (dp : DataPlane) : DataPlane :=
  match n with
  | O => dp
  | S n' => fst (ApplyDataPlane fuel (applyCalls fuel n' dp))
  end.

(** The parts of the state that the orchestrator owns and that a flush
    may change: the two counters, the pending-cleanup table, the pod
    queue and the endpoint cache. *)
Definition sameBookkeeping (a b : DataPlane) : Prop :=
  applyInfo_numBatches a = applyInfo_numBatches b
  /\ netPolInfo_numBatches a = netPolInfo_numBatches b
  /\ toDeleteNetPolReferences a = toDeleteNetPolReferences b
  /\ updatePodCache a = updatePodCache b
  /\ endpointCache a = endpointCache b.

(** In a history: every pod update that failed is followed at once by
    the error metric for that pod and that error, and by the requeue of
    that pod. *)
Fixpoint failedUpdatesRequeued (tr : list Event) : Prop :=
  match tr with
  | [] => True
  | CallUpdatePod key (Some e) :: rest =>
    match rest with
    | ErrorMetric _ args (Some e') :: CallRequeue key' :: _ =>
      args = [key] /\ e' = e /\ key' = key
    | _ => False
    end
    /\ failedUpdatesRequeued rest
  | _ :: rest => failedUpdatesRequeued rest
  end.

(** Events of the first two steps of AddPolicy, the creation of the
    sets and of their references. *)
Definition isSetCreationStep (e : Event) : bool :=
  match e with
  | CallCreateIPSets _ | CallAddReference _ _ _ _ | CallAddToSets _ _ _ _
  | CallAddToLists _ _ _ => true
  | _ => false
  end.

(** Events of a flush of the set path. *)
Definition isFlushStep (e : Event) : bool :=
  match e with
  | CallApplyIPSets _ | CallRefreshPodEndpoints _ | CallUpdatePod _ _ | CallRequeue _
  | ErrorMetric _ _ _ => true
  | _ => false
  end.

(** From [a] to [b] the history has grown by events of kind [K] only. *)
Definition grows (K : Event -> bool) (a b : DataPlane) : Prop :=
  exists new, trace b = (trace a ++ new)%list /\ Forall (fun e => K e = true) new.

(** The token under which the temporary reference of a policy is held. *)
Definition temporaryKey (netpolName : string) : string := String.append "TMP" netpolName.








(** The endpoint cache and the pod queue are those of [a]. *)
Definition sameCaches (a b : DataPlane) : Prop :=
  endpointCache b = endpointCache a /\ updatePodCache b = updatePodCache a.

(** At [podIP] the cache holds no endpoint that references [policyKey]. *)
Definition unreferenced (policyKey podIP : string) (cache : gmap string npmEndpoint) : Prop :=
  forall endpoint, cache !! podIP = Some endpoint -> policyKey ∉ netPolReference endpoint.

End Statements.

(** ** The background tasks and the order of the rule flush *)

Section Remainder.

Context `{C : Collaborators}.

(** reconcileDirtyNetPolsNow with the order of its range made
    explicit: [entries] are the entries of the pending-cleanup table in
    the order in which one run of [for policyKey, ipsetNames := range
    dp.netPolInfo.toDeleteNetPolReferences] visits them. *)
Definition reconcileDirtyNetPolsNowIn (entries : list (string * list string))
    (context : string) (dp : DataPlane) : DataPlane * option error :=
  let '(pm, err) := policies_ReconcileDirtyNetPols (policyMgr dp) in
  let dp := emit (CallReconcileDirtyNetPols err) (set_policyMgr pm dp) in
  match err with
  | Some e =>
    (emit (ErrorMetric "[DataPlane] [%s] failed to reconcile dirty network policies due to %s"
             [context] (Some e)) dp,
     Some (Wrapped "[DataPlane] [%s] failed to reconcile dirty network policies. err: %w"
             [context] e))
  | None =>
    let dp := set_netPolInfo_numBatches 0 dp in
    (* remove all temporary references after successfully reconciling dirty netpols *)
    let dp := foldl releaseTemporaryReferences dp entries in
    (set_toDeleteNetPolReferences ∅ dp, None)
  end.

(** Body of [case <-ticker.C] in the iptables goroutine of
    RunPeriodicTasks; the goroutine exists only when
    [dp.iptablesInBackground] holds, and the error of the flush is
    dropped. *)
Definition iptablesTick (dp : DataPlane) : DataPlane :=
  if netPolInfo_numBatches dp =? 0 then dp
  else fst (reconcileDirtyNetPolsNow contextBackground dp).

(** Body of [case <-ticker.C] in the apply goroutine of
    RunPeriodicTasks, which exists only when [dp.applyInBackground]
    holds; an error of the flush is logged and sent as a metric. *)
Definition applyTick (fuel : nat) (dp : DataPlane) : DataPlane * outcome unit :=
  let numBatches := applyInfo_numBatches dp in
  if numBatches =? 0 then (dp, Returned tt)
  else
    match applyDataPlaneNow fuel contextBackground dp with
    | (dp, Returned (Some e)) =>
      (emit (ErrorMetric "[DataPlane] failed to apply dataplane in background: %v" []
               (Some e)) dp,
       Returned tt)
    | (dp, Returned None) => (dp, Returned tt)
    | (dp, Panicked w) => (dp, Panicked w)
    | (dp, Unfinished) => (dp, Unfinished)
    end.

(** *** More vocabulary *)

(** What is fixed when the data plane is built. *)
Definition sameSettings (a b : DataPlane) : Prop :=
  cfg b = cfg a
  /\ applyInBackground b = applyInBackground a
  /\ iptablesInBackground b = iptablesInBackground a
  /\ nodeName b = nodeName a
  /\ networkID b = networkID a.

(** The state after [n] calls of
    incrementBatchAndReconcileDirtyNetPolsIfNeeded in a row. *)
Fixpoint ruleEvents (context : string) (n : nat) (dp : DataPlane) : DataPlane :=
  match n with
  | O => dp
  | S n' =>
    fst (incrementBatchAndReconcileDirtyNetPolsIfNeeded context (ruleEvents context n' dp))
  end.

(** Total number of policy keys in a pending-cleanup table. *)
Definition pendingReleases (table : gmap string (list string)) : nat :=
  length (concat (map snd (map_to_list table))).

(** What the creation of references relies on, for an observation
    [holds] as in [ReferenceLaws]: no operation used when a policy is
    added takes a reference away, and an AddReference that succeeds
    makes the set hold the reference. *)
Class CreationLaws (holds : IPSetManager -> string -> string -> ReferenceType -> Prop)
    : Prop := {
  Creation_AddReference_holds : forall im m ref t im',
    ipsets_AddReference im m ref t = (im', None) -> holds im' (GetPrefixName m) ref t;
  Creation_AddReference_keeps : forall im m ref t im' res s' ref' t',
    ipsets_AddReference im m ref t = (im', res) ->
    holds im s' ref' t' -> holds im' s' ref' t';
  Creation_CreateIPSets_keeps : forall im ms s ref t,
    holds im s ref t -> holds (ipsets_CreateIPSets im ms) s ref t;
  Creation_AddToSets_keeps : forall im ms ip key im' res s ref t,
    ipsets_AddToSets im ms ip key = (im', res) ->
    holds im s ref t -> holds im' s ref t;
  Creation_AddToLists_keeps : forall im ls ms im' res s ref t,
    ipsets_AddToLists im ls ms = (im', res) ->
    holds im s ref t -> holds im' s ref t
}.

End Remainder.

Definition isReconcile (e : Event) : bool :=
  match e with CallReconcileDirtyNetPols _ => true | _ => false end.

Definition isAddReference (e : Event) : bool :=
  match e with CallAddReference _ _ _ _ => true | _ => false end.


Definition isPodStep (e : Event) : bool :=
  match e with
  | CallRefreshPodEndpoints _ | CallUpdatePod _ _ | CallRequeue _ => true
  | _ => false
  end.

(** Number of rule commits asked of the policy manager. *)
Definition ruleFlushes (tr : list Event) : nat :=
  length (filter (fun e => isReconcile e = true) tr).

(** The sets and reference names of the DeleteReference calls of a
    history, in order. *)
Fixpoint releasedReferences (tr : list Event) : list (string * string * ReferenceType) :=
  match tr with
  | [] => []
  | CallDeleteReference s ref t _ :: rest => (s, ref, t) :: releasedReferences rest
  | _ :: rest => releasedReferences rest
  end.


(** Events of the release of a policy's set references. *)
Definition isReleaseStep (e : Event) : bool :=
  match e with
  | CallAddReference _ _ _ _ | CallDeleteReference _ _ _ _ | CallRemoveFromSets _ _ _ _
  | CallRemoveFromList _ _ _ => true
  | _ => false
  end.

(** Events of a flush of the rule path. *)
Definition isRuleFlushStep (e : Event) : bool :=
  match e with
  | CallReconcileDirtyNetPols _ | CallDeleteReference _ _ _ _ | ErrorMetric _ _ _ => true
  | _ => false
  end.

(** Events that AddPolicy can add to the history. *)
Definition isAddPolicyStep (e : Event) : bool :=
  isSetCreationStep e || isFlushStep e || isRuleFlushStep e
  || match e with
     | CallGetEndpointsToApplyPolicy _ _ | CallPolicyMgrAddPolicy _ _ => true
     | _ => false
     end.

(** Events that RemovePolicy can add to the history. *)
Definition isRemovePolicyStep (e : Event) : bool :=
  isReleaseStep e || isFlushStep e || isRuleFlushStep e
  || match e with CallPolicyMgrRemovePolicy _ _ => true | _ => false end.

Definition isInstall (e : Event) : bool :=
  match e with CallPolicyMgrAddPolicy _ _ => true | _ => false end.


(** The DeleteReference calls that a rule flush makes for a
    pending-cleanup table, as reconcileDirtyNetPolsNow reads it: for
    each entry, key first, one call per element of its list. *)
Definition flushReleases (table : gmap string (list string))
    : list (string * string * ReferenceType) :=
  flat_map (fun entry : string * list string =>
              map (fun ipsetName => (ipsetName, String.append "TMP" (fst entry), NetPolType))
                  (snd entry))
           (map_to_list table).

(** [ev] is a member removal that failed with [cause]. *)
Definition failedMemberRemoval (cause : error) (ev : Event) : Prop :=
  match ev with
  | CallRemoveFromSets _ _ _ (Some c) | CallRemoveFromList _ _ (Some c) => c = cause
  | _ => False
  end.


(** Removals of translated members. *)
Definition isMemberRemoval (e : Event) : bool :=
  match e with
  | CallRemoveFromSets _ _ _ _ | CallRemoveFromList _ _ _ => true
  | _ => false
  end.


(** Updates of a queued pod. *)
Definition isPodUpdate (e : Event) : bool :=
  match e with
  | CallUpdatePod _ _ | CallRequeue _ => true
  | _ => false
  end.


(** The IPSetManager calls of AddToSets and RemoveFromSets. *)
Definition isMemberUpdate (e : Event) : bool :=
  match e with
  | CallAddToSets _ _ _ _ | CallRemoveFromSets _ _ _ _ => true
  | _ => false
  end.


Definition isRequeue (e : Event) : bool :=
  match e with CallRequeue _ => true | _ => false end.

Definition isUpdatePod (e : Event) : bool :=
  match e with CallUpdatePod _ _ => true | _ => false end.

(** Number of pod updates asked for in a history. *)
Definition podUpdates (tr : list Event) : nat :=
  length (filter (fun e => isUpdatePod e = true) tr).


(** ** Inputs of the runs *)

Module Runs.

Import Model.

(** The reference counting of the model, as an observation. *)
Definition holds (im : ipsetState) (s ref : string) (t : ReferenceType) : Prop :=
  (s, ref, t) ∈ references im.

(** A Linux-like and a Windows-like platform. *)
Definition linux (F : Faults) : Collaborators := collaborators false F.
Definition windows (F : Faults) : Collaborators := collaborators true F.

(** Configurations: background apply with a maximum and an interval,
    and background iptables with a maximum. *)
Definition applyConfig (background : bool) (maxBatches interval : Z) : Config :=
  mkConfig background maxBatches interval false false 0 0.

Definition iptablesConfig (maxBatches : Z) : Config :=
  mkConfig false 0 0 false true maxBatches 1000.

(** The data plane that NewDataPlane returns on node "node-1"; when
    NewDataPlane returns none, the empty one. *)
Definition boot (C : Collaborators) (cfg0 : Config) : @DataPlane C :=
  match @NewDataPlane C "node-1" cfg0 with
  | (Some dp, _) => dp
  | (None, _) =>
    mkDataPlane cfg0 false false (NewPolicyManager cfg0) (NewIPSetManager cfg0)
      "" "node-1" ∅ (newUpdatePodCache 1) 0 0 ∅ []
  end.

Definition setA : IPSetMetadata := mkIPSetMetadata "setA" (OtherSetType 0).
Definition sel1 : IPSetMetadata := mkIPSetMetadata "sel1" (OtherSetType 1).
Definition rule1 : IPSetMetadata := mkIPSetMetadata "rule1" (OtherSetType 2).

(** A policy whose rules name one set. *)
Definition policyP : NPMNetworkPolicy :=
  mkNPMNetworkPolicy "ns/p" [] [mkTranslatedIPSet setA []] ∅.

(** A policy with one selector set and one rule set, bound to the pod
    at 10.0.0.5. *)
Definition policyQ : NPMNetworkPolicy :=
  mkNPMNetworkPolicy "ns/q" [mkTranslatedIPSet sel1 []] [mkTranslatedIPSet rule1 []]
    {["10.0.0.5" := "endpoint-1"]}.

Definition pod1 : PodMetadata := mkPodMetadata "ns/pod1" "10.0.0.5" "node-1".

(** Rule batching on Linux: policy "ns/p" is added, then removed, then
    the rules are flushed. *)
Definition batching : Collaborators := linux noFaults.
Definition batched0 : @DataPlane batching := boot batching (iptablesConfig 100).
Definition batchedAdded : @DataPlane batching := fst (AddPolicy 0 batched0 policyP).
Definition batchedRemoved : @DataPlane batching := fst (RemovePolicy 0 batchedAdded "ns/p").
Definition batchedFlushed : @DataPlane batching :=
  fst (reconcileDirtyNetPolsNow contextBackground batchedRemoved).

(** Background apply on Windows, with a backend that works and with one
    whose commits fail. *)
Definition applying : Collaborators := windows noFaults.
Definition applying0 : @DataPlane applying := boot applying (applyConfig true 3 1000).

Definition brokenApply : Collaborators :=
  windows (mkFaults true false false false false [] []).
Definition brokenApply0 : @DataPlane brokenApply := boot brokenApply (applyConfig true 1 1000).
Definition brokenApply2 : @DataPlane brokenApply :=
  applyCalls 0 2 (boot brokenApply (applyConfig true 5 1000)).

(** Rule batching on Linux with a rule commit that fails, after the
    removal of "ns/p". *)
Definition brokenRules : Collaborators :=
  linux (mkFaults false true false false false [] []).
Definition brokenRulesRemoved : @DataPlane brokenRules :=
  fst (RemovePolicy 0
         (fst (AddPolicy 0 (boot brokenRules (iptablesConfig 100)) policyP)) "ns/p").

(** Windows, policy "ns/q" installed and referenced by the cached
    endpoint of 10.0.0.5. *)
Definition endpoint1 : npmEndpoint := mkNpmEndpoint "endpoint-1" {["ns/q"; "ns/other"]}.

Definition bound (C : Collaborators) : @DataPlane C :=
  set_endpointCache {["10.0.0.5" := endpoint1]}
    (fst (AddPolicy 0 (boot C (applyConfig false 0 0)) policyQ)).

(** AddPolicy against collaborators that fail at one step. *)
Definition refusing (s : string) : Collaborators :=
  windows (mkFaults false false false false false [s] []).
Definition unresolved : Collaborators :=
  windows (mkFaults false false false true false [] []).
Definition uninstallable : Collaborators :=
  windows (mkFaults false false false false true [] []).

Definition refusal (op : OperationKind) : error :=
  NPMError op false "[DataPlane] failed to add reference with err: %s"
    (ExternalError "ipset cannot be referenced").

(** The states that AddPolicy of "ns/q" goes through: the start, the
    state after the selector references, the state after the rule
    references and the state after the forced apply. *)
Definition start (C : Collaborators) : @DataPlane C := boot C (applyConfig false 0 0).

Definition afterSelectors (C : Collaborators) : @DataPlane C :=
  fst (createIPSetsAndReferences (AllPodSelectorIPSets policyQ) (PolicyKey policyQ)
         SelectorType (start C)).

Definition afterRules (C : Collaborators) : @DataPlane C :=
  fst (createIPSetsAndReferences (RuleIPSets policyQ) (PolicyKey policyQ) NetPolType
         (afterSelectors C)).

Definition afterApply (C : Collaborators) : @DataPlane C :=
  fst (applyDataPlaneNow 0 contextAddNetPol (afterRules C)).

(** Windows with a pod whose update always fails, queued by AddToSets. *)
Definition stuck : Collaborators :=
  windows (mkFaults false false false false false [] ["ns/pod1"]).
Definition stuckQueued : @DataPlane stuck :=
  fst (AddToSets (boot stuck (applyConfig false 0 0)) [setA] pod1).

(** Windows with a pod whose update fails twice and then succeeds. *)
Definition flaky : @DataPlane applying :=
  @set_policyMgr applying (mkPolicyState ∅ ∅ 0 2 0)
    (fst (AddToSets (boot applying (applyConfig false 0 0)) [setA] pod1)).

(** Windows with a manager whose member updates fail. *)
Definition brokenMembers : Collaborators :=
  windows (mkFaults false false true false false [] []).

End Runs.

(** ** More inputs *)

Module MoreRuns.

Import Model Runs.

(** The reference model with two more switches: a policy manager that
    refuses to remove a policy, and a refresh of the pod endpoints that
    fails. *)
Definition faulty (windows : bool) (F : Faults) (refuseRemoval failRefresh : bool)
    : Collaborators := {|
  IPSetManager := ipsetState;
  NewIPSetManager := fun _ => mkIpsetState [] [] [] 0;
  GetPrefixName := Name;
  GetSetKind := fun m => match Type_ m with NestedLabelOfPod => ListSet | _ => HashSet end;
  GetMembersOfTranslatedSets := map (fun n => mkIPSetMetadata n (OtherSetType 0));
  ipsets_CreateIPSets := createSets;
  ipsets_AddReference := addReference F;
  ipsets_DeleteReference := deleteReference;
  ipsets_AddToSets := fun st ms ip _ => addMembers F st ms ip;
  ipsets_RemoveFromSets := fun st ms ip _ => removeMembers F st ms ip;
  ipsets_AddToLists := addToLists;
  ipsets_RemoveFromList := removeFromList;
  ipsets_ApplyIPSets := applyIPSets F;
  PolicyManager := policyState;
  PolicyPtr := nat;
  NewPolicyManager := fun _ => mkPolicyState ∅ ∅ 0 0 0;
  policies_GetPolicy := getPolicy;
  policies_deref := deref;
  policies_PolicyExists := policyExists;
  policies_AddPolicy := addPolicy F;
  policies_RemovePolicy := fun st key =>
    if refuseRemoval then (st, Some (ExternalError "failed to remove policy"))
    else removePolicy st key;
  policies_ReconcileDirtyNetPols := reconcileDirtyNetPols F;
  UpdatePodCache := list queuedPod;
  updateNPMPod := queuedPod;
  PodRef := string;
  PodKeyOf := qPodKey;
  newUpdatePodCache := fun _ => [];
  upc_isEmpty := isEmpty;
  upc_enqueue := enqueue;
  upc_dequeue := dequeue;
  upc_requeue := requeue;
  updateIPSetsToAdd := toAdd;
  updateIPSetsToRemove := toRemove;
  IsWindowsDP := windows;
  shouldUpdatePod := windows;
  bootupDataPlane := fun m => (m, None);
  refreshPodEndpoints := fun ec =>
    if failRefresh then (ec, Some (ExternalError "failed to refresh endpoints"))
    else (ec, None);
  updatePod := updatePodOf F;
  getEndpointsToApplyPolicy := endpointsToApplyPolicy F
|}.

(** Rule batching on Linux with a maximum of two. *)
Definition ruleBatch0 : @DataPlane batching := boot batching (iptablesConfig 2).

(** A set of address blocks with one member, against a manager whose
    member updates fail. *)
Definition blocks : TranslatedIPSet :=
  mkTranslatedIPSet (mkIPSetMetadata "cidr1" CIDRBlocks) ["10.0.0.0/24"].
Definition brokenMembers0 : @DataPlane brokenMembers :=
  boot brokenMembers (applyConfig false 0 0).


(** Windows with the pod of this node queued and a refresh of the
    endpoints that fails. *)
Definition failingRefresh : Collaborators := faulty true noFaults false true.
Definition refreshQueued : @DataPlane failingRefresh :=
  fst (AddToSets (boot failingRefresh (applyConfig false 0 0)) [setA] pod1).

(** A pod of another node. *)
Definition pod2 : PodMetadata := mkPodMetadata "ns/pod2" "10.0.0.6" "node-2".

(** Background apply on Windows after two calls of ApplyDataPlane, with
    a maximum of three. *)
Definition applying2 : @DataPlane applying := applyCalls 0 2 applying0.

(** What AddPolicy of "ns/q" asks for before it installs the rules,
    on a data plane that does not know the policy. *)
Definition addedQ : list Event :=
  [CallCreateIPSets [sel1]; CallAddReference sel1 "ns/q" SelectorType None;
   CallCreateIPSets [rule1]; CallAddReference rule1 "ns/q" NetPolType None;
   CallApplyIPSets None; CallGetEndpointsToApplyPolicy "ns/q" None].

(** What RemovePolicy of "ns/q" asks for, without rule batching. *)
Definition removedQ : list Event :=
  [CallPolicyMgrRemovePolicy "ns/q" None;
   CallDeleteReference "rule1" "ns/q" NetPolType None;
   CallDeleteReference "sel1" "ns/q" SelectorType None;
   CallApplyIPSets None].

(** Windows with the pod of this node queued, and what makes its
    update succeed in the model: no pod update is set to fail. *)
Definition queued1 : @DataPlane applying :=
  fst (AddToSets (start applying) [setA] pod1).

Definition noFailuresLeft (m : policyState * ipsetState * gmap string npmEndpoint) : Prop :=
  updateFailuresLeft (fst (fst m)) = 0%nat.


End MoreRuns.


(** * Properties *)

Module GoIntFacts.

Lemma wrap_in_range z : in_range z -> wrap z = z.
Proof.
  unfold in_range, wrap, min_int, max_int. intros Hz.
  rewrite Z.mod_small; lia.
Qed.

Lemma int_incr_small n : min_int <= n < max_int -> int_incr n = n + 1.
Proof.
  intros Hn. unfold int_incr. apply wrap_in_range.
  unfold in_range. lia.
Qed.

End GoIntFacts.

Section Facts.

Context `{C : Collaborators}.

(** *** Construction *)

(** C6, as amended: when background apply is in effect, that is when
    [ApplyInBackground] is set and the data plane is the Windows one,
    a maximum batch count that is not positive or an interval of zero
    makes NewDataPlane return [ErrInvalidApplyConfig] and no data plane;
    on any other platform the apply settings are not checked: the only
    error NewDataPlane can return is the one of the bootup, and the data
    plane it returns has background apply turned off. *)
Theorem NewDataPlane_rejects_invalid_apply_config nodeName0 cfg0 :
  (IsWindowsDP = true ->
   ApplyInBackground cfg0 = true ->
   ApplyMaxBatches cfg0 <= 0 \/ ApplyInterval cfg0 = 0 ->
   NewDataPlane nodeName0 cfg0 = (None, Some ErrInvalidApplyConfig))
  /\ (IsWindowsDP = false ->
      snd (NewDataPlane nodeName0 cfg0)
      = snd (bootupDataPlane (NewPolicyManager cfg0, NewIPSetManager cfg0, ∅))
      /\ forall dp, fst (NewDataPlane nodeName0 cfg0) = Some dp -> applyInBackground dp = false).
Proof.
  split.
  - intros Hw Hbg Hbad. unfold NewDataPlane. rewrite Hw. simpl. rewrite Hbg. simpl.
    assert ((ApplyMaxBatches cfg0 <=? 0) || (ApplyInterval cfg0 =? 0) = true) as ->.
    { apply orb_true_iff. destruct Hbad as [H|H]; [left; lia | right; lia]. }
    reflexivity.
  - intros Hw. unfold NewDataPlane. rewrite Hw. rewrite andb_false_r. simpl.
    unfold managed. simpl.
    destruct (bootupDataPlane _) as [[[pm im] ec] [e|]]; simpl.
    + split; [reflexivity|]. intros dp [=].
    + split; [reflexivity|]. intros dp [= <-]. reflexivity.
Qed.

(** *** Set updates *)

(** C10: when the IPSetManager update fails, AddToSets and
    RemoveFromSets return that error wrapped, and the update-pod queue
    is the one the call started with. *)
Theorem set_update_error_leaves_queue (op : SetUpdate) dp setNames podMetadata im e :
  managerUpdate op (ipsetMgr dp) setNames (PodIP podMetadata) (PodKey podMetadata)
    = (im, Some e) ->
  exists fmt dp',
    dataplaneUpdate op dp setNames podMetadata = (dp', Some (Wrapped fmt [] e))
    /\ updatePodCache dp' = updatePodCache dp.
Proof.
  destruct op; simpl; intros H.
  - unfold AddToSets. rewrite H. eexists _, _. split; reflexivity.
  - unfold RemoveFromSets. rewrite H. eexists _, _. split; reflexivity.
Qed.

(** *** The history only grows *)

Lemma commits_app tr1 tr2 : commits (tr1 ++ tr2) = (commits tr1 + commits tr2)%nat.
Proof. unfold commits. rewrite filter_app, length_app. reflexivity. Qed.

Lemma commits_snoc tr e :
  commits (tr ++ [e]) = (commits tr + (if isApplyIPSets e then 1 else 0))%nat.
Proof.
  rewrite commits_app. f_equal. unfold commits.
  destruct e; reflexivity.
Qed.

Lemma set_managed_trace m (dp : DataPlane) : trace (set_managed m dp) = trace dp.
Proof. destruct m as [[pm im] ec]. reflexivity. Qed.

Lemma set_managed_applyInfo m (dp : DataPlane) :
  applyInfo_numBatches (set_managed m dp) = applyInfo_numBatches dp.
Proof. destruct m as [[pm im] ec]. reflexivity. Qed.

Lemma set_managed_updatePodCache m (dp : DataPlane) :
  updatePodCache (set_managed m dp) = updatePodCache dp.
Proof. destruct m as [[pm im] ec]. reflexivity. Qed.

(** *** The set-apply flush *)

(** One turn of the drain loop, for a queue that is not empty. *)
Lemma drainUpdatePods_step fuel (dp : DataPlane) :
  upc_isEmpty (updatePodCache dp) = false ->
  drainUpdatePods (S fuel) dp =
    let '(q, pod) := upc_dequeue (updatePodCache dp) in
    let dp := set_updatePodCache q dp in
    match pod with
    | None =>
      (emit (ErrorMetric "[DataPlane] failed to dequeue pod while applying the dataplane"
               [] None) dp,
       Returned tt)
    | Some pod =>
      let '(m, err) := updatePod (managed dp) pod in
      let dp := emit (CallUpdatePod (PodKeyOf pod) err) (set_managed m dp) in
      match err with
      | Some e =>
        let dp :=
          emit (ErrorMetric
                  "failed to update pod while applying the dataplane. key: [%s], err: [%s]"
                  [PodKeyOf pod] (Some e)) dp in
        let dp :=
          emit (CallRequeue (PodKeyOf pod))
               (set_updatePodCache (upc_requeue (updatePodCache dp) pod) dp) in
        drainUpdatePods fuel dp
      | None => drainUpdatePods fuel dp
      end
    end.
Proof. intros H. simpl. rewrite H. reflexivity. Qed.

Lemma drainUpdatePods_empty fuel (dp : DataPlane) :
  upc_isEmpty (updatePodCache dp) = true ->
  drainUpdatePods fuel dp = (dp, Returned tt).
Proof. intros H. destruct fuel; simpl; rewrite H; reflexivity. Qed.

(** The drain asks for no commit and leaves both counters and the
    pending-cleanup table alone. *)
Lemma drainUpdatePods_keeps fuel : forall dp : DataPlane,
  let dp' := fst (drainUpdatePods fuel dp) in
  applyInfo_numBatches dp' = applyInfo_numBatches dp
  /\ netPolInfo_numBatches dp' = netPolInfo_numBatches dp
  /\ toDeleteNetPolReferences dp' = toDeleteNetPolReferences dp
  /\ commits (trace dp') = commits (trace dp).
Proof.
  induction fuel as [|fuel IH]; intros dp; simpl.
  - destruct (upc_isEmpty (updatePodCache dp)); simpl; auto.
  - destruct (upc_isEmpty (updatePodCache dp)); simpl; [auto|].
    destruct (upc_dequeue (updatePodCache dp)) as [q [pod|]]; simpl.
    + destruct (updatePod _ pod) as [[[pm im] ec] [e|]]; simpl.
      * match goal with |- context [drainUpdatePods fuel ?d] =>
          destruct (IH d) as (H1 & H2 & H3 & H4) end.
        rewrite H1, H2, H3, H4. simpl.
        rewrite !commits_snoc. simpl. repeat split; lia.
      * match goal with |- context [drainUpdatePods fuel ?d] =>
          destruct (IH d) as (H1 & H2 & H3 & H4) end.
        rewrite H1, H2, H3, H4. simpl.
        rewrite !commits_snoc. simpl. repeat split; lia.
    + rewrite commits_snoc. simpl. repeat split; lia.
Qed.

(** Every run of applyDataPlaneNow asks the backend for one commit. *)
Lemma applyDataPlaneNow_commits fuel context (dp : DataPlane) :
  commits (trace (fst (applyDataPlaneNow fuel context dp))) = S (commits (trace dp)).
Proof.
  unfold applyDataPlaneNow.
  destruct (ipsets_ApplyIPSets (ipsetMgr dp)) as [im [e|]]; simpl.
  - rewrite commits_snoc. simpl. lia.
  - destruct shouldUpdatePod.
    + match goal with |- context [upc_isEmpty ?q] => destruct (upc_isEmpty q) end.
      * destruct (applyInBackground dp); simpl; rewrite commits_snoc; simpl; lia.
      * match goal with |- context [refreshPodEndpoints ?c] =>
          destruct (refreshPodEndpoints c) as [ec [e|]] end; simpl.
        -- rewrite !commits_snoc. simpl.
           destruct (applyInBackground dp); simpl; rewrite commits_snoc; simpl; lia.
        -- match goal with |- context [drainUpdatePods fuel ?d] =>
             pose proof (drainUpdatePods_keeps fuel d) as (_ & _ & _ & H4);
             destruct (drainUpdatePods fuel d) as [d' [u|w|]] end;
           simpl in *; rewrite H4, commits_snoc;
           destruct (applyInBackground dp); simpl; rewrite commits_snoc; simpl; lia.
    + destruct (applyInBackground dp); simpl; rewrite commits_snoc; simpl; lia.
Qed.

(** After a commit that succeeded, with background apply on, the apply
    counter is zero, whether the drain that follows has ended or not. *)
Lemma applyDataPlaneNow_resets fuel context (dp : DataPlane) im :
  applyInBackground dp = true ->
  ipsets_ApplyIPSets (ipsetMgr dp) = (im, None) ->
  applyInfo_numBatches (fst (applyDataPlaneNow fuel context dp)) = 0.
Proof.
  intros Hbg Hok. unfold applyDataPlaneNow. rewrite Hok. simpl. rewrite Hbg.
  destruct shouldUpdatePod; [|reflexivity].
  match goal with |- context [upc_isEmpty ?q] => destruct (upc_isEmpty q) end; [reflexivity|].
  match goal with |- context [refreshPodEndpoints ?c] =>
    destruct (refreshPodEndpoints c) as [ec [e|]] end; simpl; [reflexivity|].
  match goal with |- context [drainUpdatePods fuel ?d] =>
    pose proof (drainUpdatePods_keeps fuel d) as (H1 & _);
    destruct (drainUpdatePods fuel d) as [d' [u|w|]] end;
  simpl in *; rewrite H1; reflexivity.
Qed.

(** A commit that failed: the error comes back wrapped and only the
    manager's own state and the history have moved. *)
Lemma applyDataPlaneNow_failed fuel context (dp : DataPlane) im e :
  ipsets_ApplyIPSets (ipsetMgr dp) = (im, Some e) ->
  applyDataPlaneNow fuel context dp =
    (emit (CallApplyIPSets (Some e)) (set_ipsetMgr im dp),
     Returned (Some (Wrapped "[DataPlane] [%s] error while applying IPSets: %w" [context] e))).
Proof. intros H. unfold applyDataPlaneNow. rewrite H. reflexivity. Qed.

Lemma reconcileDirtyNetPolsNow_failed context (dp : DataPlane) pm e :
  policies_ReconcileDirtyNetPols (policyMgr dp) = (pm, Some e) ->
  reconcileDirtyNetPolsNow context dp =
    (emit (ErrorMetric "[DataPlane] [%s] failed to reconcile dirty network policies due to %s"
             [context] (Some e))
       (emit (CallReconcileDirtyNetPols (Some e)) (set_policyMgr pm dp)),
     Some (Wrapped "[DataPlane] [%s] failed to reconcile dirty network policies. err: %w"
             [context] e)).
Proof. intros H. unfold reconcileDirtyNetPolsNow. rewrite H. reflexivity. Qed.

(** C5: a flush that fails leaves the bookkeeping as it was.  When
    ApplyIPSets fails inside applyDataPlaneNow the apply counter keeps
    its value, and when ReconcileDirtyNetPols fails inside
    reconcileDirtyNetPolsNow the rule counter and the pending-cleanup
    table keep theirs; in both cases the error is returned and the pod
    queue and the endpoint cache are untouched too. *)
Theorem failed_flush_keeps_counters fuel context (dp : DataPlane) :
  (forall im e,
      ipsets_ApplyIPSets (ipsetMgr dp) = (im, Some e) ->
      exists dp' fmt,
        applyDataPlaneNow fuel context dp = (dp', Returned (Some (Wrapped fmt [context] e)))
        /\ sameBookkeeping dp' dp)
  /\ (forall pm e,
      policies_ReconcileDirtyNetPols (policyMgr dp) = (pm, Some e) ->
      exists dp' fmt,
        reconcileDirtyNetPolsNow context dp = (dp', Some (Wrapped fmt [context] e))
        /\ sameBookkeeping dp' dp).
Proof.
  split.
  - intros im e H. rewrite (applyDataPlaneNow_failed _ _ _ _ _ H).
    eexists _, _. split; [reflexivity|]. repeat split.
  - intros pm e H. rewrite (reconcileDirtyNetPolsNow_failed _ _ _ _ H).
    eexists _, _. split; [reflexivity|]. repeat split.
Qed.

(** *** The batch threshold *)

Lemma set_applyInfo_numBatches_same (dp : DataPlane) :
  set_applyInfo_numBatches (applyInfo_numBatches dp) dp = dp.
Proof. destruct dp; reflexivity. Qed.

(** Below the threshold a call of ApplyDataPlane only counts. *)
Lemma ApplyDataPlane_below fuel (dp : DataPlane) :
  applyInBackground dp = true ->
  min_int <= applyInfo_numBatches dp < max_int ->
  applyInfo_numBatches dp + 1 < ApplyMaxBatches (cfg dp) ->
  ApplyDataPlane fuel dp =
    (set_applyInfo_numBatches (applyInfo_numBatches dp + 1) dp, Returned None).
Proof.
  intros Hbg Hr Hlt. unfold ApplyDataPlane. rewrite Hbg.
  unfold incrementBatchAndApplyIfNeeded.
  rewrite (GoIntFacts.int_incr_small _ Hr). simpl.
  destruct (Z.leb_spec (ApplyMaxBatches (cfg dp)) (applyInfo_numBatches dp + 1)); [lia|].
  reflexivity.
Qed.

Lemma applyCalls_below fuel (dp : DataPlane) (j : nat) :
  applyInBackground dp = true ->
  applyInfo_numBatches dp = 0 ->
  ApplyMaxBatches (cfg dp) <= max_int ->
  Z.of_nat j < ApplyMaxBatches (cfg dp) ->
  applyCalls fuel j dp = set_applyInfo_numBatches (Z.of_nat j) dp.
Proof.
  intros Hbg H0 Hmax. induction j as [|j IH]; intros Hj.
  - pose proof (set_applyInfo_numBatches_same dp) as E. rewrite H0 in E.
    symmetry. exact E.
  - simpl applyCalls. rewrite IH by lia.
    rewrite ApplyDataPlane_below; simpl; try assumption.
    + unfold set_applyInfo_numBatches; simpl. f_equal. lia.
    + unfold min_int, max_int in *. lia.
    + lia.
Qed.

(** At the threshold the call goes on to applyDataPlaneNow. *)
Lemma ApplyDataPlane_at_threshold fuel (dp : DataPlane) :
  applyInBackground dp = true ->
  min_int <= applyInfo_numBatches dp < max_int ->
  ApplyMaxBatches (cfg dp) <= applyInfo_numBatches dp + 1 ->
  ApplyDataPlane fuel dp =
    applyDataPlaneNow fuel contextApplyDP
      (set_applyInfo_numBatches (applyInfo_numBatches dp + 1) dp).
Proof.
  intros Hbg Hr Hge. unfold ApplyDataPlane. rewrite Hbg.
  unfold incrementBatchAndApplyIfNeeded.
  rewrite (GoIntFacts.int_incr_small _ Hr). simpl.
  destruct (Z.leb_spec (ApplyMaxBatches (cfg dp)) (applyInfo_numBatches dp + 1)); [|lia].
  reflexivity.
Qed.

(** C4, as amended: with background apply on, a maximum of [N >= 1]
    and the apply counter at zero, each of the first [N - 1] calls of
    ApplyDataPlane returns nil, asks the backend for no commit and
    leaves the counter at the number of calls made so far; the [N]-th
    call asks for exactly one commit, and it sets the counter back to
    zero when that commit succeeds; when the commit fails the call
    returns the error and the counter stays at [N]. *)
Theorem batch_threshold fuel (dp : DataPlane) (N : Z) :
  applyInBackground dp = true ->
  ApplyMaxBatches (cfg dp) = N ->
  1 <= N <= max_int ->
  applyInfo_numBatches dp = 0 ->
  (forall j : nat,
      Z.of_nat j < N - 1 ->
      snd (ApplyDataPlane fuel (applyCalls fuel j dp)) = Returned None
      /\ applyInfo_numBatches (applyCalls fuel (S j) dp) = Z.of_nat (S j)
      /\ commits (trace (applyCalls fuel (S j) dp)) = commits (trace dp)
      /\ ipsetMgr (applyCalls fuel (S j) dp) = ipsetMgr dp)
  /\ (let last := ApplyDataPlane fuel (applyCalls fuel (Z.to_nat (N - 1)) dp) in
      commits (trace (fst last)) = S (commits (trace dp))
      /\ match ipsets_ApplyIPSets (ipsetMgr dp) with
         | (_, None) => applyInfo_numBatches (fst last) = 0
         | (_, Some e) =>
           applyInfo_numBatches (fst last) = N
           /\ exists fmt ctx, snd last = Returned (Some (Wrapped fmt ctx e))
         end).
Proof.
  intros Hbg HN Hrange H0. split.
  - intros j Hj.
    rewrite (applyCalls_below fuel dp (S j)) by (try assumption; lia).
    rewrite (applyCalls_below fuel dp j) by (try assumption; lia).
    rewrite ApplyDataPlane_below; simpl; try assumption.
    + repeat split.
    + unfold min_int, max_int in *. lia.
    + lia.
  - rewrite (applyCalls_below fuel dp (Z.to_nat (N - 1))) by (try assumption; lia).
    rewrite Z2Nat.id by lia.
    rewrite ApplyDataPlane_at_threshold; simpl; try assumption.
    2: { unfold min_int, max_int in *. lia. }
    2: { lia. }
    split.
    + rewrite applyDataPlaneNow_commits. reflexivity.
    + destruct (ipsets_ApplyIPSets (ipsetMgr dp)) as [im [e|]] eqn:Happly.
      * erewrite applyDataPlaneNow_failed by (simpl; exact Happly).
        simpl. split; [lia|]. eexists _, _. reflexivity.
      * eapply applyDataPlaneNow_resets; simpl; [assumption | exact Happly].
Qed.

(** *** The drain of the pod queue *)

Lemma newEvents_app (a b : DataPlane) new :
  trace b = (trace a ++ new)%list -> newEvents a b = new.
Proof. intros H. unfold newEvents. rewrite H. apply drop_app_length. Qed.

Lemma drainUpdatePods_events fuel : forall dp : DataPlane,
  exists new,
    trace (fst (drainUpdatePods fuel dp)) = (trace dp ++ new)%list
    /\ failedUpdatesRequeued new.
Proof.
  induction fuel as [|fuel IH]; intros dp; simpl.
  - exists []. destruct (upc_isEmpty (updatePodCache dp)); simpl;
      rewrite app_nil_r; split; auto.
  - destruct (upc_isEmpty (updatePodCache dp)); simpl.
    { exists []. rewrite app_nil_r. split; simpl; auto. }
    destruct (upc_dequeue (updatePodCache dp)) as [q [pod|]]; simpl.
    + destruct (updatePod _ pod) as [m [e|]]; simpl.
      * match goal with |- context [drainUpdatePods fuel ?d] =>
          destruct (IH d) as (new & Htr & Hnew) end.
        eexists. split.
        -- rewrite Htr. simpl. rewrite set_managed_trace. simpl.
           rewrite <- !app_assoc. simpl. reflexivity.
        -- simpl. auto.
      * match goal with |- context [drainUpdatePods fuel ?d] =>
          destruct (IH d) as (new & Htr & Hnew) end.
        eexists. split.
        -- rewrite Htr. simpl. rewrite set_managed_trace. simpl.
           rewrite <- !app_assoc. simpl. reflexivity.
        -- simpl. auto.
    + eexists. split; [reflexivity|]. simpl. auto.
Qed.

(** The drain stops, out of steps, only on a queue that still holds a
    pod; it never ends in an error or in a panic. *)
Lemma drainUpdatePods_outcome fuel : forall dp : DataPlane,
  snd (drainUpdatePods fuel dp) = Returned tt
  \/ (snd (drainUpdatePods fuel dp) = Unfinished
      /\ upc_isEmpty (updatePodCache (fst (drainUpdatePods fuel dp))) = false).
Proof.
  induction fuel as [|fuel IH]; intros dp; simpl.
  - destruct (upc_isEmpty (updatePodCache dp)) eqn:E; simpl; auto.
  - destruct (upc_isEmpty (updatePodCache dp)) eqn:E; simpl; auto.
    destruct (upc_dequeue (updatePodCache dp)) as [q [pod|]]; simpl; auto.
    destruct (updatePod _ pod) as [m [e|]]; simpl; apply IH.
Qed.

(** More steps do not change a drain that has ended. *)
Lemma drainUpdatePods_more_fuel fuel : forall (dp dp' : DataPlane) extra,
  drainUpdatePods fuel dp = (dp', Returned tt) ->
  drainUpdatePods (fuel + extra) dp = (dp', Returned tt).
Proof.
  induction fuel as [|fuel IH]; intros dp dp' extra.
  - simpl. destruct (upc_isEmpty (updatePodCache dp)) eqn:E; [|discriminate].
    intros [= <-]. apply drainUpdatePods_empty. exact E.
  - simpl. destruct (upc_isEmpty (updatePodCache dp)) eqn:E; [auto|].
    destruct (upc_dequeue (updatePodCache dp)) as [q [pod|]]; simpl; auto.
    destruct (updatePod _ pod) as [m [e|]]; simpl; apply IH.
Qed.

(** What holds of every run of applyDataPlaneNow: each pod whose
    updatePod fails is put back in the pod-update queue, right after the
    error metric that reports the failure, and a failed pod update never
    becomes the result of the flush: a run that has returned has
    returned nil, unless ApplyIPSets itself failed, and a run that has
    not returned yet is one whose queue is still not empty. *)
Lemma failed_pod_updates_are_requeued fuel context (dp : DataPlane) :
  let run := applyDataPlaneNow fuel context dp in
  failedUpdatesRequeued (newEvents dp (fst run))
  /\ match snd run with
     | Returned None => True
     | Returned (Some err) =>
       exists im e, ipsets_ApplyIPSets (ipsetMgr dp) = (im, Some e)
                    /\ err = Wrapped "[DataPlane] [%s] error while applying IPSets: %w"
                               [context] e
     | Unfinished => upc_isEmpty (updatePodCache (fst run)) = false
     | Panicked _ => False
     end.
Proof.
  unfold applyDataPlaneNow.
  destruct (ipsets_ApplyIPSets (ipsetMgr dp)) as [im [e|]] eqn:Happly; simpl.
  - split.
    + erewrite newEvents_app by reflexivity. simpl. exact I.
    + eauto.
  - destruct shouldUpdatePod.
    2: { split; [|exact I]. erewrite newEvents_app.
         2: { destruct (applyInBackground dp); reflexivity. }
         simpl. exact I. }
    match goal with |- context [upc_isEmpty ?q] => destruct (upc_isEmpty q) eqn:Hq end.
    { split; [|exact I]. erewrite newEvents_app.
      2: { destruct (applyInBackground dp); reflexivity. }
      simpl. exact I. }
    match goal with |- context [refreshPodEndpoints ?c] =>
      destruct (refreshPodEndpoints c) as [ec [e|]] end; simpl.
    { split; [|exact I]. erewrite newEvents_app.
      2: { destruct (applyInBackground dp); simpl; rewrite <- !app_assoc; reflexivity. }
      simpl. exact I. }
    match goal with |- context [drainUpdatePods fuel ?d] =>
      destruct (drainUpdatePods_events fuel d) as (new & Htr & Hnew);
      pose proof (drainUpdatePods_outcome fuel d) as Hout;
      destruct (drainUpdatePods fuel d) as [d' o] end.
    simpl in *. split.
    + erewrite newEvents_app.
      2: { destruct o; simpl; rewrite Htr;
           destruct (applyInBackground dp); simpl; rewrite <- !app_assoc; reflexivity. }
      simpl. exact Hnew.
    + destruct Hout as [-> | [-> Hne]]; simpl; auto.
Qed.

(** *** Kinds of events a step can add *)

Lemma grows_same K (a b : DataPlane) : trace b = trace a -> grows K a b.
Proof. intros H. exists []. rewrite app_nil_r. split; [exact H | constructor]. Qed.

Lemma grows_trans K (a b c : DataPlane) : grows K a b -> grows K b c -> grows K a c.
Proof.
  intros (n1 & H1 & F1) (n2 & H2 & F2). exists (n1 ++ n2)%list. split.
  - rewrite H2, H1, app_assoc. reflexivity.
  - apply Forall_app. split; assumption.
Qed.

Lemma grows_emit K (a b : DataPlane) e :
  K e = true -> trace b = trace a -> grows K a (emit e b).
Proof.
  intros HK H. exists [e]. simpl. rewrite H. split; [reflexivity|].
  constructor; [exact HK | constructor].
Qed.

Lemma grows_weaken (K K' : Event -> bool) (a b : DataPlane) :
  (forall e, K e = true -> K' e = true) -> grows K a b -> grows K' a b.
Proof.
  intros HKK (new & H & F). exists new. split; [exact H|].
  eapply Forall_impl; [exact F | exact HKK].
Qed.

Lemma grows_newEvents K (a b : DataPlane) :
  grows K a b -> Forall (fun e => K e = true) (newEvents a b).
Proof. intros (new & H & F). rewrite (newEvents_app _ _ _ H). exact F. Qed.

Lemma createReferences_grows sets netpolName referenceType : forall dp : DataPlane,
  grows isSetCreationStep dp (fst (createReferences sets netpolName referenceType dp)).
Proof.
  induction sets as [|set rest IH]; intros dp; simpl.
  - apply grows_same. reflexivity.
  - destruct (ipsets_AddReference _ _ _ _) as [im [e|]]; simpl.
    + eapply grows_trans; [|apply grows_emit; reflexivity].
      apply grows_emit; reflexivity.
    + eapply grows_trans; [|apply IH].
      eapply grows_trans; [|apply grows_emit; reflexivity].
      apply grows_emit; reflexivity.
Qed.

Lemma addIPBlocks_grows set referenceType members : forall dp : DataPlane,
  grows isSetCreationStep dp (fst (addIPBlocks set members referenceType dp)).
Proof.
  induction members as [|ipblock rest IH]; intros dp; simpl.
  - apply grows_same. reflexivity.
  - destruct (ipsets_AddToSets _ _ _ _) as [im [e|]]; simpl.
    + apply grows_emit; reflexivity.
    + eapply grows_trans; [|apply IH]. apply grows_emit; reflexivity.
Qed.

Lemma addTranslatedMembers_grows referenceType sets : forall dp : DataPlane,
  grows isSetCreationStep dp (fst (addTranslatedMembers sets referenceType dp)).
Proof.
  induction sets as [|set rest IH]; intros dp; simpl.
  - apply grows_same. reflexivity.
  - destruct (bool_decide (Type_ (Metadata set) = CIDRBlocks)).
    + pose proof (addIPBlocks_grows set referenceType (Members set) dp) as H.
      destruct (addIPBlocks set (Members set) referenceType dp) as [d [e|]]; simpl in *.
      * exact H.
      * eapply grows_trans; [exact H | apply IH].
    + destruct (bool_decide (Type_ (Metadata set) = NestedLabelOfPod)
                && (0 <? Z.of_nat (length (Members set)))).
      * destruct (ipsets_AddToLists _ _ _) as [im [e|]]; simpl.
        -- apply grows_emit; reflexivity.
        -- eapply grows_trans; [|apply IH]. apply grows_emit; reflexivity.
      * apply IH.
Qed.

Lemma createIPSetsAndReferences_grows sets netpolName referenceType (dp : DataPlane) :
  grows isSetCreationStep dp
    (fst (createIPSetsAndReferences sets netpolName referenceType dp)).
Proof.
  unfold createIPSetsAndReferences.
  pose proof (createReferences_grows sets netpolName referenceType dp) as H.
  destruct (createReferences sets netpolName referenceType dp) as [d [e|]]; simpl in *.
  - exact H.
  - eapply grows_trans; [exact H | apply addTranslatedMembers_grows].
Qed.

Lemma drainUpdatePods_grows fuel : forall dp : DataPlane,
  grows isFlushStep dp (fst (drainUpdatePods fuel dp)).
Proof.
  induction fuel as [|fuel IH]; intros dp; simpl.
  - destruct (upc_isEmpty (updatePodCache dp)); apply grows_same; reflexivity.
  - destruct (upc_isEmpty (updatePodCache dp)); [apply grows_same; reflexivity|].
    destruct (upc_dequeue (updatePodCache dp)) as [q [pod|]]; simpl.
    + destruct (updatePod _ pod) as [m [e|]]; simpl.
      * eapply grows_trans; [|apply IH].
        eapply grows_trans; [|apply grows_emit; reflexivity].
        eapply grows_trans; [|apply grows_emit; reflexivity].
        apply grows_emit; [reflexivity|]. rewrite set_managed_trace. reflexivity.
      * eapply grows_trans; [|apply IH].
        apply grows_emit; [reflexivity|]. rewrite set_managed_trace. reflexivity.
    + apply grows_emit; reflexivity.
Qed.

Lemma applyDataPlaneNow_grows fuel context (dp : DataPlane) :
  grows isFlushStep dp (fst (applyDataPlaneNow fuel context dp)).
Proof.
  unfold applyDataPlaneNow.
  destruct (ipsets_ApplyIPSets (ipsetMgr dp)) as [im [e|]]; simpl.
  - apply grows_emit; reflexivity.
  - assert (grows isFlushStep dp
              (if applyInBackground dp
               then set_applyInfo_numBatches 0 (emit (CallApplyIPSets None) (set_ipsetMgr im dp))
               else emit (CallApplyIPSets None) (set_ipsetMgr im dp))) as H0.
    { destruct (applyInBackground dp).
      - exists [CallApplyIPSets None]. split; [reflexivity|]. repeat constructor.
      - apply grows_emit; reflexivity. }
    destruct shouldUpdatePod; [|exact H0].
    match goal with |- context [upc_isEmpty ?q] => destruct (upc_isEmpty q) end; [exact H0|].
    match goal with |- context [refreshPodEndpoints ?c] =>
      destruct (refreshPodEndpoints c) as [ec [e|]] end; simpl.
    + eapply grows_trans; [exact H0|].
      eapply grows_trans; [|apply grows_emit; reflexivity].
      apply grows_emit; reflexivity.
    + match goal with |- context [drainUpdatePods fuel ?d] =>
        pose proof (drainUpdatePods_grows fuel d) as Hd;
        destruct (drainUpdatePods fuel d) as [d' o] end.
      simpl in Hd.
      assert (grows isFlushStep dp d') as H1.
      { eapply grows_trans; [exact H0|].
        eapply grows_trans; [|exact Hd]. apply grows_emit; reflexivity. }
      destruct o; exact H1.
Qed.

(** *** AddPolicy *)

Lemma creation_is_not_later e : isSetCreationStep e = true -> isLaterAddPolicyStep e = false.
Proof. destruct e; simpl; congruence. Qed.

Lemma creation_is_not_delete e :
  isSetCreationStep e = true -> negb (isDeleteReference e) = true.
Proof. destruct e; simpl; congruence. Qed.

Lemma flush_is_not_delete e : isFlushStep e = true -> negb (isDeleteReference e) = true.
Proof. destruct e; simpl; congruence. Qed.

Lemma no_delete_newEvents (a b : DataPlane) :
  grows (fun e => negb (isDeleteReference e)) a b ->
  Forall (fun e => isDeleteReference e = false) (newEvents a b).
Proof.
  intros H. apply grows_newEvents in H.
  eapply Forall_impl; [exact H|]. intros e He. simpl in He.
  destruct (isDeleteReference e); [discriminate | reflexivity].
Qed.

(** C8: in AddPolicy a failure while creating the selector-set
    references or the rule-set references is returned at once, from the
    state in which the failure happened and before any event of the
    forced apply, of the endpoint resolution or of the rule install; a
    failure of the endpoint resolution or of the rule install is
    returned to the caller, and in the whole run up to that return no
    reference has been deleted. *)
Theorem AddPolicy_failure_order fuel (dp : DataPlane) (policy : NPMNetworkPolicy) :
  (forall dp1 e,
      createIPSetsAndReferences (AllPodSelectorIPSets policy) (PolicyKey policy)
        SelectorType dp = (dp1, Some e) ->
      AddPolicy fuel dp policy =
        (dp1, Returned (Some (Wrapped
           "[DataPlane] error while adding Selector IPSet references: %w" [] e)))
      /\ Forall (fun ev => isLaterAddPolicyStep ev = false) (newEvents dp dp1))
  /\ (forall dp1 dp2 e,
      createIPSetsAndReferences (AllPodSelectorIPSets policy) (PolicyKey policy)
        SelectorType dp = (dp1, None) ->
      createIPSetsAndReferences (RuleIPSets policy) (PolicyKey policy) NetPolType dp1
        = (dp2, Some e) ->
      AddPolicy fuel dp policy =
        (dp2, Returned (Some (Wrapped
           "[DataPlane] error while adding Rule IPSet references: %w" [] e)))
      /\ Forall (fun ev => isLaterAddPolicyStep ev = false) (newEvents dp dp2))
  /\ (forall dp1 dp2 dp3 ec endpointList e,
      createIPSetsAndReferences (AllPodSelectorIPSets policy) (PolicyKey policy)
        SelectorType dp = (dp1, None) ->
      createIPSetsAndReferences (RuleIPSets policy) (PolicyKey policy) NetPolType dp1
        = (dp2, None) ->
      applyDataPlaneNow fuel contextAddNetPol dp2 = (dp3, Returned None) ->
      getEndpointsToApplyPolicy (ipsetMgr dp3) (endpointCache dp3) policy
        = (ec, endpointList, Some e) ->
      exists dp',
        AddPolicy fuel dp policy =
          (dp', Returned (Some (Wrapped
             "[DataPlane] error while getting endpoints to apply policy after applying dataplane: %w"
             [] e)))
        /\ ipsetMgr dp' = ipsetMgr dp3
        /\ Forall (fun ev => isDeleteReference ev = false) (newEvents dp dp'))
  /\ (forall dp1 dp2 dp3 ec endpointList pm e,
      createIPSetsAndReferences (AllPodSelectorIPSets policy) (PolicyKey policy)
        SelectorType dp = (dp1, None) ->
      createIPSetsAndReferences (RuleIPSets policy) (PolicyKey policy) NetPolType dp1
        = (dp2, None) ->
      applyDataPlaneNow fuel contextAddNetPol dp2 = (dp3, Returned None) ->
      getEndpointsToApplyPolicy (ipsetMgr dp3) (endpointCache dp3) policy
        = (ec, endpointList, None) ->
      policies_AddPolicy (policyMgr dp3) policy endpointList = (pm, Some e) ->
      exists dp',
        AddPolicy fuel dp policy =
          (dp', Returned (Some (Wrapped "[DataPlane] error while adding policy: %w" [] e)))
        /\ ipsetMgr dp' = ipsetMgr dp3
        /\ Forall (fun ev => isDeleteReference ev = false) (newEvents dp dp')).
Proof.
  pose proof (createIPSetsAndReferences_grows (AllPodSelectorIPSets policy)
                (PolicyKey policy) SelectorType dp) as G1.
  repeat split.
  - unfold AddPolicy. rewrite H. reflexivity.
  - rewrite H in G1. simpl in G1. apply grows_newEvents in G1.
    eapply Forall_impl; [exact G1 | exact creation_is_not_later].
  - unfold AddPolicy. rewrite H, H0. reflexivity.
  - rewrite H in G1. simpl in G1.
    pose proof (createIPSetsAndReferences_grows (RuleIPSets policy)
                  (PolicyKey policy) NetPolType dp1) as G2.
    rewrite H0 in G2. simpl in G2.
    pose proof (grows_trans _ _ _ _ G1 G2) as G. apply grows_newEvents in G.
    eapply Forall_impl; [exact G | exact creation_is_not_later].
  - intros dp1 dp2 dp3 ec endpointList e H1 H2 H3 H4.
    rewrite H1 in G1. simpl in G1.
    pose proof (createIPSetsAndReferences_grows (RuleIPSets policy)
                  (PolicyKey policy) NetPolType dp1) as G2.
    rewrite H2 in G2. simpl in G2.
    pose proof (applyDataPlaneNow_grows fuel contextAddNetPol dp2) as G3.
    rewrite H3 in G3. simpl in G3.
    eexists. split; [|split].
    + unfold AddPolicy. rewrite H1, H2, H3, H4. reflexivity.
    + reflexivity.
    + apply no_delete_newEvents.
      eapply grows_trans; [eapply grows_weaken; [exact creation_is_not_delete | exact G1]|].
      eapply grows_trans; [eapply grows_weaken; [exact creation_is_not_delete | exact G2]|].
      eapply grows_trans; [eapply grows_weaken; [exact flush_is_not_delete | exact G3]|].
      apply grows_emit; reflexivity.
  - intros dp1 dp2 dp3 ec endpointList pm e H1 H2 H3 H4 H5.
    rewrite H1 in G1. simpl in G1.
    pose proof (createIPSetsAndReferences_grows (RuleIPSets policy)
                  (PolicyKey policy) NetPolType dp1) as G2.
    rewrite H2 in G2. simpl in G2.
    pose proof (applyDataPlaneNow_grows fuel contextAddNetPol dp2) as G3.
    rewrite H3 in G3. simpl in G3.
    eexists. split; [|split].
    + unfold AddPolicy. rewrite H1, H2, H3, H4. simpl. rewrite H5. reflexivity.
    + reflexivity.
    + apply no_delete_newEvents.
      eapply grows_trans; [eapply grows_weaken; [exact creation_is_not_delete | exact G1]|].
      eapply grows_trans; [eapply grows_weaken; [exact creation_is_not_delete | exact G2]|].
      eapply grows_trans; [eapply grows_weaken; [exact flush_is_not_delete | exact G3]|].
      eapply grows_trans; [|apply grows_emit; reflexivity].
      apply grows_emit; reflexivity.
Qed.

(** *** Removing the references of a policy *)






Lemma deleteReferenceOf_iptablesInBackground netpolName referenceType (dp : DataPlane) set :
  iptablesInBackground (deleteReferenceOf netpolName referenceType dp set)
  = iptablesInBackground dp.
Proof.
  unfold deleteReferenceOf, releaseReference.
  destruct (iptablesInBackground dp) eqn:E.
  - destruct (ipsets_AddReference _ _ _ _) as [im [e|]]; simpl; [exact E|].
    destruct (ipsets_DeleteReference _ _ _ _) as [im' err]. simpl. exact E.
  - destruct (ipsets_DeleteReference _ _ _ _) as [im' err]. simpl. exact E.
Qed.

(** Under batching, a set whose temporary reference was added is
    recorded in the pending-cleanup table: the policy key is appended to
    the list kept under the name of the set. *)
Lemma deleteReferenceOf_records netpolName referenceType (dp : DataPlane) set im :
  iptablesInBackground dp = true ->
  ipsets_AddReference (ipsetMgr dp) (Metadata set) (temporaryKey netpolName) referenceType
    = (im, None) ->
  toDeleteNetPolReferences (deleteReferenceOf netpolName referenceType dp set)
    !! GetPrefixName (Metadata set)
  = Some (default [] (toDeleteNetPolReferences dp !! GetPrefixName (Metadata set))
          ++ [netpolName])%list.
Proof.
  intros Hbg Hadd. unfold deleteReferenceOf, releaseReference. rewrite Hbg.
  unfold temporaryKey in Hadd. rewrite Hadd. simpl.
  destruct (ipsets_DeleteReference _ _ _ _) as [im' err]. simpl.
  apply lookup_insert_eq.
Qed.

(** What the flush does with an entry [s -> [p]] of that table: it asks
    for the deletion of the reference "TMP" + [s] from the set [p]. *)
Lemma releaseTemporaryReferences_entry (dp : DataPlane) s p :
  releaseTemporaryReferences dp (s, [p]) = releaseReference p (temporaryKey s) NetPolType dp.
Proof. reflexivity. Qed.





Section References.

Context (holds : IPSetManager -> string -> string -> ReferenceType -> Prop).
Context `{!ReferenceLaws holds}.



End References.

(** *** RemovePolicy *)

Lemma copyEndpoints_same (podEndpoints : gmap string string) :
  copyEndpoints podEndpoints = podEndpoints.
Proof.
  unfold copyEndpoints.
  apply (map_fold_weak_ind (fun (r : gmap string string) m => r = m)).
  - reflexivity.
  - intros i x m r _ ->. reflexivity.
Qed.

Lemma pruneEndpoint_keeps_unreferenced podEndpoints policyKey podIP ip
    (cache : gmap string npmEndpoint) :
  unreferenced policyKey podIP cache ->
  unreferenced policyKey podIP (pruneEndpoint podEndpoints policyKey cache ip).
Proof.
  intros H. unfold pruneEndpoint.
  destruct (podEndpoints !! ip); [exact H|].
  destruct (cache !! ip) as [ep|] eqn:E; [|exact H].
  intros endpoint. destruct (decide (ip = podIP)) as [->|Hne].
  - rewrite lookup_insert_eq. intros [= <-]. simpl.
    rewrite elem_of_difference. intros [_ H']. apply H'. apply elem_of_singleton. reflexivity.
  - rewrite lookup_insert_ne by exact Hne. apply H.
Qed.

Lemma pruneEndpoint_drops podEndpoints policyKey podIP (cache : gmap string npmEndpoint) :
  podEndpoints !! podIP = None ->
  unreferenced policyKey podIP (pruneEndpoint podEndpoints policyKey cache podIP).
Proof.
  intros Hgone. unfold pruneEndpoint. rewrite Hgone.
  destruct (cache !! podIP) as [ep|] eqn:E.
  - intros endpoint. rewrite lookup_insert_eq. intros [= <-]. simpl.
    rewrite elem_of_difference. intros [_ H']. apply H'. apply elem_of_singleton. reflexivity.
  - intros endpoint. rewrite E. discriminate.
Qed.

Lemma prune_fold_keeps podEndpoints policyKey podIP ips : forall cache : gmap string npmEndpoint,
  unreferenced policyKey podIP cache ->
  unreferenced policyKey podIP (foldl (pruneEndpoint podEndpoints policyKey) cache ips).
Proof.
  induction ips as [|ip rest IH]; intros cache H; simpl; [exact H|].
  apply IH. apply pruneEndpoint_keeps_unreferenced. exact H.
Qed.

Lemma prune_fold_drops podEndpoints policyKey podIP ips : forall cache : gmap string npmEndpoint,
  In podIP ips ->
  podEndpoints !! podIP = None ->
  unreferenced policyKey podIP (foldl (pruneEndpoint podEndpoints policyKey) cache ips).
Proof.
  induction ips as [|ip rest IH]; intros cache Hin Hgone; simpl; [destruct Hin|].
  destruct (decide (ip = podIP)) as [->|Hne].
  - apply prune_fold_keeps. apply pruneEndpoint_drops. exact Hgone.
  - destruct Hin as [Heq|Hin]; [contradiction|]. apply IH; assumption.
Qed.

(** The loop over the snapshot: the policy key is dropped at every
    address of the snapshot that the policy no longer lists. *)
Lemma pruneEndpointCache_drops (endpoints podEndpoints : gmap string string) policyKey podIP
    (cache : gmap string npmEndpoint) :
  is_Some (endpoints !! podIP) ->
  podEndpoints !! podIP = None ->
  unreferenced policyKey podIP (pruneEndpointCache endpoints podEndpoints policyKey cache).
Proof.
  intros [id Hid] Hgone. unfold pruneEndpointCache.
  apply prune_fold_drops; [|exact Hgone].
  apply list_elem_of_In. apply list_elem_of_fmap. exists (podIP, id). split; [reflexivity|].
  apply elem_of_map_to_list. exact Hid.
Qed.

(** An address that the policy still lists keeps its references. *)
Lemma pruneEndpointCache_bound (endpoints podEndpoints : gmap string string) policyKey podIP
    (cache : gmap string npmEndpoint) :
  is_Some (podEndpoints !! podIP) ->
  pruneEndpointCache endpoints podEndpoints policyKey cache !! podIP = cache !! podIP.
Proof.
  intros [id Hid]. unfold pruneEndpointCache.
  generalize (map fst (map_to_list endpoints)). intros ips. revert cache.
  induction ips as [|ip rest IH]; intros cache; simpl; [reflexivity|].
  rewrite IH. unfold pruneEndpoint.
  destruct (podEndpoints !! ip) eqn:E; [reflexivity|].
  destruct (cache !! ip); [|reflexivity].
  apply lookup_insert_ne. intros ->. congruence.
Qed.

Lemma RemovePolicy_nil_policy fuel (dp : DataPlane) policyKey ok :
  policies_GetPolicy (policyMgr dp) policyKey = (None, ok) ->
  RemovePolicy fuel dp policyKey = (dp, Panicked nilDereference).
Proof. intros H. unfold RemovePolicy. rewrite H. reflexivity. Qed.

Lemma RemovePolicy_not_found fuel (dp : DataPlane) policyKey policy :
  policies_GetPolicy (policyMgr dp) policyKey = (Some policy, false) ->
  RemovePolicy fuel dp policyKey = (dp, Returned None).
Proof. intros H. unfold RemovePolicy. rewrite H. reflexivity. Qed.

Lemma sameCaches_refl (a : DataPlane) : sameCaches a a.
Proof. split; reflexivity. Qed.

Lemma sameCaches_trans (a b c : DataPlane) : sameCaches a b -> sameCaches b c -> sameCaches a c.
Proof. intros [H1 H2] [H3 H4]. split; congruence. Qed.

Lemma releaseReference_caches s ref t (dp : DataPlane) :
  sameCaches dp (releaseReference s ref t dp).
Proof.
  unfold releaseReference. destruct (ipsets_DeleteReference _ _ _ _) as [im err].
  split; reflexivity.
Qed.

Lemma deleteReferences_caches netpolName referenceType sets : forall dp : DataPlane,
  sameCaches dp (deleteReferences sets netpolName referenceType dp).
Proof.
  unfold deleteReferences.
  induction sets as [|set rest IH]; intros dp; simpl; [apply sameCaches_refl|].
  eapply sameCaches_trans; [|apply IH].
  unfold deleteReferenceOf.
  destruct (iptablesInBackground dp); [|apply releaseReference_caches].
  destruct (ipsets_AddReference _ _ _ _) as [im [e|]]; [split; reflexivity|].
  eapply sameCaches_trans; [|apply releaseReference_caches]. split; reflexivity.
Qed.

Lemma removeIPBlocks_caches set referenceType members : forall dp : DataPlane,
  sameCaches dp (fst (removeIPBlocks set members referenceType dp)).
Proof.
  induction members as [|ipblock rest IH]; intros dp; simpl; [apply sameCaches_refl|].
  destruct (ipsets_RemoveFromSets _ _ _ _) as [im [e|]]; simpl; [split; reflexivity|].
  eapply sameCaches_trans; [|apply IH]. split; reflexivity.
Qed.

Lemma removeTranslatedMembers_caches referenceType sets : forall dp : DataPlane,
  sameCaches dp (fst (removeTranslatedMembers sets referenceType dp)).
Proof.
  induction sets as [|set rest IH]; intros dp; simpl; [apply sameCaches_refl|].
  destruct (bool_decide (Type_ (Metadata set) = CIDRBlocks)).
  - pose proof (removeIPBlocks_caches set referenceType (Members set) dp) as H.
    destruct (removeIPBlocks set (Members set) referenceType dp) as [d [e|]]; simpl in *.
    + exact H.
    + eapply sameCaches_trans; [exact H | apply IH].
  - destruct (bool_decide (GetSetKind (Metadata set) = ListSet)
              && (0 <? Z.of_nat (length (Members set)))).
    + destruct (ipsets_RemoveFromList _ _ _) as [im [e|]]; simpl; [split; reflexivity|].
      eapply sameCaches_trans; [|apply IH]. split; reflexivity.
    + apply IH.
Qed.

Lemma deleteIPSetsAndReferences_caches sets netpolName referenceType (dp : DataPlane) :
  sameCaches dp (fst (deleteIPSetsAndReferences sets netpolName referenceType dp)).
Proof.
  unfold deleteIPSetsAndReferences.
  eapply sameCaches_trans; [apply deleteReferences_caches|].
  apply removeTranslatedMembers_caches.
Qed.

Lemma releaseTemporaryReferences_caches entry (dp : DataPlane) :
  sameCaches dp (releaseTemporaryReferences dp entry).
Proof.
  destruct entry as [policyKey ipsetNames]. unfold releaseTemporaryReferences.
  revert dp. induction ipsetNames as [|x rest IH]; intros dp; simpl; [apply sameCaches_refl|].
  eapply sameCaches_trans; [apply releaseReference_caches | apply IH].
Qed.

Lemma reconcileDirtyNetPolsNow_caches context (dp : DataPlane) :
  sameCaches dp (fst (reconcileDirtyNetPolsNow context dp)).
Proof.
  unfold reconcileDirtyNetPolsNow.
  destruct (policies_ReconcileDirtyNetPols _) as [pm [e|]]; simpl; [split; reflexivity|].
  match goal with |- sameCaches _ (set_toDeleteNetPolReferences _ (foldl _ ?d ?l)) =>
    assert (sameCaches d (foldl releaseTemporaryReferences d l)) as H;
    [generalize l; generalize d|] end.
  { intros d l. revert d. induction l as [|x rest IH]; intros d; simpl;
      [apply sameCaches_refl|].
    eapply sameCaches_trans; [apply releaseTemporaryReferences_caches | apply IH]. }
  destruct H as [H1 H2]. split; simpl; [rewrite H1 | rewrite H2]; reflexivity.
Qed.

Lemma incrementBatchAndReconcileDirtyNetPolsIfNeeded_caches context (dp : DataPlane) :
  sameCaches dp (fst (incrementBatchAndReconcileDirtyNetPolsIfNeeded context dp)).
Proof.
  unfold incrementBatchAndReconcileDirtyNetPolsIfNeeded.
  destruct (iptablesInBackground dp); simpl; [|apply sameCaches_refl].
  match goal with |- context [if ?b then _ else _] => destruct b end.
  - eapply sameCaches_trans; [|apply reconcileDirtyNetPolsNow_caches]. split; reflexivity.
  - split; reflexivity.
Qed.

(** With nothing in the pod queue a flush does not reach the platform
    methods, and both caches stay as they are. *)
Lemma applyDataPlaneNow_empty_queue fuel context (dp : DataPlane) :
  upc_isEmpty (updatePodCache dp) = true ->
  sameCaches dp (fst (applyDataPlaneNow fuel context dp))
  /\ exists r, snd (applyDataPlaneNow fuel context dp) = Returned r.
Proof.
  intros Hq. unfold applyDataPlaneNow.
  destruct (ipsets_ApplyIPSets (ipsetMgr dp)) as [im [e|]]; simpl.
  - split; [split; reflexivity | eauto].
  - destruct shouldUpdatePod.
    + match goal with |- context [upc_isEmpty ?q] =>
        assert (upc_isEmpty q = true) as -> by (destruct (applyInBackground dp); exact Hq) end.
      split; [|eauto]. destruct (applyInBackground dp); split; reflexivity.
    + split; [|eauto]. destruct (applyInBackground dp); split; reflexivity.
Qed.

Lemma releasePolicyReferences_empty_queue fuel (dp : DataPlane) policy :
  upc_isEmpty (updatePodCache dp) = true ->
  sameCaches dp (fst (releasePolicyReferences fuel dp policy))
  /\ exists r, snd (releasePolicyReferences fuel dp policy) = Returned r.
Proof.
  intros Hq. unfold releasePolicyReferences.
  match goal with |- context [deleteIPSetsAndReferences ?s ?n ?t dp] =>
    pose proof (deleteIPSetsAndReferences_caches s n t dp) as H1;
    destruct (deleteIPSetsAndReferences s n t dp) as [d1 [e|]] end; simpl in H1.
  { simpl. split; [exact H1 | eauto]. }
  match goal with |- context [deleteIPSetsAndReferences ?s ?n ?t d1] =>
    pose proof (deleteIPSetsAndReferences_caches s n t d1) as H2;
    destruct (deleteIPSetsAndReferences s n t d1) as [d2 [e|]] end; simpl in H2.
  { simpl. split; [eapply sameCaches_trans; eassumption | eauto]. }
  assert (upc_isEmpty (updatePodCache d2) = true) as Hq2.
  { destruct H1 as [_ H1], H2 as [_ H2]. rewrite H2, H1. exact Hq. }
  destruct (applyDataPlaneNow_empty_queue fuel contextApplyDP d2 Hq2) as [H3 [r Hr]].
  destruct (applyDataPlaneNow fuel contextApplyDP d2) as [d3 o]. simpl in H3, Hr. subst o.
  destruct r as [e|]; simpl.
  { split; [|eauto]. eapply sameCaches_trans; [exact H1|].
    eapply sameCaches_trans; eassumption. }
  pose proof (incrementBatchAndReconcileDirtyNetPolsIfNeeded_caches contextDelNetPol d3) as H4.
  destruct (incrementBatchAndReconcileDirtyNetPolsIfNeeded contextDelNetPol d3) as [d4 err].
  simpl in *. split; [|eauto].
  eapply sameCaches_trans; [exact H1|]. eapply sameCaches_trans; [exact H2|].
  eapply sameCaches_trans; eassumption.
Qed.

(** What the pruning block of RemovePolicy does with one pod address
    that was bound to the policy before the policy manager removed it:
    when the address is no longer listed in the policy's
    [PodEndpoints] after that removal, the key is dropped from the
    policy-reference set of the endpoint cached at the address; when it
    is still listed, the cache is left alone there.  The pruned cache
    is the one from which the set references are released, and it is
    the cache RemovePolicy ends with when the pod queue is empty. *)
Lemma RemovePolicy_prunes_unlisted_endpoints fuel (dp : DataPlane) policyKey policy pm podIP :
  shouldUpdatePod = true ->
  policies_GetPolicy (policyMgr dp) policyKey = (Some policy, true) ->
  policies_RemovePolicy (policyMgr dp) (PolicyKey (policies_deref (policyMgr dp) policy))
    = (pm, None) ->
  is_Some (PodEndpoints (policies_deref (policyMgr dp) policy) !! podIP) ->
  exists pruned : DataPlane,
    RemovePolicy fuel dp policyKey = releasePolicyReferences fuel pruned policy
    /\ (PodEndpoints (policies_deref pm policy) !! podIP = None ->
        unreferenced policyKey podIP (endpointCache pruned))
    /\ (is_Some (PodEndpoints (policies_deref pm policy) !! podIP) ->
        endpointCache pruned !! podIP = endpointCache dp !! podIP)
    /\ (upc_isEmpty (updatePodCache dp) = true ->
        endpointCache (fst (RemovePolicy fuel dp policyKey)) = endpointCache pruned).
Proof.
  intros Hsup Hget Hrm Hbound.
  eexists. split; [|split; [|split]].
  - unfold RemovePolicy. rewrite Hget. simpl. rewrite Hrm. reflexivity.
  - intros Hgone. unfold pruneAfterRemoval. rewrite Hsup. simpl.
    apply pruneEndpointCache_drops; [|exact Hgone].
    rewrite copyEndpoints_same. exact Hbound.
  - intros Hstill. unfold pruneAfterRemoval. rewrite Hsup. simpl.
    apply pruneEndpointCache_bound. exact Hstill.
  - intros Hq. unfold RemovePolicy. rewrite Hget. simpl. rewrite Hrm.
    match goal with |- context [releasePolicyReferences fuel ?d policy] =>
      destruct (releasePolicyReferences_empty_queue fuel d policy) as [[H _] _] end.
    + unfold pruneAfterRemoval. rewrite Hsup. simpl. exact Hq.
    + exact H.
Qed.


End Facts.

(** * The reference model at work *)

Import Model Runs.

(** A pair is its first component next to its second. *)
Lemma pair_of_snd {A B : Type} (p : A * B) (b : B) : snd p = b -> p = (fst p, b).
Proof. intros <-. destruct p; reflexivity. Qed.

(** Solves [p = (a, b)] when [a] is [fst p] by definition and [snd p]
    evaluates to [b]. *)
Ltac by_second :=
  match goal with
  | |- ?p = (_, ?b) =>
    let H := fresh in
    assert (H : snd p = b) by (vm_compute; reflexivity);
    exact (pair_of_snd p b H)
  end.


(** C1, where the code departs from it: for a key that the policy
    manager does not know, GetPolicy answers the nil pointer and
    not-found, and RemovePolicy reads [policy.PodEndpoints] through that
    pointer before it looks at the not-found flag; the call panics
    instead of returning nil.  The same happens to the second of two
    removals of one policy: the first returns nil, the second panics. *)
Theorem RemovePolicy_absent_policy_panics :
  policies_GetPolicy (policyMgr batched0) "ns/absent" = (None, false)
  /\ RemovePolicy 0 batched0 "ns/absent" = (batched0, Panicked nilDereference)
  /\ snd (RemovePolicy 0 batchedAdded "ns/p") = Returned None
  /\ policies_GetPolicy (policyMgr batchedRemoved) "ns/p" = (None, false)
  /\ snd (RemovePolicy 0 batchedRemoved "ns/p") = Panicked nilDereference.
Proof. repeat split; vm_compute; reflexivity. Qed.

(** C2, where the code departs from it: the removal of policy "ns/p"
    over the set "setA" records the entry "setA" -> ["ns/p"] and leaves
    the temporary reference "TMPns/p" on "setA"; the next successful
    rule flush reads each entry of the table as policy key -> set names,
    so it asks for the deletion of reference "TMPsetA" from a set named
    "ns/p", then clears the table: the temporary reference "TMPns/p"
    stays on "setA". *)
Theorem flush_swaps_set_and_policy :
  toDeleteNetPolReferences batchedRemoved = {["setA" := ["ns/p"]]}
  /\ holds (ipsetMgr batchedRemoved) "setA" "TMPns/p" NetPolType
  /\ reconcileDirtyNetPolsNow contextBackground batchedRemoved = (batchedFlushed, None)
  /\ newEvents batchedRemoved batchedFlushed =
       [CallReconcileDirtyNetPols None;
        CallDeleteReference "ns/p" "TMPsetA" NetPolType
          (Some (ExternalError "ipset does not exist"))]
  /\ holds (ipsetMgr batchedFlushed) "setA" "TMPns/p" NetPolType
  /\ toDeleteNetPolReferences batchedFlushed = ∅.
Proof.
  repeat split; try (vm_compute; reflexivity);
    unfold holds; apply list_elem_of_In; vm_compute; left; reflexivity.
Qed.

(** C4 at work: three calls with a maximum of three. *)
Lemma batch_threshold_witness :
  (applyInBackground applying0 = true
   /\ ApplyMaxBatches (cfg applying0) = 3
   /\ applyInfo_numBatches applying0 = 0)
  /\ applyInfo_numBatches (applyCalls 0 1 applying0) = 1
  /\ applyInfo_numBatches (applyCalls 0 2 applying0) = 2
  /\ commits (trace (applyCalls 0 2 applying0)) = 0%nat
  /\ commits (trace (applyCalls 0 3 applying0)) = 1%nat
  /\ applyInfo_numBatches (applyCalls 0 3 applying0) = 0.
Proof.
  split; [repeat split|].
  destruct (batch_threshold 0 applying0 3) as [Hfirst Hlast];
    [reflexivity | reflexivity | unfold max_int; lia | reflexivity |].
  destruct (Hfirst 0%nat) as (_ & H1 & _); [lia|].
  destruct (Hfirst 1%nat) as (_ & H2 & H3 & _); [lia|].
  destruct Hlast as [H4 H5].
  vm_compute in H1, H2, H3, H4, H5. vm_compute.
  split; [exact H1|]. split; [exact H2|]. split; [exact H3|]. split; [exact H4|].
  exact H5.
Defined.

(** C4 as it was stated fails when the commit of the last call fails:
    with a maximum of one, the first call is the [N]-th; it asks for
    its one commit, the commit fails, and the counter is left at one. *)
Lemma batch_threshold_counterexample :
  applyInBackground brokenApply0 = true
  /\ ApplyMaxBatches (cfg brokenApply0) = 1
  /\ applyInfo_numBatches brokenApply0 = 0
  /\ commits (trace (fst (ApplyDataPlane 0 brokenApply0))) = 1%nat
  /\ applyInfo_numBatches (fst (ApplyDataPlane 0 brokenApply0)) <> 0.
Proof. repeat split; try reflexivity. vm_compute. discriminate. Qed.

(** C5 at work: a failed commit with the apply counter at two, and a
    failed rule commit with the rule counter at two and one entry in
    the pending-cleanup table. *)
Lemma failed_flush_witness :
  (exists dp' fmt,
      applyDataPlaneNow 0 contextApplyDP brokenApply2 =
        (dp', Returned (Some (Wrapped fmt [contextApplyDP]
                                (ExternalError "failed to apply ipsets"))))
      /\ sameBookkeeping dp' brokenApply2
      /\ applyInfo_numBatches dp' = 2)
  /\ (exists dp' fmt,
      reconcileDirtyNetPolsNow contextBackground brokenRulesRemoved =
        (dp', Some (Wrapped fmt [contextBackground]
                      (ExternalError "failed to restore rules")))
      /\ sameBookkeeping dp' brokenRulesRemoved
      /\ netPolInfo_numBatches dp' = 2
      /\ toDeleteNetPolReferences dp' = {["setA" := ["ns/p"]]}).
Proof.
  split.
  - destruct (failed_flush_keeps_counters 0 contextApplyDP brokenApply2) as [Happly _].
    edestruct Happly as (dp' & fmt & Hrun & Hsame); [reflexivity|].
    exists dp', fmt. split; [exact Hrun|]. split; [exact Hsame|].
    destruct Hsame as (-> & _). reflexivity.
  - destruct (failed_flush_keeps_counters 0 contextBackground brokenRulesRemoved)
      as [_ Hrules].
    edestruct Hrules as (dp' & fmt & Hrun & Hsame); [reflexivity|].
    exists dp', fmt. split; [exact Hrun|]. split; [exact Hsame|].
    destruct Hsame as (_ & -> & -> & _). split; vm_compute; reflexivity.
Defined.

(** C6 at work: on Windows a maximum of zero and an interval of zero
    are both refused; on Linux the same settings go through and
    background apply is off. *)
Lemma NewDataPlane_witness :
  @NewDataPlane applying "node-1" (applyConfig true 0 1000) = (None, Some ErrInvalidApplyConfig)
  /\ @NewDataPlane applying "node-1" (applyConfig true 5 0) = (None, Some ErrInvalidApplyConfig)
  /\ snd (@NewDataPlane batching "node-1" (applyConfig true 0 0)) = None
  /\ applyInBackground (boot batching (applyConfig true 0 0)) = false.
Proof.
  split; [|split; [|split]].
  - apply (proj1 (NewDataPlane_rejects_invalid_apply_config (C := applying) "node-1"
                    (applyConfig true 0 1000))); [reflexivity | reflexivity |].
    left. simpl. lia.
  - apply (proj1 (NewDataPlane_rejects_invalid_apply_config (C := applying) "node-1"
                    (applyConfig true 5 0))); [reflexivity | reflexivity |].
    right. reflexivity.
  - apply (proj1 (proj2 (NewDataPlane_rejects_invalid_apply_config (C := batching) "node-1"
                           (applyConfig true 0 0)) eq_refl)).
  - apply (proj2 (proj2 (NewDataPlane_rejects_invalid_apply_config (C := batching) "node-1"
                           (applyConfig true 0 0)) eq_refl)).
    reflexivity.
Defined.

(** C6 as it was stated fails on Linux: background apply is asked for
    with a maximum of zero and an interval of zero, and NewDataPlane
    returns a data plane, without error, in which background apply is
    off. *)
Lemma NewDataPlane_counterexample :
  ApplyInBackground (applyConfig true 0 0) = true
  /\ ApplyMaxBatches (applyConfig true 0 0) <= 0
  /\ ApplyInterval (applyConfig true 0 0) = 0
  /\ exists dp,
       @NewDataPlane batching "node-1" (applyConfig true 0 0) = (Some dp, None)
       /\ applyInBackground dp = false.
Proof.
  split; [reflexivity|]. split; [simpl; lia|]. split; [reflexivity|].
  eexists. split; reflexivity.
Qed.


(** C8 at work: AddPolicy of "ns/q" against a manager that refuses a
    reference on the selector set, one that refuses it on the rule set,
    a platform that cannot resolve the endpoints and a policy manager
    that cannot install the rules. *)
Lemma AddPolicy_failure_witness :
  (AddPolicy 0 (start (refusing "sel1")) policyQ =
     (afterSelectors (refusing "sel1"),
      Returned (Some (Wrapped "[DataPlane] error while adding Selector IPSet references: %w"
                        [] (refusal AddSelectorReference))))
   /\ Forall (fun ev => isLaterAddPolicyStep ev = false)
        (newEvents (start (refusing "sel1")) (afterSelectors (refusing "sel1"))))
  /\ (AddPolicy 0 (start (refusing "rule1")) policyQ =
        (afterRules (refusing "rule1"),
         Returned (Some (Wrapped "[DataPlane] error while adding Rule IPSet references: %w"
                           [] (refusal AddNetPolReference))))
      /\ Forall (fun ev => isLaterAddPolicyStep ev = false)
           (newEvents (start (refusing "rule1")) (afterRules (refusing "rule1"))))
  /\ (exists dp',
        AddPolicy 0 (start unresolved) policyQ =
          (dp', Returned (Some (Wrapped
             "[DataPlane] error while getting endpoints to apply policy after applying dataplane: %w"
             [] (ExternalError "failed to get endpoints"))))
        /\ ipsetMgr dp' = ipsetMgr (afterApply unresolved)
        /\ Forall (fun ev => isDeleteReference ev = false) (newEvents (start unresolved) dp'))
  /\ (exists dp',
        AddPolicy 0 (start uninstallable) policyQ =
          (dp', Returned (Some (Wrapped "[DataPlane] error while adding policy: %w"
                                 [] (ExternalError "failed to add policy"))))
        /\ ipsetMgr dp' = ipsetMgr (afterApply uninstallable)
        /\ Forall (fun ev => isDeleteReference ev = false)
             (newEvents (start uninstallable) dp')).
Proof.
  split; [|split; [|split]].
  - apply (proj1 (AddPolicy_failure_order 0 (start (refusing "sel1")) policyQ)).
    by_second.
  - apply (proj1 (proj2 (AddPolicy_failure_order 0 (start (refusing "rule1")) policyQ))
             (afterSelectors (refusing "rule1"))).
    + by_second.
    + by_second.
  - apply (proj1 (proj2 (proj2 (AddPolicy_failure_order 0 (start unresolved) policyQ)))
             (afterSelectors unresolved) (afterRules unresolved) (afterApply unresolved)
             (endpointCache (afterApply unresolved)) ∅).
    + by_second.
    + by_second.
    + by_second.
    + vm_compute. reflexivity.
  - apply (proj2 (proj2 (proj2 (AddPolicy_failure_order 0 (start uninstallable) policyQ)))
             (afterSelectors uninstallable) (afterRules uninstallable)
             (afterApply uninstallable)
             (endpointCache (afterApply uninstallable)) (PodEndpoints policyQ)
             (policyMgr (afterApply uninstallable))).
    + by_second.
    + by_second.
    + by_second.
    + vm_compute. reflexivity.
    + vm_compute. reflexivity.
Defined.

(** The pod that AddToSets queued in [stuckQueued]. *)
Lemma stuck_queue :
  updatePodCache stuckQueued = [mkQueuedPod "ns/pod1" "10.0.0.5" [setA] []].
Proof. reflexivity. Qed.

(** While the queue holds that pod alone, the drain does not end: each
    turn takes the pod, fails to update it and puts it back. *)
Lemma stuck_drain fuel : forall dp : @DataPlane stuck,
  updatePodCache dp = [mkQueuedPod "ns/pod1" "10.0.0.5" [setA] []] ->
  snd (drainUpdatePods fuel dp) = Unfinished.
Proof.
  induction fuel as [|fuel IH]; intros dp Hq.
  - simpl. rewrite Hq. reflexivity.
  - rewrite drainUpdatePods_step by (rewrite Hq; reflexivity).
    rewrite Hq. apply IH. reflexivity.
Qed.

(** C9, where the code departs from it: the pod "ns/pod1" is queued and
    its update fails each time it is tried.  The drain puts the pod back
    in the queue that the same loop is emptying, so the loop
    [for !dp.updatePodCache.isEmpty()] has no last turn and
    applyDataPlaneNow does not return, whatever the number of steps it
    is given; the claim, like the comment in the loop ("move on to the
    next and later return as success"), has it return nil. *)
Theorem stuck_pod_stalls_flush :
  updatePodCache stuckQueued = [mkQueuedPod "ns/pod1" "10.0.0.5" [setA] []]
  /\ (forall m,
        @updatePod stuck m (mkQueuedPod "ns/pod1" "10.0.0.5" [setA] [])
        = (m, Some (ExternalError "failed to update pod")))
  /\ (forall fuel, snd (applyDataPlaneNow fuel contextApplyDP stuckQueued) = Unfinished)
  /\ ~ exists fuel r, snd (applyDataPlaneNow fuel contextApplyDP stuckQueued) = Returned r.
Proof.
  assert (forall fuel, snd (applyDataPlaneNow fuel contextApplyDP stuckQueued) = Unfinished)
    as Hstall.
  { intros fuel. unfold applyDataPlaneNow.
    change (ipsets_ApplyIPSets (ipsetMgr stuckQueued))
      with (mkIpsetState [] [] [("setA", "10.0.0.5")] 1, @None error).
    cbv beta iota zeta.
    change (@shouldUpdatePod stuck) with true. cbv beta iota.
    match goal with |- context [upc_isEmpty ?q] =>
      change (upc_isEmpty q) with false end.
    cbv beta iota.
    match goal with |- context [refreshPodEndpoints ?c] =>
      change (refreshPodEndpoints c) with (c, @None error) end.
    cbv beta iota zeta.
    match goal with |- context [drainUpdatePods fuel ?d] =>
      pose proof (stuck_drain fuel d eq_refl) as Hd;
      destruct (drainUpdatePods fuel d) as [d' o] end.
    simpl in Hd. subst o. reflexivity. }
  split; [reflexivity|]. split; [|split; [exact Hstall|]].
  - intros [[pm im] ec]. reflexivity.
  - intros (fuel & r & H). rewrite Hstall in H. discriminate.
Qed.

(** A pod whose update fails twice and then succeeds: both failures are
    followed by a requeue, and the flush returns nil once the queue is
    empty. *)
Example flaky_pod_is_retried :
  snd (applyDataPlaneNow 3 contextApplyDP flaky) = Returned None
  /\ filter (fun e => isApplyIPSets e = false)
       (newEvents flaky (fst (applyDataPlaneNow 3 contextApplyDP flaky))) =
     [CallRefreshPodEndpoints None;
      CallUpdatePod "ns/pod1" (Some (ExternalError "failed to update pod"));
      ErrorMetric "failed to update pod while applying the dataplane. key: [%s], err: [%s]"
        ["ns/pod1"] (Some (ExternalError "failed to update pod"));
      CallRequeue "ns/pod1";
      CallUpdatePod "ns/pod1" (Some (ExternalError "failed to update pod"));
      ErrorMetric "failed to update pod while applying the dataplane. key: [%s], err: [%s]"
        ["ns/pod1"] (Some (ExternalError "failed to update pod"));
      CallRequeue "ns/pod1";
      CallUpdatePod "ns/pod1" None]
  /\ snd (applyDataPlaneNow 2 contextApplyDP flaky) = Unfinished.
Proof. repeat split; vm_compute; reflexivity. Qed.

(** C10 at work: a member update that fails for a pod of the local
    node, on Windows. *)
Lemma set_update_error_witness :
  NodeName pod1 = nodeName (boot brokenMembers (applyConfig false 0 0))
  /\ @shouldUpdatePod brokenMembers = true
  /\ exists fmt dp',
       AddToSets (boot brokenMembers (applyConfig false 0 0)) [setA] pod1 =
         (dp', Some (Wrapped fmt [] (ExternalError "failed to update members")))
       /\ updatePodCache dp' = updatePodCache (boot brokenMembers (applyConfig false 0 0)).
Proof.
  split; [reflexivity|]. split; [reflexivity|].
  eapply (set_update_error_leaves_queue AddMember). reflexivity.
Defined.

(** * The rest of the orchestrator *)

Section MoreFacts.

Context `{C : Collaborators}.

(** *** The settings that the steps carry along *)

Lemma sameSettings_refl (a : DataPlane) : sameSettings a a.
Proof. repeat split. Qed.

Lemma sameSettings_trans (a b c : DataPlane) :
  sameSettings a b -> sameSettings b c -> sameSettings a c.
Proof.
  intros (A1 & A2 & A3 & A4 & A5) (B1 & B2 & B3 & B4 & B5).
  repeat split; congruence.
Qed.

Lemma sameSettings_set_managed m (dp : DataPlane) : sameSettings dp (set_managed m dp).
Proof. destruct m as [[pm im] ec]. repeat split. Qed.

Lemma releaseReference_settings s ref t (dp : DataPlane) :
  sameSettings dp (releaseReference s ref t dp).
Proof.
  unfold releaseReference. destruct (ipsets_DeleteReference _ _ _ _) as [im err].
  repeat split.
Qed.

Lemma deleteReferences_settings netpolName referenceType sets : forall dp : DataPlane,
  sameSettings dp (deleteReferences sets netpolName referenceType dp).
Proof.
  unfold deleteReferences.
  induction sets as [|set rest IH]; intros dp; simpl; [apply sameSettings_refl|].
  eapply sameSettings_trans; [|apply IH].
  unfold deleteReferenceOf.
  destruct (iptablesInBackground dp); [|apply releaseReference_settings].
  destruct (ipsets_AddReference _ _ _ _) as [im [e|]]; [repeat split|].
  eapply sameSettings_trans; [|apply releaseReference_settings]. repeat split.
Qed.

Lemma removeIPBlocks_settings set referenceType members : forall dp : DataPlane,
  sameSettings dp (fst (removeIPBlocks set members referenceType dp)).
Proof.
  induction members as [|ipblock rest IH]; intros dp; simpl; [apply sameSettings_refl|].
  destruct (ipsets_RemoveFromSets _ _ _ _) as [im [e|]]; simpl; [repeat split|].
  eapply sameSettings_trans; [|apply IH]. repeat split.
Qed.

Lemma removeTranslatedMembers_settings referenceType sets : forall dp : DataPlane,
  sameSettings dp (fst (removeTranslatedMembers sets referenceType dp)).
Proof.
  induction sets as [|set rest IH]; intros dp; simpl; [apply sameSettings_refl|].
  destruct (bool_decide (Type_ (Metadata set) = CIDRBlocks)).
  - pose proof (removeIPBlocks_settings set referenceType (Members set) dp) as H.
    destruct (removeIPBlocks set (Members set) referenceType dp) as [d [e|]]; simpl in *.
    + exact H.
    + eapply sameSettings_trans; [exact H | apply IH].
  - destruct (bool_decide (GetSetKind (Metadata set) = ListSet)
              && (0 <? Z.of_nat (length (Members set)))).
    + destruct (ipsets_RemoveFromList _ _ _) as [im [e|]]; simpl; [repeat split|].
      eapply sameSettings_trans; [|apply IH]. repeat split.
    + apply IH.
Qed.

Lemma deleteIPSetsAndReferences_settings sets netpolName referenceType (dp : DataPlane) :
  sameSettings dp (fst (deleteIPSetsAndReferences sets netpolName referenceType dp)).
Proof.
  unfold deleteIPSetsAndReferences.
  eapply sameSettings_trans; [apply deleteReferences_settings|].
  apply removeTranslatedMembers_settings.
Qed.

Lemma createReferences_settings sets netpolName referenceType : forall dp : DataPlane,
  sameSettings dp (fst (createReferences sets netpolName referenceType dp)).
Proof.
  induction sets as [|set rest IH]; intros dp; simpl; [apply sameSettings_refl|].
  destruct (ipsets_AddReference _ _ _ _) as [im [e|]]; simpl; [repeat split|].
  eapply sameSettings_trans; [|apply IH]. repeat split.
Qed.

Lemma addIPBlocks_settings set referenceType members : forall dp : DataPlane,
  sameSettings dp (fst (addIPBlocks set members referenceType dp)).
Proof.
  induction members as [|ipblock rest IH]; intros dp; simpl; [apply sameSettings_refl|].
  destruct (ipsets_AddToSets _ _ _ _) as [im [e|]]; simpl; [repeat split|].
  eapply sameSettings_trans; [|apply IH]. repeat split.
Qed.

Lemma addTranslatedMembers_settings referenceType sets : forall dp : DataPlane,
  sameSettings dp (fst (addTranslatedMembers sets referenceType dp)).
Proof.
  induction sets as [|set rest IH]; intros dp; simpl; [apply sameSettings_refl|].
  destruct (bool_decide (Type_ (Metadata set) = CIDRBlocks)).
  - pose proof (addIPBlocks_settings set referenceType (Members set) dp) as H.
    destruct (addIPBlocks set (Members set) referenceType dp) as [d [e|]]; simpl in *.
    + exact H.
    + eapply sameSettings_trans; [exact H | apply IH].
  - destruct (bool_decide (Type_ (Metadata set) = NestedLabelOfPod)
              && (0 <? Z.of_nat (length (Members set)))).
    + destruct (ipsets_AddToLists _ _ _) as [im [e|]]; simpl; [repeat split|].
      eapply sameSettings_trans; [|apply IH]. repeat split.
    + apply IH.
Qed.

Lemma createIPSetsAndReferences_settings sets netpolName referenceType (dp : DataPlane) :
  sameSettings dp (fst (createIPSetsAndReferences sets netpolName referenceType dp)).
Proof.
  unfold createIPSetsAndReferences.
  pose proof (createReferences_settings sets netpolName referenceType dp) as H.
  destruct (createReferences sets netpolName referenceType dp) as [d [e|]]; simpl in *.
  - exact H.
  - eapply sameSettings_trans; [exact H | apply addTranslatedMembers_settings].
Qed.

Lemma drainUpdatePods_settings fuel : forall dp : DataPlane,
  sameSettings dp (fst (drainUpdatePods fuel dp)).
Proof.
  induction fuel as [|fuel IH]; intros dp; simpl.
  - destruct (upc_isEmpty (updatePodCache dp)); apply sameSettings_refl.
  - destruct (upc_isEmpty (updatePodCache dp)); [apply sameSettings_refl|].
    destruct (upc_dequeue (updatePodCache dp)) as [q [pod|]]; simpl; [|repeat split].
    destruct (updatePod _ pod) as [m [e|]]; simpl.
    + eapply sameSettings_trans; [|apply IH].
      eapply sameSettings_trans;
        [apply (sameSettings_set_managed m (set_updatePodCache q dp))|].
      repeat split.
    + eapply sameSettings_trans; [|apply IH].
      eapply sameSettings_trans;
        [apply (sameSettings_set_managed m (set_updatePodCache q dp))|].
      repeat split.
Qed.

Lemma applyDataPlaneNow_settings fuel context (dp : DataPlane) :
  sameSettings dp (fst (applyDataPlaneNow fuel context dp)).
Proof.
  unfold applyDataPlaneNow.
  destruct (ipsets_ApplyIPSets (ipsetMgr dp)) as [im [e|]]; simpl; [repeat split|].
  assert (sameSettings dp
            (if applyInBackground dp
             then set_applyInfo_numBatches 0 (emit (CallApplyIPSets None) (set_ipsetMgr im dp))
             else emit (CallApplyIPSets None) (set_ipsetMgr im dp))) as H0.
  { destruct (applyInBackground dp) eqn:E; repeat split; simpl; auto. }
  destruct shouldUpdatePod; [|exact H0].
  match goal with |- context [upc_isEmpty ?q] => destruct (upc_isEmpty q) end; [exact H0|].
  match goal with |- context [refreshPodEndpoints ?c] =>
    destruct (refreshPodEndpoints c) as [ec [e|]] end; simpl.
  - eapply sameSettings_trans; [exact H0|]. repeat split.
  - match goal with |- context [drainUpdatePods fuel ?d] =>
      pose proof (drainUpdatePods_settings fuel d) as Hd;
      destruct (drainUpdatePods fuel d) as [d' o] end.
    simpl in Hd.
    assert (sameSettings dp d') as H1.
    { eapply sameSettings_trans; [exact H0|].
      eapply sameSettings_trans; [|exact Hd]. repeat split. }
    destruct o; exact H1.
Qed.

(** *** Construction, again *)

(** X2: a data plane that NewDataPlane returns never has both
    background modes on, has valid apply settings whenever background
    apply is on, starts with both counters at zero and an empty
    pending-cleanup table, and carries the node name it was given; on
    Windows its configuration has AddEmptySetToLists set. *)
Theorem NewDataPlane_result nodeName0 cfg0 (dp : DataPlane) :
  NewDataPlane nodeName0 cfg0 = (Some dp, None) ->
  applyInBackground dp && iptablesInBackground dp = false
  /\ (applyInBackground dp = true ->
      0 < ApplyMaxBatches (cfg dp) /\ ApplyInterval (cfg dp) <> 0)
  /\ applyInfo_numBatches dp = 0
  /\ netPolInfo_numBatches dp = 0
  /\ toDeleteNetPolReferences dp = ∅
  /\ nodeName dp = nodeName0
  /\ (IsWindowsDP = true -> AddEmptySetToLists (cfg dp) = true).
Proof.
  unfold NewDataPlane. intros H.
  destruct IsWindowsDP eqn:Hw; simpl in H.
  - rewrite andb_false_r, andb_true_r in H.
    destruct (ApplyInBackground cfg0) eqn:Hbg; simpl in H.
    + destruct (Z.leb_spec (ApplyMaxBatches cfg0) 0) as [Hle|Hgt]; simpl in H;
        [discriminate|].
      destruct (Z.eqb_spec (ApplyInterval cfg0) 0) as [Hz|Hnz]; simpl in H; [discriminate|].
      destruct (bootupDataPlane _) as [[[pm im] ec] [e|]]; [discriminate|].
      injection H as <-. simpl. repeat split; auto.
    + destruct (bootupDataPlane _) as [[[pm im] ec] [e|]]; [discriminate|].
      injection H as <-. simpl. repeat split; auto; discriminate.
  - rewrite andb_false_r in H. simpl in H.
    destruct (bootupDataPlane _) as [[[pm im] ec] [e|]]; [discriminate|].
    injection H as <-. simpl. repeat split; auto; discriminate.
Qed.

(** *** The rule path *)

Lemma ruleFlushes_app tr1 tr2 :
  ruleFlushes (tr1 ++ tr2) = (ruleFlushes tr1 + ruleFlushes tr2)%nat.
Proof. unfold ruleFlushes. rewrite filter_app, length_app. reflexivity. Qed.

Lemma releasedReferences_app tr1 tr2 :
  releasedReferences (tr1 ++ tr2) = (releasedReferences tr1 ++ releasedReferences tr2)%list.
Proof.
  induction tr1 as [|e tr1 IH]; simpl; [reflexivity|].
  destruct e; simpl; rewrite IH; reflexivity.
Qed.

Lemma releasedReferences_none tr :
  Forall (fun e => isDeleteReference e = false) tr -> releasedReferences tr = [].
Proof.
  induction 1 as [|e tr He _ IH]; simpl; [reflexivity|].
  destruct e; simpl in *; try exact IH. discriminate.
Qed.

Lemma sameBookkeeping_refl (a : DataPlane) : sameBookkeeping a a.
Proof. repeat split. Qed.

Lemma sameBookkeeping_trans (a b c : DataPlane) :
  sameBookkeeping a b -> sameBookkeeping b c -> sameBookkeeping a c.
Proof.
  intros (A1 & A2 & A3 & A4 & A5) (B1 & B2 & B3 & B4 & B5).
  repeat split; congruence.
Qed.

(** One release: one DeleteReference in the history, and nothing of
    the bookkeeping moves. *)
Lemma releaseReference_spec s ref t (dp : DataPlane) :
  trace (releaseReference s ref t dp)
  = (trace dp ++ [CallDeleteReference s ref t
                    (snd (ipsets_DeleteReference (ipsetMgr dp) s ref t))])%list
  /\ sameBookkeeping (releaseReference s ref t dp) dp
  /\ policyMgr (releaseReference s ref t dp) = policyMgr dp.
Proof.
  unfold releaseReference. destruct (ipsets_DeleteReference _ _ _ _) as [im err].
  simpl. repeat split.
Qed.

Lemma releaseTemporaryReferences_spec policyKey ipsetNames : forall dp : DataPlane,
  exists new,
    trace (releaseTemporaryReferences dp (policyKey, ipsetNames)) = (trace dp ++ new)%list
    /\ releasedReferences new
       = map (fun ipsetName => (ipsetName, String.append "TMP" policyKey, NetPolType))
             ipsetNames
    /\ ruleFlushes new = 0%nat
    /\ sameBookkeeping (releaseTemporaryReferences dp (policyKey, ipsetNames)) dp
    /\ policyMgr (releaseTemporaryReferences dp (policyKey, ipsetNames)) = policyMgr dp.
Proof.
  unfold releaseTemporaryReferences.
  induction ipsetNames as [|x rest IH]; intros dp; simpl.
  - exists []. rewrite app_nil_r. repeat split.
  - destruct (releaseReference_spec x (String.append "TMP" policyKey) NetPolType dp)
      as (Htr & Hsame & Hpm).
    destruct (IH (releaseReference x (String.append "TMP" policyKey) NetPolType dp))
      as (new & Htr' & Hrel & Hfl & Hsame' & Hpm').
    eexists. split; [rewrite Htr', Htr, <- app_assoc; reflexivity|].
    split; [simpl; rewrite Hrel; reflexivity|].
    split; [simpl; exact Hfl|].
    split; [eapply sameBookkeeping_trans; eassumption | congruence].
Qed.

Lemma releaseAll_spec entries : forall dp : DataPlane,
  exists new,
    trace (foldl releaseTemporaryReferences dp entries) = (trace dp ++ new)%list
    /\ releasedReferences new
       = flat_map (fun entry : string * list string =>
                     map (fun ipsetName =>
                            (ipsetName, String.append "TMP" (fst entry), NetPolType))
                         (snd entry)) entries
    /\ ruleFlushes new = 0%nat
    /\ sameBookkeeping (foldl releaseTemporaryReferences dp entries) dp
    /\ policyMgr (foldl releaseTemporaryReferences dp entries) = policyMgr dp.
Proof.
  induction entries as [|[policyKey ipsetNames] rest IH]; intros dp; cbn [foldl flat_map].
  - exists []. rewrite app_nil_r. repeat split.
  - destruct (releaseTemporaryReferences_spec policyKey ipsetNames dp)
      as (new1 & Htr1 & Hrel1 & Hfl1 & Hsame1 & Hpm1).
    destruct (IH (releaseTemporaryReferences dp (policyKey, ipsetNames)))
      as (new2 & Htr2 & Hrel2 & Hfl2 & Hsame2 & Hpm2).
    exists (new1 ++ new2)%list.
    split; [rewrite Htr2, Htr1, <- app_assoc; reflexivity|].
    split; [rewrite releasedReferences_app, Hrel1, Hrel2; reflexivity|].
    split; [rewrite ruleFlushes_app, Hfl1, Hfl2; reflexivity|].
    split; [eapply sameBookkeeping_trans; eassumption | congruence].
Qed.

Lemma flushReleases_length (table : gmap string (list string)) :
  length (flushReleases table) = pendingReleases table.
Proof.
  unfold flushReleases, pendingReleases.
  induction (map_to_list table) as [|[k names] rest IH]; simpl; [reflexivity|].
  rewrite !length_app, length_map, IH. reflexivity.
Qed.

(** A rule flush whose commit succeeds. *)
Lemma reconcileDirtyNetPolsNow_succeeded context (dp : DataPlane) pm :
  policies_ReconcileDirtyNetPols (policyMgr dp) = (pm, None) ->
  let run := reconcileDirtyNetPolsNow context dp in
  exists new,
    trace (fst run) = (trace dp ++ CallReconcileDirtyNetPols None :: new)%list
    /\ ruleFlushes new = 0%nat
    /\ releasedReferences new = flushReleases (toDeleteNetPolReferences dp)
    /\ snd run = None
    /\ netPolInfo_numBatches (fst run) = 0
    /\ toDeleteNetPolReferences (fst run) = ∅
    /\ policyMgr (fst run) = pm
    /\ applyInfo_numBatches (fst run) = applyInfo_numBatches dp
    /\ updatePodCache (fst run) = updatePodCache dp
    /\ endpointCache (fst run) = endpointCache dp.
Proof.
  intros Hok. unfold reconcileDirtyNetPolsNow. rewrite Hok. simpl.
  match goal with |- context [foldl releaseTemporaryReferences ?d ?l] =>
    destruct (releaseAll_spec l d) as (new & Htr & Hrel & Hfl & Hsame & Hpm) end.
  simpl in *. destruct Hsame as (S1 & S2 & S3 & S4 & S5). simpl in *.
  exists new. split; [rewrite Htr, <- app_assoc; reflexivity|].
  split; [exact Hfl|]. split; [exact Hrel|]. split; [reflexivity|].
  split; [exact S2|]. split; [reflexivity|]. split; [exact Hpm|].
  split; [exact S1|]. split; [exact S4 | exact S5].
Qed.

(** The embedding of the flush is the run that visits the table in the
    order of [map_to_list]. *)
Lemma reconcileDirtyNetPolsNow_order context (dp : DataPlane) :
  reconcileDirtyNetPolsNow context dp
  = reconcileDirtyNetPolsNowIn (map_to_list (toDeleteNetPolReferences dp)) context dp.
Proof.
  unfold reconcileDirtyNetPolsNow, reconcileDirtyNetPolsNowIn.
  destruct (policies_ReconcileDirtyNetPols (policyMgr dp)) as [pm [e|]]; reflexivity.
Qed.

Lemma flushReleases_order (table : gmap string (list string)) entries :
  entries ≡ₚ map_to_list table ->
  flat_map (fun entry : string * list string =>
              map (fun ipsetName => (ipsetName, String.append "TMP" (fst entry), NetPolType))
                  (snd entry)) entries
  ≡ₚ flushReleases table.
Proof. intros H. unfold flushReleases. apply Permutation_flat_map. exact H. Qed.

(** X3: a rule flush whose commit succeeds, in whatever order it
    visits the pending-cleanup table: it asks for one rule commit, then
    for one DeleteReference, of type NetPolType, per element of the
    table (the key of an entry is used after "TMP" as the reference
    name and each element of its list as the set name), sets the rule
    counter to zero, empties the table and returns nil; the apply
    counter, the pod queue and the endpoint cache are not touched.  The
    DeleteReference calls are those of the table as a multiset; their
    order follows the order of the visit. *)
Theorem successful_rule_flush entries context (dp : DataPlane) pm :
  policies_ReconcileDirtyNetPols (policyMgr dp) = (pm, None) ->
  entries ≡ₚ map_to_list (toDeleteNetPolReferences dp) ->
  let run := reconcileDirtyNetPolsNowIn entries context dp in
  snd run = None
  /\ netPolInfo_numBatches (fst run) = 0
  /\ toDeleteNetPolReferences (fst run) = ∅
  /\ policyMgr (fst run) = pm
  /\ ruleFlushes (newEvents dp (fst run)) = 1%nat
  /\ releasedReferences (newEvents dp (fst run))
     ≡ₚ flushReleases (toDeleteNetPolReferences dp)
  /\ length (releasedReferences (newEvents dp (fst run)))
     = pendingReleases (toDeleteNetPolReferences dp)
  /\ applyInfo_numBatches (fst run) = applyInfo_numBatches dp
  /\ updatePodCache (fst run) = updatePodCache dp
  /\ endpointCache (fst run) = endpointCache dp.
Proof.
  intros Hok Horder. unfold reconcileDirtyNetPolsNowIn. rewrite Hok. cbn [fst snd].
  match goal with |- context [foldl releaseTemporaryReferences ?d entries] =>
    destruct (releaseAll_spec entries d) as (new & Htr & Hrel & Hfl & Hsame & Hpm) end.
  destruct Hsame as (S1 & S2 & S3 & S4 & S5). simpl in *.
  rewrite (newEvents_app dp _ (CallReconcileDirtyNetPols None :: new))
    by (simpl; rewrite Htr, <- app_assoc; reflexivity).
  assert (releasedReferences (CallReconcileDirtyNetPols None :: new)
          ≡ₚ flushReleases (toDeleteNetPolReferences dp)) as Hperm.
  { simpl. rewrite Hrel. apply flushReleases_order. exact Horder. }
  split; [reflexivity|]. split; [exact S2|]. split; [reflexivity|]. split; [exact Hpm|].
  split; [change (S (ruleFlushes new) = 1%nat); rewrite Hfl; reflexivity|].
  split; [exact Hperm|].
  split; [rewrite Hperm; apply flushReleases_length|].
  split; [exact S1|]. split; [exact S4 | exact S5].
Qed.

Lemma int_incr_rule_below context (dp : DataPlane) :
  iptablesInBackground dp = true ->
  min_int <= netPolInfo_numBatches dp < max_int ->
  netPolInfo_numBatches dp + 1 < IPTablesMaxBatches (cfg dp) ->
  incrementBatchAndReconcileDirtyNetPolsIfNeeded context dp =
    (set_netPolInfo_numBatches (netPolInfo_numBatches dp + 1) dp, None).
Proof.
  intros Hbg Hr Hlt. unfold incrementBatchAndReconcileDirtyNetPolsIfNeeded.
  rewrite Hbg. simpl. rewrite (GoIntFacts.int_incr_small _ Hr).
  destruct (Z.leb_spec (IPTablesMaxBatches (cfg dp)) (netPolInfo_numBatches dp + 1)); [lia|].
  reflexivity.
Qed.

Lemma int_incr_rule_at_threshold context (dp : DataPlane) :
  iptablesInBackground dp = true ->
  min_int <= netPolInfo_numBatches dp < max_int ->
  IPTablesMaxBatches (cfg dp) <= netPolInfo_numBatches dp + 1 ->
  incrementBatchAndReconcileDirtyNetPolsIfNeeded context dp =
    reconcileDirtyNetPolsNow context
      (set_netPolInfo_numBatches (netPolInfo_numBatches dp + 1) dp).
Proof.
  intros Hbg Hr Hge. unfold incrementBatchAndReconcileDirtyNetPolsIfNeeded.
  rewrite Hbg. simpl. rewrite (GoIntFacts.int_incr_small _ Hr).
  destruct (Z.leb_spec (IPTablesMaxBatches (cfg dp)) (netPolInfo_numBatches dp + 1)); [|lia].
  reflexivity.
Qed.

Lemma set_netPolInfo_numBatches_same (dp : DataPlane) :
  set_netPolInfo_numBatches (netPolInfo_numBatches dp) dp = dp.
Proof. destruct dp; reflexivity. Qed.

Lemma ruleEvents_below context (dp : DataPlane) (j : nat) :
  iptablesInBackground dp = true ->
  netPolInfo_numBatches dp = 0 ->
  IPTablesMaxBatches (cfg dp) <= max_int ->
  Z.of_nat j < IPTablesMaxBatches (cfg dp) ->
  ruleEvents context j dp = set_netPolInfo_numBatches (Z.of_nat j) dp.
Proof.
  intros Hbg H0 Hmax. induction j as [|j IH]; intros Hj.
  - pose proof (set_netPolInfo_numBatches_same dp) as E. rewrite H0 in E.
    symmetry. exact E.
  - simpl ruleEvents. rewrite IH by lia.
    rewrite int_incr_rule_below; simpl; try assumption.
    + unfold set_netPolInfo_numBatches; simpl. f_equal. lia.
    + unfold min_int, max_int in *. lia.
    + lia.
Qed.

(** X4: the threshold of the rule path.  With background iptables on,
    a maximum of [N >= 1] and the rule counter at zero, each of the
    first [N - 1] dirty-policy events returns nil, asks the policy
    manager for no rule commit and leaves the counter at the number of
    events so far; the [N]-th event asks for exactly one rule commit;
    when that commit succeeds the counter is zero and the
    pending-cleanup table empty, and when it fails the error is
    returned, the counter stays at [N] and the table is kept. *)
Theorem rule_batch_threshold context (dp : DataPlane) (N : Z) :
  iptablesInBackground dp = true ->
  IPTablesMaxBatches (cfg dp) = N ->
  1 <= N <= max_int ->
  netPolInfo_numBatches dp = 0 ->
  (forall j : nat,
      Z.of_nat j < N - 1 ->
      snd (incrementBatchAndReconcileDirtyNetPolsIfNeeded context (ruleEvents context j dp))
      = None
      /\ netPolInfo_numBatches (ruleEvents context (S j) dp) = Z.of_nat (S j)
      /\ trace (ruleEvents context (S j) dp) = trace dp
      /\ policyMgr (ruleEvents context (S j) dp) = policyMgr dp)
  /\ (let last :=
        incrementBatchAndReconcileDirtyNetPolsIfNeeded context
          (ruleEvents context (Z.to_nat (N - 1)) dp) in
      match policies_ReconcileDirtyNetPols (policyMgr dp) with
      | (_, None) =>
        snd last = None
        /\ ruleFlushes (trace (fst last)) = S (ruleFlushes (trace dp))
        /\ netPolInfo_numBatches (fst last) = 0
        /\ toDeleteNetPolReferences (fst last) = ∅
      | (_, Some e) =>
        (exists fmt ctx, snd last = Some (Wrapped fmt ctx e))
        /\ ruleFlushes (trace (fst last)) = S (ruleFlushes (trace dp))
        /\ netPolInfo_numBatches (fst last) = N
        /\ toDeleteNetPolReferences (fst last) = toDeleteNetPolReferences dp
      end).
Proof.
  intros Hbg HN Hrange H0. split.
  - intros j Hj.
    rewrite (ruleEvents_below context dp (S j)) by (try assumption; lia).
    rewrite (ruleEvents_below context dp j) by (try assumption; lia).
    rewrite int_incr_rule_below; simpl; try assumption.
    + repeat split.
    + unfold min_int, max_int in *. lia.
    + lia.
  - rewrite (ruleEvents_below context dp (Z.to_nat (N - 1))) by (try assumption; lia).
    rewrite Z2Nat.id by lia.
    rewrite int_incr_rule_at_threshold; simpl; try assumption.
    2: { unfold min_int, max_int in *. lia. }
    2: { lia. }
    destruct (policies_ReconcileDirtyNetPols (policyMgr dp)) as [pm [e|]] eqn:Hrec.
    + erewrite reconcileDirtyNetPolsNow_failed by (simpl; exact Hrec). simpl.
      split; [eexists _, _; reflexivity|].
      split; [|split; [lia | reflexivity]].
      rewrite <- app_assoc, ruleFlushes_app. simpl. unfold ruleFlushes at 2. simpl. lia.
    + match goal with |- context [reconcileDirtyNetPolsNow context ?d] =>
        destruct (reconcileDirtyNetPolsNow_succeeded context d pm)
          as (new & Htr & Hfl & _ & R1 & R2 & R3 & _)
      end; [simpl; exact Hrec|].
      simpl in Htr. rewrite Htr.
      split; [exact R1|]. split; [|split; [exact R2 | exact R3]].
      rewrite ruleFlushes_app. change (ruleFlushes (CallReconcileDirtyNetPols None :: new))
        with (S (ruleFlushes new)). rewrite Hfl. lia.
Qed.

(** *** Releasing references without batching *)

Lemma removeIPBlocks_members set referenceType members : forall dp : DataPlane,
  grows isMemberRemoval dp (fst (removeIPBlocks set members referenceType dp))
  /\ sameBookkeeping (fst (removeIPBlocks set members referenceType dp)) dp.
Proof.
  induction members as [|ipblock rest IH]; intros dp; simpl.
  - split; [apply grows_same; reflexivity | apply sameBookkeeping_refl].
  - destruct (ipsets_RemoveFromSets _ _ _ _) as [im [e|]]; simpl.
    + split; [apply grows_emit; reflexivity | repeat split].
    + match goal with |- context [removeIPBlocks set rest referenceType ?d] =>
        destruct (IH d) as [G S] end.
      split.
      * eapply grows_trans; [|exact G]. apply grows_emit; reflexivity.
      * eapply sameBookkeeping_trans; [exact S|]. repeat split.
Qed.

Lemma removeTranslatedMembers_members referenceType sets : forall dp : DataPlane,
  grows isMemberRemoval dp (fst (removeTranslatedMembers sets referenceType dp))
  /\ sameBookkeeping (fst (removeTranslatedMembers sets referenceType dp)) dp.
Proof.
  induction sets as [|set rest IH]; intros dp; simpl.
  - split; [apply grows_same; reflexivity | apply sameBookkeeping_refl].
  - destruct (bool_decide (Type_ (Metadata set) = CIDRBlocks)).
    + destruct (removeIPBlocks_members set referenceType (Members set) dp) as [G S].
      destruct (removeIPBlocks set (Members set) referenceType dp) as [d [e|]]; simpl in *.
      * split; assumption.
      * destruct (IH d) as [G' S']. split.
        -- eapply grows_trans; eassumption.
        -- eapply sameBookkeeping_trans; eassumption.
    + destruct (bool_decide (GetSetKind (Metadata set) = ListSet)
                && (0 <? Z.of_nat (length (Members set)))).
      * destruct (ipsets_RemoveFromList _ _ _) as [im [e|]]; simpl.
        -- split; [apply grows_emit; reflexivity | repeat split].
        -- match goal with |- context [removeTranslatedMembers rest referenceType ?d] =>
             destruct (IH d) as [G S] end.
           split.
           ++ eapply grows_trans; [|exact G]. apply grows_emit; reflexivity.
           ++ eapply sameBookkeeping_trans; [exact S|]. repeat split.
      * apply IH.
Qed.

Lemma deleteReferences_unbatched netpolName referenceType sets : forall dp : DataPlane,
  iptablesInBackground dp = false ->
  let dp' := deleteReferences sets netpolName referenceType dp in
  exists new,
    trace dp' = (trace dp ++ new)%list
    /\ releasedReferences new
       = map (fun set => (GetPrefixName (Metadata set), netpolName, referenceType)) sets
    /\ Forall (fun e => isAddReference e = false) new
    /\ sameBookkeeping dp' dp.
Proof.
  unfold deleteReferences.
  induction sets as [|set rest IH]; intros dp Hbg; simpl.
  - exists []. rewrite app_nil_r. repeat split. constructor.
  - pose proof (deleteReferenceOf_iptablesInBackground netpolName referenceType dp set) as Hbg'.
    rewrite Hbg in Hbg'.
    destruct (IH _ Hbg') as (new & Htr & Hrel & Hadd & Hsame). clear IH.
    assert (deleteReferenceOf netpolName referenceType dp set
            = releaseReference (GetPrefixName (Metadata set)) netpolName referenceType dp)
      as E by (unfold deleteReferenceOf; rewrite Hbg; reflexivity).
    rewrite E in *.
    destruct (releaseReference_spec (GetPrefixName (Metadata set)) netpolName
                referenceType dp) as (Htr1 & Hsame1 & _).
    eexists. split; [rewrite Htr, Htr1, <- app_assoc; reflexivity|].
    split; [simpl; rewrite Hrel; reflexivity|].
    split; [constructor; [reflexivity | exact Hadd]|].
    eapply sameBookkeeping_trans; eassumption.
Qed.

Lemma member_removal_is_no_reference_call new :
  Forall (fun e => isMemberRemoval e = true) new ->
  Forall (fun e => isDeleteReference e = false) new
  /\ Forall (fun e => isAddReference e = false) new.
Proof.
  intros H. split; (eapply Forall_impl; [exact H|]); intros e He;
    destruct e; simpl in *; congruence.
Qed.

(** X5: without rule batching, deleteIPSetsAndReferences asks for
    exactly one DeleteReference per set of the list, in the order of
    the list, under the policy's own name and the given reference
    type; it adds no reference, temporary or other, and leaves both
    counters, the pending-cleanup table, the pod queue and the endpoint
    cache as they were. *)
Theorem unbatched_release sets netpolName referenceType (dp : DataPlane) :
  iptablesInBackground dp = false ->
  let dp' := fst (deleteIPSetsAndReferences sets netpolName referenceType dp) in
  releasedReferences (newEvents dp dp')
  = map (fun set => (GetPrefixName (Metadata set), netpolName, referenceType)) sets
  /\ Forall (fun e => isAddReference e = false) (newEvents dp dp')
  /\ sameBookkeeping dp' dp.
Proof.
  intros Hbg. unfold deleteIPSetsAndReferences. simpl.
  destruct (deleteReferences_unbatched netpolName referenceType sets dp Hbg)
    as (new & Htr & Hrel & Hadd & Hsame).
  destruct (removeTranslatedMembers_members referenceType sets
              (deleteReferences sets netpolName referenceType dp))
    as [(new2 & Htr2 & Hnew2) Hsame2].
  destruct (member_removal_is_no_reference_call new2 Hnew2) as [Hnd Hna].
  erewrite newEvents_app.
  2: { rewrite Htr2, Htr, <- app_assoc. reflexivity. }
  split; [|split].
  - rewrite releasedReferences_app, Hrel, (releasedReferences_none _ Hnd), app_nil_r.
    reflexivity.
  - apply Forall_app. split; assumption.
  - eapply sameBookkeeping_trans; eassumption.
Qed.

(** *** Where the error of a release comes from *)

Lemma removeIPBlocks_error set referenceType members : forall (dp dp' : DataPlane) err,
  removeIPBlocks set members referenceType dp = (dp', Some err) ->
  exists fmt cause pre ev,
    err = NPMError (deleteErrorString referenceType) false fmt cause
    /\ trace dp' = (trace dp ++ pre ++ [ev])%list
    /\ failedMemberRemoval cause ev.
Proof.
  induction members as [|ipblock rest IH]; intros dp dp' err; simpl; [discriminate|].
  destruct (ipsets_RemoveFromSets _ _ _ _) as [im [e|]]; simpl.
  - intros [= <- <-]. eexists _, e, [], _. split; [reflexivity|].
    split; [reflexivity | reflexivity].
  - intros H. destruct (IH _ _ _ H) as (fmt & cause & pre & ev & -> & Htr & Hev).
    eexists fmt, cause, (_ :: pre), ev. split; [reflexivity|].
    split; [rewrite Htr; simpl; rewrite <- app_assoc; reflexivity | exact Hev].
Qed.

Lemma removeIPBlocks_trace set referenceType members : forall dp : DataPlane,
  exists new, trace (fst (removeIPBlocks set members referenceType dp))
              = (trace dp ++ new)%list.
Proof.
  intros dp. destruct (removeIPBlocks_members set referenceType members dp)
    as [(new & H & _) _]. eauto.
Qed.

Lemma removeTranslatedMembers_error referenceType sets : forall (dp dp' : DataPlane) err,
  removeTranslatedMembers sets referenceType dp = (dp', Some err) ->
  exists fmt cause pre ev,
    err = NPMError (deleteErrorString referenceType) false fmt cause
    /\ trace dp' = (trace dp ++ pre ++ [ev])%list
    /\ failedMemberRemoval cause ev.
Proof.
  induction sets as [|set rest IH]; intros dp dp' err; simpl; [discriminate|].
  destruct (bool_decide (Type_ (Metadata set) = CIDRBlocks)).
  - pose proof (removeIPBlocks_error set referenceType (Members set) dp) as Herr.
    destruct (removeIPBlocks_trace set referenceType (Members set) dp) as (new & Hnew).
    destruct (removeIPBlocks set (Members set) referenceType dp) as [d [e|]]; simpl in *.
    + intros [= <- <-]. eapply Herr. reflexivity.
    + intros H. destruct (IH _ _ _ H) as (fmt & cause & pre & ev & -> & Htr & Hev).
      eexists fmt, cause, (new ++ pre)%list, ev. split; [reflexivity|].
      split; [rewrite Htr, Hnew, <- !app_assoc; reflexivity | exact Hev].
  - destruct (bool_decide (GetSetKind (Metadata set) = ListSet)
              && (0 <? Z.of_nat (length (Members set)))).
    + destruct (ipsets_RemoveFromList _ _ _) as [im [e|]]; simpl.
      * intros [= <- <-]. eexists _, e, [], _. split; [reflexivity|].
        split; [reflexivity | reflexivity].
      * intros H. destruct (IH _ _ _ H) as (fmt & cause & pre & ev & -> & Htr & Hev).
        eexists fmt, cause, (_ :: pre), ev. split; [reflexivity|].
        split; [rewrite Htr; simpl; rewrite <- app_assoc; reflexivity | exact Hev].
    + apply IH.
Qed.

Lemma removeTranslatedMembers_no_members referenceType sets : forall dp : DataPlane,
  Forall (fun set => Members set = []) sets ->
  removeTranslatedMembers sets referenceType dp = (dp, None).
Proof.
  induction sets as [|set rest IH]; intros dp Hall; simpl; [reflexivity|].
  apply Forall_cons in Hall as [Hset Hrest]. rewrite Hset. simpl.
  destruct (bool_decide (Type_ (Metadata set) = CIDRBlocks)); [apply IH; exact Hrest|].
  rewrite andb_false_r. apply IH. exact Hrest.
Qed.

Lemma deleteReferences_trace netpolName referenceType sets : forall dp : DataPlane,
  exists new, trace (deleteReferences sets netpolName referenceType dp)
              = (trace dp ++ new)%list.
Proof.
  unfold deleteReferences.
  induction sets as [|set rest IH]; intros dp; simpl.
  - exists []. rewrite app_nil_r. reflexivity.
  - destruct (IH (deleteReferenceOf netpolName referenceType dp set)) as (new & Htr).
    rewrite Htr. unfold deleteReferenceOf, releaseReference.
    destruct (iptablesInBackground dp).
    + destruct (ipsets_AddReference _ _ _ _) as [im [e|]]; simpl.
      * eexists. rewrite <- app_assoc. reflexivity.
      * destruct (ipsets_DeleteReference _ _ _ _) as [im' err]. simpl.
        eexists. rewrite <- !app_assoc. reflexivity.
    + destruct (ipsets_DeleteReference _ _ _ _) as [im' err]. simpl.
      eexists. rewrite <- !app_assoc. reflexivity.
Qed.

(** X6: deleteIPSetsAndReferences fails only on a member removal.  An
    error it returns is an npm error of the delete kind of the
    reference type, not to be retried, whose cause is the error of the
    RemoveFromSets or RemoveFromList call that is the last event of the
    run; the errors of AddReference and DeleteReference are never
    returned, so for sets without translated members the call returns
    nil whatever the manager answers. *)
Theorem release_fails_only_on_members sets netpolName referenceType (dp : DataPlane) :
  (forall dp' err,
      deleteIPSetsAndReferences sets netpolName referenceType dp = (dp', Some err) ->
      exists fmt cause pre ev,
        err = NPMError (deleteErrorString referenceType) false fmt cause
        /\ newEvents dp dp' = (pre ++ [ev])%list
        /\ failedMemberRemoval cause ev)
  /\ (Forall (fun set => Members set = []) sets ->
      snd (deleteIPSetsAndReferences sets netpolName referenceType dp) = None).
Proof.
  unfold deleteIPSetsAndReferences. split.
  - intros dp' err H.
    destruct (removeTranslatedMembers_error _ _ _ _ _ H)
      as (fmt & cause & pre & ev & -> & Htr & Hev).
    destruct (deleteReferences_trace netpolName referenceType sets dp) as (new & Hnew).
    exists fmt, cause, (new ++ pre)%list, ev. split; [reflexivity|].
    split; [|exact Hev].
    apply newEvents_app. rewrite Htr, Hnew, <- !app_assoc. reflexivity.
  - intros Hall. rewrite removeTranslatedMembers_no_members by exact Hall. reflexivity.
Qed.

(** *** Flushes that do not reach the pods *)

(** X7: when the deferred-apply backend is not active, when the pod
    queue is empty or when the refresh of the endpoints fails, a flush
    of the set path returns whatever the number of steps it is given,
    with nil unless ApplyIPSets failed; it asks for its one commit,
    updates and requeues no pod, and leaves the pod queue and the
    policy manager as they were.  In the first two cases it does not
    ask for a refresh either and the endpoint cache is untouched. *)
Theorem flush_without_drain fuel context (dp : DataPlane) :
  shouldUpdatePod = false
  \/ upc_isEmpty (updatePodCache dp) = true
  \/ (exists ec e, refreshPodEndpoints (endpointCache dp) = (ec, Some e)) ->
  let run := applyDataPlaneNow fuel context dp in
  (exists r, snd run = Returned r
             /\ (r = None <-> snd (ipsets_ApplyIPSets (ipsetMgr dp)) = None))
  /\ commits (newEvents dp (fst run)) = 1%nat
  /\ Forall (fun e => isPodUpdate e = false) (newEvents dp (fst run))
  /\ updatePodCache (fst run) = updatePodCache dp
  /\ policyMgr (fst run) = policyMgr dp
  /\ (shouldUpdatePod = false \/ upc_isEmpty (updatePodCache dp) = true ->
      Forall (fun e => isPodStep e = false) (newEvents dp (fst run))
      /\ endpointCache (fst run) = endpointCache dp).
Proof.
  intros Hcase. unfold applyDataPlaneNow.
  destruct (ipsets_ApplyIPSets (ipsetMgr dp)) as [im [e|]] eqn:Happly; simpl.
  { erewrite newEvents_app by reflexivity.
    split; [eexists; split; [reflexivity | split; discriminate]|].
    repeat split; repeat constructor. }
  match goal with |- context [if shouldUpdatePod then _ else (?d0, _)] =>
    remember d0 as d eqn:Hd end.
  assert (trace d = (trace dp ++ [CallApplyIPSets None])%list
          /\ updatePodCache d = updatePodCache dp
          /\ policyMgr d = policyMgr dp
          /\ endpointCache d = endpointCache dp) as (Htr & Hq & Hpm & Hec).
  { subst d. destruct (applyInBackground dp); repeat split. }
  clear Hd.
  assert (commits [CallApplyIPSets None] = 1%nat) as Hone by reflexivity.
  destruct shouldUpdatePod eqn:Hsup.
  2: { cbn [fst snd]. rewrite (newEvents_app _ _ _ Htr).
       split; [eexists; split; [reflexivity | split; reflexivity]|].
       repeat split; try assumption; repeat constructor. }
  destruct (upc_isEmpty (updatePodCache d)) eqn:Hempty.
  { cbn [fst snd]. rewrite (newEvents_app _ _ _ Htr).
    split; [eexists; split; [reflexivity | split; reflexivity]|].
    repeat split; try assumption; repeat constructor. }
  rewrite Hq in Hempty.
  destruct Hcase as [Hc | [Hc | (ec & e & Hc)]]; [discriminate | congruence |].
  rewrite Hec, Hc. simpl.
  erewrite newEvents_app by (simpl; rewrite Htr, <- !app_assoc; reflexivity).
  split; [eexists; split; [reflexivity | split; reflexivity]|].
  split; [reflexivity|]. split; [repeat constructor|].
  split; [exact Hq|]. split; [exact Hpm|].
  intros [H | H]; [discriminate | congruence].
Qed.

(** *** What AddPolicy and RemovePolicy may call *)

Lemma deleteReferences_release netpolName referenceType sets : forall dp : DataPlane,
  grows isReleaseStep dp (deleteReferences sets netpolName referenceType dp).
Proof.
  unfold deleteReferences.
  induction sets as [|set rest IH]; intros dp; simpl; [apply grows_same; reflexivity|].
  eapply grows_trans; [|apply IH].
  unfold deleteReferenceOf, releaseReference.
  destruct (iptablesInBackground dp).
  - destruct (ipsets_AddReference _ _ _ _) as [im [e|]]; simpl.
    + apply grows_emit; reflexivity.
    + destruct (ipsets_DeleteReference _ _ _ _) as [im' err]. simpl.
      eapply grows_trans; [|apply grows_emit; reflexivity].
      apply grows_emit; reflexivity.
  - destruct (ipsets_DeleteReference _ _ _ _) as [im' err].
    apply grows_emit; reflexivity.
Qed.

Lemma deleteIPSetsAndReferences_release sets netpolName referenceType (dp : DataPlane) :
  grows isReleaseStep dp (fst (deleteIPSetsAndReferences sets netpolName referenceType dp)).
Proof.
  unfold deleteIPSetsAndReferences.
  eapply grows_trans; [apply deleteReferences_release|].
  eapply grows_weaken; [|apply removeTranslatedMembers_members].
  intros e. destruct e; simpl; congruence.
Qed.

Lemma releaseTemporaryReferences_grows entry : forall dp : DataPlane,
  grows isRuleFlushStep dp (releaseTemporaryReferences dp entry).
Proof.
  destruct entry as [k names]. unfold releaseTemporaryReferences.
  induction names as [|x names IH]; intros dp; simpl; [apply grows_same; reflexivity|].
  eapply grows_trans; [|apply IH].
  unfold releaseReference. destruct (ipsets_DeleteReference _ _ _ _) as [im err].
  apply grows_emit; reflexivity.
Qed.

Lemma releaseAll_grows entries : forall dp : DataPlane,
  grows isRuleFlushStep dp (foldl releaseTemporaryReferences dp entries).
Proof.
  induction entries as [|entry rest IH]; intros dp; cbn [foldl];
    [apply grows_same; reflexivity|].
  eapply grows_trans; [apply releaseTemporaryReferences_grows | apply IH].
Qed.

Lemma reconcileDirtyNetPolsNow_grows context (dp : DataPlane) :
  grows isRuleFlushStep dp (fst (reconcileDirtyNetPolsNow context dp)).
Proof.
  unfold reconcileDirtyNetPolsNow.
  destruct (policies_ReconcileDirtyNetPols _) as [pm [e|]] eqn:Hrec; cbn [fst].
  - eapply grows_trans; [|apply grows_emit; reflexivity]. apply grows_emit; reflexivity.
  - eapply grows_trans;
      [apply (grows_emit _ dp (set_policyMgr pm dp) (CallReconcileDirtyNetPols None));
       reflexivity|].
    match goal with |- grows _ _ (set_toDeleteNetPolReferences _ (foldl _ ?d ?l)) =>
      destruct (releaseAll_grows l d) as (new & Htr & Hk) end.
    exists new. split; [exact Htr | exact Hk].
Qed.

Lemma incrementBatchAndReconcileDirtyNetPolsIfNeeded_grows context (dp : DataPlane) :
  grows isRuleFlushStep dp (fst (incrementBatchAndReconcileDirtyNetPolsIfNeeded context dp)).
Proof.
  unfold incrementBatchAndReconcileDirtyNetPolsIfNeeded.
  destruct (iptablesInBackground dp); simpl; [|apply grows_same; reflexivity].
  match goal with |- context [if ?b then _ else _] => destruct b end.
  - eapply grows_trans; [|apply reconcileDirtyNetPolsNow_grows].
    apply grows_same. reflexivity.
  - apply grows_same. reflexivity.
Qed.

(** A flush that returned nil has asked for a commit that succeeded. *)
Lemma applyDataPlaneNow_returned_nil fuel context (dp dp' : DataPlane) :
  applyDataPlaneNow fuel context dp = (dp', Returned None) ->
  exists rest,
    trace dp' = (trace dp ++ CallApplyIPSets None :: rest)%list
    /\ Forall (fun e => isFlushStep e = true) rest.
Proof.
  intros H. pose proof (applyDataPlaneNow_grows fuel context dp) as G.
  rewrite H in G. simpl in G. destruct G as (new & Htr & Hk).
  pose proof (applyDataPlaneNow_commits fuel context dp) as Hc.
  revert H. unfold applyDataPlaneNow.
  destruct (ipsets_ApplyIPSets (ipsetMgr dp)) as [im [e|]]; simpl; [discriminate|].
  intros H.
  assert (exists rest, trace dp' = (trace dp ++ CallApplyIPSets None :: rest)%list)
    as (rest & Hrest).
  { assert (forall d : DataPlane,
               grows isFlushStep
                 (if applyInBackground dp
                  then set_applyInfo_numBatches 0
                         (emit (CallApplyIPSets None) (set_ipsetMgr im dp))
                  else emit (CallApplyIPSets None) (set_ipsetMgr im dp)) d ->
               exists rest, trace d = (trace dp ++ CallApplyIPSets None :: rest)%list)
      as Hfrom.
    { intros d (n & Hn & _). exists n. rewrite Hn.
      destruct (applyInBackground dp); simpl; rewrite <- app_assoc; reflexivity. }
    apply Hfrom. revert H.
    destruct shouldUpdatePod.
    2: { intros [= <-]. apply grows_same. reflexivity. }
    match goal with |- context [upc_isEmpty ?q] => destruct (upc_isEmpty q) end.
    { intros [= <-]. apply grows_same. reflexivity. }
    match goal with |- context [refreshPodEndpoints ?c] =>
      destruct (refreshPodEndpoints c) as [ec [e|]] end; simpl.
    { intros [= <-]. eapply grows_trans; [|apply grows_emit; reflexivity].
      apply grows_emit; reflexivity. }
    match goal with |- context [drainUpdatePods fuel ?d] =>
      pose proof (drainUpdatePods_grows fuel d) as Hd;
      destruct (drainUpdatePods fuel d) as [d' o] end.
    simpl in Hd. destruct o; intros [= <-].
    eapply grows_trans; [|exact Hd]. apply grows_emit; reflexivity. }
  exists rest. split; [exact Hrest|].
  rewrite Hrest in Htr. apply app_inv_head in Htr. subst new.
  apply Forall_cons in Hk as [_ Hk]. exact Hk.
Qed.

Lemma no_install_in l pre x post :
  Forall (fun e => isInstall e = false) l ->
  l = (pre ++ x :: post)%list -> isInstall x = true -> False.
Proof.
  intros Hall -> Hx. apply Forall_app in Hall as [_ Hall].
  apply Forall_cons in Hall as [Hall _]. congruence.
Qed.

Lemma only_install pre0 x0 post0 : forall pre x post,
  Forall (fun e => isInstall e = false) pre0 ->
  Forall (fun e => isInstall e = false) post0 ->
  (pre0 ++ x0 :: post0 = pre ++ x :: post)%list ->
  isInstall x = true ->
  pre = pre0 /\ x = x0 /\ post = post0.
Proof.
  induction pre0 as [|a pre0 IH]; intros pre x post Hpre Hpost Heq Hx.
  - destruct pre as [|b pre]; simpl in Heq.
    + injection Heq as -> ->. auto.
    + injection Heq as -> ->. exfalso.
      eapply no_install_in; [exact Hpost | reflexivity | exact Hx].
  - apply Forall_cons in Hpre as [Ha Hpre].
    destruct pre as [|b pre]; simpl in Heq.
    + injection Heq as <- _. congruence.
    + injection Heq as <- Heq.
      destruct (IH _ _ _ Hpre Hpost Heq Hx) as (-> & -> & ->). auto.
Qed.

Lemma flush_step_kinds e :
  isFlushStep e = true -> isInstall e = false /\ isAddPolicyStep e = true
                          /\ isRemovePolicyStep e = true.
Proof. destruct e; simpl; intros H; try discriminate; auto. Qed.

Lemma creation_step_kinds e :
  isSetCreationStep e = true -> isInstall e = false /\ isAddPolicyStep e = true.
Proof. destruct e; simpl; intros H; try discriminate; auto. Qed.

Lemma rule_flush_step_kinds e :
  isRuleFlushStep e = true ->
  isInstall e = false /\ isSetCreationStep e = false /\ isAddPolicyStep e = true
  /\ isRemovePolicyStep e = true.
Proof. destruct e; simpl; intros H; try discriminate; auto. Qed.

Lemma release_step_kinds e : isReleaseStep e = true -> isRemovePolicyStep e = true.
Proof. destruct e; simpl; intros H; try discriminate; auto. Qed.

(** The history of a run of AddPolicy: either it holds no rule
    install, or it is cut in two by the one install. *)
Lemma AddPolicy_shape fuel (dp : DataPlane) policy :
  let events := newEvents dp (fst (AddPolicy fuel dp policy)) in
  Forall (fun e => isAddPolicyStep e = true) events
  /\ (Forall (fun e => isInstall e = false) events
      \/ exists pre res post,
           events = (pre ++ CallPolicyMgrAddPolicy (PolicyKey policy) res :: post)%list
           /\ In (CallApplyIPSets None) pre
           /\ In (CallGetEndpointsToApplyPolicy (PolicyKey policy) None) pre
           /\ Forall (fun e => isInstall e = false) pre
           /\ Forall (fun e => isInstall e = false) post
           /\ Forall (fun e => isSetCreationStep e = false) post).
Proof.
  unfold AddPolicy.
  match goal with |- context [createIPSetsAndReferences ?s ?n ?t dp] =>
    pose proof (createIPSetsAndReferences_grows s n t dp) as G1;
    destruct (createIPSetsAndReferences s n t dp) as [d1 [e|]] end; simpl in G1.
  { destruct G1 as (n1 & T1 & K1). simpl. rewrite (newEvents_app _ _ _ T1). split.
    - eapply Forall_impl; [exact K1|]. intros x Hx. apply creation_step_kinds. exact Hx.
    - left. eapply Forall_impl; [exact K1|]. intros x Hx. apply creation_step_kinds.
      exact Hx. }
  match goal with |- context [createIPSetsAndReferences ?s ?n ?t d1] =>
    pose proof (createIPSetsAndReferences_grows s n t d1) as G2;
    destruct (createIPSetsAndReferences s n t d1) as [d2 [e|]] end; simpl in G2.
  { pose proof (grows_trans _ _ _ _ G1 G2) as (n & T & K). simpl.
    rewrite (newEvents_app _ _ _ T). split.
    - eapply Forall_impl; [exact K|]. intros x Hx. apply creation_step_kinds. exact Hx.
    - left. eapply Forall_impl; [exact K|]. intros x Hx. apply creation_step_kinds.
      exact Hx. }
  pose proof (grows_trans _ _ _ _ G1 G2) as (n12 & T12 & K12).
  pose proof (applyDataPlaneNow_grows fuel contextAddNetPol d2) as G3.
  pose proof (applyDataPlaneNow_returned_nil fuel contextAddNetPol d2) as Hnil.
  destruct (applyDataPlaneNow fuel contextAddNetPol d2) as [d3 o]. simpl in G3.
  destruct G3 as (n3 & T3 & K3).
  assert (trace d3 = (trace dp ++ n12 ++ n3)%list) as T123
    by (rewrite T3, T12, <- app_assoc; reflexivity).
  assert (Forall (fun e => isAddPolicyStep e = true) (n12 ++ n3)) as KA.
  { apply Forall_app. split.
    - eapply Forall_impl; [exact K12|]. intros x Hx. apply creation_step_kinds. exact Hx.
    - eapply Forall_impl; [exact K3|]. intros x Hx. apply flush_step_kinds. exact Hx. }
  assert (Forall (fun e => isInstall e = false) (n12 ++ n3)) as KI.
  { apply Forall_app. split.
    - eapply Forall_impl; [exact K12|]. intros x Hx. apply creation_step_kinds. exact Hx.
    - eapply Forall_impl; [exact K3|]. intros x Hx. apply flush_step_kinds. exact Hx. }
  destruct o as [[e|]|w|]; simpl;
    try (rewrite (newEvents_app _ _ _ T123); split; [exact KA | left; exact KI]).
  destruct (Hnil d3 eq_refl) as (rest & Tnil & _).
  assert (In (CallApplyIPSets None) (n12 ++ n3)) as Hcommit.
  { rewrite T3 in Tnil. apply app_inv_head in Tnil. subst n3.
    apply in_or_app. right. left. reflexivity. }
  destruct (getEndpointsToApplyPolicy _ _ _) as [[ec endpointList] [e|]]; simpl.
  { erewrite newEvents_app by (simpl; rewrite T123, <- !app_assoc; reflexivity). split.
    - rewrite app_assoc. apply Forall_app. split; [exact KA | repeat constructor].
    - left. rewrite app_assoc. apply Forall_app. split; [exact KI | repeat constructor]. }
  destruct (policies_AddPolicy _ _ _) as [pm [e|]]; simpl.
  { erewrite newEvents_app by (simpl; rewrite T123, <- !app_assoc; reflexivity).
    split.
    - rewrite app_assoc. apply Forall_app. split; [exact KA | repeat constructor].
    - right.
      exists (n12 ++ n3 ++ [CallGetEndpointsToApplyPolicy (PolicyKey policy) None])%list,
        (Some e), [].
      split; [rewrite <- !app_assoc; reflexivity|].
      split; [rewrite app_assoc; apply in_or_app; left; exact Hcommit|].
      split; [rewrite app_assoc; apply in_or_app; right; left; reflexivity|].
      split; [rewrite app_assoc; apply Forall_app; split; [exact KI | repeat constructor]|].
      split; constructor. }
  match goal with |- context [incrementBatchAndReconcileDirtyNetPolsIfNeeded ?c ?d] =>
    pose proof (incrementBatchAndReconcileDirtyNetPolsIfNeeded_grows c d) as G4;
    destruct (incrementBatchAndReconcileDirtyNetPolsIfNeeded c d) as [d4 err] end.
  cbn [fst] in G4. destruct G4 as (n4 & T4 & K4).
  assert (Forall (fun e => isInstall e = false /\ isSetCreationStep e = false
                           /\ isAddPolicyStep e = true) n4) as K4'.
  { eapply Forall_impl; [exact K4|]. intros x Hx.
    destruct (rule_flush_step_kinds x Hx) as (? & ? & ? & ?). auto. }
  cbn [fst].
  rewrite (newEvents_app dp d4
             (n12 ++ n3 ++ [CallGetEndpointsToApplyPolicy (PolicyKey policy) None]
                  ++ [CallPolicyMgrAddPolicy (PolicyKey policy) None] ++ n4)%list)
    by (rewrite T4; simpl; rewrite T123, <- !app_assoc; reflexivity).
  split.
  - rewrite app_assoc. apply Forall_app. split; [exact KA|].
    constructor; [reflexivity|]. constructor; [reflexivity|].
    eapply Forall_impl; [exact K4'|]. intros x Hx. apply Hx.
  - right.
    exists (n12 ++ n3 ++ [CallGetEndpointsToApplyPolicy (PolicyKey policy) None])%list,
      None, n4.
    split; [rewrite <- !app_assoc; reflexivity|].
    split; [rewrite app_assoc; apply in_or_app; left; exact Hcommit|].
    split; [rewrite app_assoc; apply in_or_app; right; left; reflexivity|].
    split; [rewrite app_assoc; apply Forall_app; split; [exact KI | repeat constructor]|].
    split; (eapply Forall_impl; [exact K4'|]); intros x Hx; apply Hx.
Qed.

Lemma AddPolicy_extends fuel (dp : DataPlane) policy :
  exists new, trace (fst (AddPolicy fuel dp policy)) = (trace dp ++ new)%list.
Proof.
  unfold AddPolicy.
  match goal with |- context [createIPSetsAndReferences ?s ?n ?t dp] =>
    pose proof (createIPSetsAndReferences_grows s n t dp) as G1;
    destruct (createIPSetsAndReferences s n t dp) as [d1 [e|]] end; cbn [fst] in *.
  { destruct G1 as (n & T & _). exists n. exact T. }
  match goal with |- context [createIPSetsAndReferences ?s ?n ?t d1] =>
    pose proof (createIPSetsAndReferences_grows s n t d1) as G2;
    destruct (createIPSetsAndReferences s n t d1) as [d2 [e|]] end; cbn [fst] in *.
  { destruct (grows_trans _ _ _ _ G1 G2) as (n & T & _). exists n. exact T. }
  pose proof (applyDataPlaneNow_grows fuel contextAddNetPol d2) as G3.
  destruct (applyDataPlaneNow fuel contextAddNetPol d2) as [d3 o]. cbn [fst] in G3.
  destruct G1 as (n1 & T1 & _), G2 as (n2 & T2 & _), G3 as (n3 & T3 & _).
  assert (trace d3 = (trace dp ++ n1 ++ n2 ++ n3)%list) as T
    by (rewrite T3, T2, T1, <- !app_assoc; reflexivity).
  destruct o as [[e|]|w|]; cbn [fst]; try (eexists; exact T).
  destruct (getEndpointsToApplyPolicy _ _ _) as [[ec endpointList] [e|]]; cbn [fst].
  { eexists. simpl. rewrite T, <- !app_assoc. reflexivity. }
  destruct (policies_AddPolicy _ _ _) as [pm [e|]]; cbn [fst].
  { eexists. simpl. rewrite T, <- !app_assoc. reflexivity. }
  match goal with |- context [incrementBatchAndReconcileDirtyNetPolsIfNeeded ?c ?d] =>
    pose proof (incrementBatchAndReconcileDirtyNetPolsIfNeeded_grows c d) as G4;
    destruct (incrementBatchAndReconcileDirtyNetPolsIfNeeded c d) as [d4 err] end.
  cbn [fst] in *. destruct G4 as (n4 & T4 & _).
  eexists. rewrite T4. simpl. rewrite T, <- !app_assoc. reflexivity.
Qed.

(** X8: AddPolicy installs the rules of a policy only after the sets
    are committed and the endpoints resolved: an install found in the
    history of a run is the install of this policy, it is the only one,
    a commit that succeeded and a successful endpoint resolution for
    this policy come before it, and no set or reference is created
    after it. *)
Theorem rules_follow_sets fuel (dp : DataPlane) policy pre key res post :
  newEvents dp (fst (AddPolicy fuel dp policy))
  = (pre ++ CallPolicyMgrAddPolicy key res :: post)%list ->
  key = PolicyKey policy
  /\ In (CallApplyIPSets None) pre
  /\ In (CallGetEndpointsToApplyPolicy key None) pre
  /\ Forall (fun e => isInstall e = false) pre
  /\ Forall (fun e => isInstall e = false) post
  /\ Forall (fun e => isSetCreationStep e = false) post.
Proof.
  intros Heq.
  destruct (AddPolicy_shape fuel dp policy) as [_ [Hnone | Hone]].
  - exfalso. eapply no_install_in; [exact Hnone | exact Heq | reflexivity].
  - destruct Hone as (pre0 & res0 & post0 & Heq0 & Hc & Hr & Hpre & Hpost & Hcreate).
    rewrite Heq0 in Heq.
    destruct (only_install _ _ _ _ _ _ Hpre Hpost Heq eq_refl) as (-> & Hx & ->).
    injection Hx as -> ->. repeat split; assumption.
Qed.

Lemma incrementBatchAndReconcileDirtyNetPolsIfNeeded_unbatched context (dp : DataPlane) :
  iptablesInBackground dp = false ->
  incrementBatchAndReconcileDirtyNetPolsIfNeeded context dp = (dp, None).
Proof. intros H. unfold incrementBatchAndReconcileDirtyNetPolsIfNeeded. rewrite H. reflexivity. Qed.

Lemma grows_both (K K' : Event -> bool) (a b : DataPlane) :
  grows K a b -> Forall (fun e => K' e = true) (newEvents a b) ->
  grows (fun e => K e && K' e) a b.
Proof.
  intros (new & H & F) F'. rewrite (newEvents_app _ _ _ H) in F'.
  exists new. split; [exact H|].
  apply Forall_forall. intros e He.
  rewrite Forall_forall in F, F'. rewrite (F e He), (F' e He). reflexivity.
Qed.

Lemma deleteIPSetsAndReferences_unbatched_grows sets netpolName referenceType
    (dp : DataPlane) :
  iptablesInBackground dp = false ->
  grows (fun e => isReleaseStep e && negb (isAddReference e)) dp
    (fst (deleteIPSetsAndReferences sets netpolName referenceType dp)).
Proof.
  intros Hbg. apply grows_both; [apply deleteIPSetsAndReferences_release|].
  unfold deleteIPSetsAndReferences.
  destruct (deleteReferences_unbatched netpolName referenceType sets dp Hbg)
    as (n1 & T1 & _ & F1 & _).
  destruct (removeTranslatedMembers_members referenceType sets
              (deleteReferences sets netpolName referenceType dp)) as [(n2 & T2 & F2) _].
  rewrite (newEvents_app _ _ (n1 ++ n2)%list) by (rewrite T2, T1, app_assoc; reflexivity).
  apply Forall_app. split.
  - eapply Forall_impl; [exact F1|]. intros e He. simpl in He. rewrite He. reflexivity.
  - eapply Forall_impl; [exact F2|]. intros e He. destruct e; simpl in *; congruence.
Qed.

(** The history of RemovePolicy, for any kind of events that contains
    what its steps add. *)
Lemma releasePolicyReferences_grows_in (K : Event -> bool) fuel (dp : DataPlane) policy :
  (forall e, isFlushStep e = true -> K e = true) ->
  (forall sets n t (d : DataPlane),
      sameSettings dp d -> grows K d (fst (deleteIPSetsAndReferences sets n t d))) ->
  (forall c (d : DataPlane),
      sameSettings dp d ->
      grows K d (fst (incrementBatchAndReconcileDirtyNetPolsIfNeeded c d))) ->
  grows K dp (fst (releasePolicyReferences fuel dp policy)).
Proof.
  intros Wf Wd Wi. unfold releasePolicyReferences.
  match goal with |- context [deleteIPSetsAndReferences ?s ?n ?t dp] =>
    pose proof (Wd s n t dp (sameSettings_refl dp)) as G1;
    pose proof (deleteIPSetsAndReferences_settings s n t dp) as S1;
    destruct (deleteIPSetsAndReferences s n t dp) as [d1 [e|]] end;
    cbn [fst] in G1, S1; [exact G1|].
  match goal with |- context [deleteIPSetsAndReferences ?s ?n ?t d1] =>
    pose proof (Wd s n t d1 S1) as G2;
    pose proof (deleteIPSetsAndReferences_settings s n t d1) as S2;
    destruct (deleteIPSetsAndReferences s n t d1) as [d2 [e|]] end;
    cbn [fst] in G2, S2; [eapply grows_trans; eassumption|].
  pose proof (applyDataPlaneNow_grows fuel contextApplyDP d2) as G3.
  pose proof (applyDataPlaneNow_settings fuel contextApplyDP d2) as S3.
  destruct (applyDataPlaneNow fuel contextApplyDP d2) as [d3 o]. cbn [fst] in G3, S3.
  apply (grows_weaken _ K _ _ Wf) in G3.
  assert (grows K dp d3) as G by (eapply grows_trans; [|exact G3]; eapply grows_trans; eassumption).
  assert (sameSettings dp d3) as S
    by (eapply sameSettings_trans; [|exact S3]; eapply sameSettings_trans; eassumption).
  destruct o as [[e|]|w|]; cbn [fst]; try exact G.
  pose proof (Wi contextDelNetPol d3 S) as G4.
  destruct (incrementBatchAndReconcileDirtyNetPolsIfNeeded contextDelNetPol d3) as [d4 err].
  cbn [fst] in *. eapply grows_trans; eassumption.
Qed.

Lemma RemovePolicy_grows_in (K : Event -> bool) fuel (dp : DataPlane) policyKey :
  (forall key res, K (CallPolicyMgrRemovePolicy key res) = true) ->
  (forall e, isFlushStep e = true -> K e = true) ->
  (forall sets n t (d : DataPlane),
      sameSettings dp d -> grows K d (fst (deleteIPSetsAndReferences sets n t d))) ->
  (forall c (d : DataPlane),
      sameSettings dp d ->
      grows K d (fst (incrementBatchAndReconcileDirtyNetPolsIfNeeded c d))) ->
  grows K dp (fst (RemovePolicy fuel dp policyKey)).
Proof.
  intros Wr Wf Wd Wi. unfold RemovePolicy.
  destruct (policies_GetPolicy _ _) as [[policy|] ok]; cbn [fst];
    [|apply grows_same; reflexivity].
  destruct ok; cbn [negb fst]; [|apply grows_same; reflexivity].
  destruct (policies_RemovePolicy _ _) as [pm [e|]]; cbn [fst].
  - apply grows_emit; [apply Wr | reflexivity].
  - match goal with |- grows _ _ (fst (releasePolicyReferences _ ?d _)) =>
      assert (sameSettings dp d) as Sd
        by (unfold pruneAfterRemoval; destruct shouldUpdatePod; repeat split);
      assert (grows K dp d) as Gd end.
    { unfold pruneAfterRemoval.
      destruct shouldUpdatePod; (apply grows_emit; [apply Wr | reflexivity]). }
    eapply grows_trans; [exact Gd|].
    apply releasePolicyReferences_grows_in.
    + exact Wf.
    + intros sets n t d S. apply Wd. eapply sameSettings_trans; eassumption.
    + intros c d S. apply Wi. eapply sameSettings_trans; eassumption.
Qed.

Lemma AddPolicy_unbatched fuel (dp : DataPlane) policy :
  iptablesInBackground dp = false ->
  grows (fun e => negb (isReconcile e || isDeleteReference e)) dp
    (fst (AddPolicy fuel dp policy)).
Proof.
  intros Hbg.
  assert (forall e, isSetCreationStep e = true ->
                    negb (isReconcile e || isDeleteReference e) = true) as W1
    by (intros e; destruct e; simpl; intros H; (reflexivity || discriminate)).
  assert (forall e, isFlushStep e = true ->
                    negb (isReconcile e || isDeleteReference e) = true) as W2
    by (intros e; destruct e; simpl; intros H; (reflexivity || discriminate)).
  unfold AddPolicy.
  match goal with |- context [createIPSetsAndReferences ?s ?n ?t dp] =>
    pose proof (createIPSetsAndReferences_grows s n t dp) as G1;
    pose proof (createIPSetsAndReferences_settings s n t dp) as S1;
    destruct (createIPSetsAndReferences s n t dp) as [d1 [e|]] end;
    cbn [fst] in G1, S1; apply (grows_weaken _ _ _ _ W1) in G1; [exact G1|].
  match goal with |- context [createIPSetsAndReferences ?s ?n ?t d1] =>
    pose proof (createIPSetsAndReferences_grows s n t d1) as G2;
    pose proof (createIPSetsAndReferences_settings s n t d1) as S2;
    destruct (createIPSetsAndReferences s n t d1) as [d2 [e|]] end;
    cbn [fst] in G2, S2; apply (grows_weaken _ _ _ _ W1) in G2;
    [eapply grows_trans; eassumption|].
  pose proof (applyDataPlaneNow_grows fuel contextAddNetPol d2) as G3.
  pose proof (applyDataPlaneNow_settings fuel contextAddNetPol d2) as S3.
  destruct (applyDataPlaneNow fuel contextAddNetPol d2) as [d3 o]. cbn [fst] in G3, S3.
  apply (grows_weaken _ _ _ _ W2) in G3.
  assert (grows (fun e => negb (isReconcile e || isDeleteReference e)) dp d3) as G
    by (eapply grows_trans; [|exact G3]; eapply grows_trans; eassumption).
  assert (iptablesInBackground d3 = false) as Hbg3.
  { destruct S1 as (_ & _ & A & _), S2 as (_ & _ & B & _), S3 as (_ & _ & D & _).
    congruence. }
  destruct o as [[e|]|w|]; cbn [fst]; try exact G.
  destruct (getEndpointsToApplyPolicy _ _ _) as [[ec endpointList] [e|]]; cbn [fst].
  { eapply grows_trans; [exact G|]. apply grows_emit; reflexivity. }
  destruct (policies_AddPolicy _ _ _) as [pm [e|]]; cbn [fst].
  { eapply grows_trans; [exact G|].
    eapply grows_trans; [|apply grows_emit; reflexivity]. apply grows_emit; reflexivity. }
  rewrite incrementBatchAndReconcileDirtyNetPolsIfNeeded_unbatched by exact Hbg3.
  cbn [fst]. eapply grows_trans; [exact G|].
  eapply grows_trans; [|apply grows_emit; reflexivity]. apply grows_emit; reflexivity.
Qed.

(** X9: the calls that AddPolicy and RemovePolicy themselves make on
    their collaborators, as the history records them.  A pod update
    made by the platform inside a flush is one entry of the history,
    and what updatePod does to the managers while it runs is not part
    of this statement.  In the history of AddPolicy every entry is the
    creation of a set, the addition of a reference or of a member, a
    step of a flush of the set path or of the rule path, the resolution
    of the endpoints or the install of the rules: there is no
    RemoveFromSets, no RemoveFromList and no RemovePolicy of the policy
    manager.  In the history of RemovePolicy every entry is the
    RemovePolicy of the policy manager, a step of the release of the
    references and members or a step of a flush: there is no
    CreateIPSets, no AddToSets, no AddToLists, no endpoint resolution
    and no AddPolicy of the policy manager.  Without rule batching
    neither history holds a rule commit, that of AddPolicy holds no
    DeleteReference and that of RemovePolicy no AddReference. *)
Theorem policy_calls_stay_in_their_lane fuel (dp : DataPlane) policy policyKey :
  Forall (fun e => isAddPolicyStep e = true) (newEvents dp (fst (AddPolicy fuel dp policy)))
  /\ Forall (fun e => isRemovePolicyStep e = true)
       (newEvents dp (fst (RemovePolicy fuel dp policyKey)))
  /\ (iptablesInBackground dp = false ->
      Forall (fun e => isReconcile e = false /\ isDeleteReference e = false)
        (newEvents dp (fst (AddPolicy fuel dp policy)))
      /\ Forall (fun e => isReconcile e = false /\ isAddReference e = false)
           (newEvents dp (fst (RemovePolicy fuel dp policyKey)))).
Proof.
  split; [apply AddPolicy_shape|]. split.
  - apply grows_newEvents. apply RemovePolicy_grows_in.
    + reflexivity.
    + intros e He. apply flush_step_kinds. exact He.
    + intros sets n t d _. eapply grows_weaken; [|apply deleteIPSetsAndReferences_release].
      apply release_step_kinds.
    + intros c d _.
      eapply grows_weaken; [|apply incrementBatchAndReconcileDirtyNetPolsIfNeeded_grows].
      intros e He. apply rule_flush_step_kinds. exact He.
  - intros Hbg. split.
    + pose proof (grows_newEvents _ _ _ (AddPolicy_unbatched fuel dp policy Hbg)) as H.
      eapply Forall_impl; [exact H|]. intros e He. simpl in He.
      destruct (isReconcile e), (isDeleteReference e); simpl in He; try discriminate. auto.
    + assert (grows (fun e => negb (isReconcile e || isAddReference e)) dp
                (fst (RemovePolicy fuel dp policyKey))) as G.
      { apply RemovePolicy_grows_in.
        - reflexivity.
        - intros e; destruct e; simpl; intros H; (reflexivity || discriminate).
        - intros sets n t d (_ & _ & S & _).
          eapply grows_weaken;
            [|apply deleteIPSetsAndReferences_unbatched_grows; congruence].
          intros e; destruct e; simpl; intros H; (reflexivity || discriminate).
        - intros c d (_ & _ & S & _).
          rewrite incrementBatchAndReconcileDirtyNetPolsIfNeeded_unbatched by congruence.
          apply grows_same. reflexivity. }
      pose proof (grows_newEvents _ _ _ G) as H.
      eapply Forall_impl; [exact H|]. intros e He. simpl in He.
      destruct (isReconcile e), (isAddReference e); simpl in He; try discriminate. auto.
Qed.

(** *** RemovePolicy asks the policy manager first *)



(** *** References created for a policy *)

Section Creation.

Context (held : IPSetManager -> string -> string -> ReferenceType -> Prop).
Context {laws : CreationLaws held}.

Lemma createReferences_held netpolName referenceType sets : forall dp dp' : DataPlane,
  createReferences sets netpolName referenceType dp = (dp', None) ->
  (forall set, In set sets ->
               held (ipsetMgr dp') (GetPrefixName (Metadata set)) netpolName referenceType)
  /\ (forall s ref t, held (ipsetMgr dp) s ref t -> held (ipsetMgr dp') s ref t).
Proof.
  induction sets as [|set rest IH]; intros dp dp'; simpl.
  - intros [= <-]. split; [intros set []|auto].
  - destruct (ipsets_AddReference _ _ _ _) as [im [e|]] eqn:Hadd; [discriminate|].
    intros Hrest. destruct (IH _ _ Hrest) as [Hall Hkeep]. simpl in Hkeep. split.
    + intros set' [<- | Hin]; [|apply Hall; exact Hin].
      apply Hkeep. eapply Creation_AddReference_holds. exact Hadd.
    + intros s ref t H. apply Hkeep. eapply Creation_AddReference_keeps; [exact Hadd|].
      apply Creation_CreateIPSets_keeps. exact H.
Qed.

Lemma addIPBlocks_keeps set referenceType members : forall (dp : DataPlane) s ref t,
  held (ipsetMgr dp) s ref t ->
  held (ipsetMgr (fst (addIPBlocks set members referenceType dp))) s ref t.
Proof.
  induction members as [|ipblock rest IH]; intros dp s ref t H; simpl; [exact H|].
  destruct (ipsets_AddToSets _ _ _ _) as [im [e|]] eqn:Hadd; simpl.
  - eapply Creation_AddToSets_keeps; [exact Hadd | exact H].
  - apply IH. simpl. eapply Creation_AddToSets_keeps; [exact Hadd | exact H].
Qed.

Lemma addTranslatedMembers_keeps referenceType sets : forall (dp : DataPlane) s ref t,
  held (ipsetMgr dp) s ref t ->
  held (ipsetMgr (fst (addTranslatedMembers sets referenceType dp))) s ref t.
Proof.
  induction sets as [|set rest IH]; intros dp s ref t H; simpl; [exact H|].
  destruct (bool_decide (Type_ (Metadata set) = CIDRBlocks)).
  - pose proof (addIPBlocks_keeps set referenceType (Members set) dp s ref t H) as H1.
    destruct (addIPBlocks set (Members set) referenceType dp) as [d [e|]]; simpl in *.
    + exact H1.
    + apply IH. exact H1.
  - destruct (bool_decide (Type_ (Metadata set) = NestedLabelOfPod)
              && (0 <? Z.of_nat (length (Members set)))); [|apply IH; exact H].
    destruct (ipsets_AddToLists _ _ _) as [im [e|]] eqn:Hadd; simpl.
    + eapply Creation_AddToLists_keeps; [exact Hadd | exact H].
    + apply IH. simpl. eapply Creation_AddToLists_keeps; [exact Hadd | exact H].
Qed.

(** X11: for an IPSetManager in which an AddReference that succeeds
    makes the set hold the reference and in which the operations used
    to add a policy take no reference away, createIPSetsAndReferences
    never loses a reference that was held, whether it succeeds or not,
    and when it returns nil every set of the list holds the reference
    of the policy, of the given type. *)
Theorem created_references_are_held sets netpolName referenceType (dp : DataPlane) :
  let run := createIPSetsAndReferences sets netpolName referenceType dp in
  (forall s ref t, held (ipsetMgr dp) s ref t -> held (ipsetMgr (fst run)) s ref t)
  /\ (snd run = None ->
      forall set, In set sets ->
        held (ipsetMgr (fst run)) (GetPrefixName (Metadata set)) netpolName referenceType).
Proof.
  unfold createIPSetsAndReferences.
  destruct (createReferences sets netpolName referenceType dp) as [d [e|]] eqn:Hcreate;
    cbn [fst snd].
  - split; [|discriminate].
    revert dp d Hcreate.
    induction sets as [|set rest IH]; intros dp d; simpl; [discriminate|].
    destruct (ipsets_AddReference _ _ _ _) as [im [e'|]] eqn:Hadd.
    + intros [= <- _] s ref t H. simpl.
      eapply Creation_AddReference_keeps; [exact Hadd|].
      apply Creation_CreateIPSets_keeps. exact H.
    + intros Hrest s ref t H. eapply IH; [exact Hrest|]. simpl.
      eapply Creation_AddReference_keeps; [exact Hadd|].
      apply Creation_CreateIPSets_keeps. exact H.
  - destruct (createReferences_held _ _ _ _ _ Hcreate) as [Hall Hkeep]. split.
    + intros s ref t H. apply addTranslatedMembers_keeps. apply Hkeep. exact H.
    + intros _ set Hin. apply addTranslatedMembers_keeps. apply Hall. exact Hin.
Qed.

End Creation.

(** *** Pods of other nodes *)

(** X12: AddToSets and RemoveFromSets put a pod in the pod-update
    queue only when the deferred-apply backend is active and the pod is
    on this node.  For a pod of another node, or without that backend,
    the call is the IPSetManager call alone: the queue, the endpoint
    cache, both counters and the pending-cleanup table are left as they
    were, the history grows by that one call, and the call returns nil
    exactly when the IPSetManager does. *)
Theorem pods_of_other_nodes_are_not_queued (op : SetUpdate) (dp : DataPlane) setNames pod :
  shouldUpdatePod = false \/ NodeName pod <> nodeName dp ->
  let run := dataplaneUpdate op dp setNames pod in
  let answer := managerUpdate op (ipsetMgr dp) setNames (PodIP pod) (PodKey pod) in
  sameBookkeeping (fst run) dp
  /\ ipsetMgr (fst run) = fst answer
  /\ policyMgr (fst run) = policyMgr dp
  /\ length (newEvents dp (fst run)) = 1%nat
  /\ Forall (fun e => isMemberUpdate e = true) (newEvents dp (fst run))
  /\ (snd run = None <-> snd answer = None).
Proof.
  intros Hcase.
  assert (shouldUpdatePod && String.eqb (NodeName pod) (nodeName dp) = false) as Hno.
  { destruct Hcase as [-> | Hne]; [reflexivity|].
    apply andb_false_iff. right. apply String.eqb_neq. exact Hne. }
  destruct op; simpl; [unfold AddToSets | unfold RemoveFromSets].
  - destruct (ipsets_AddToSets _ _ _ _) as [im [e|]]; cbn [fst snd].
    + erewrite newEvents_app by reflexivity.
      repeat split; try discriminate. repeat constructor.
    + cbn [nodeName emit set_ipsetMgr]. rewrite Hno. cbn [fst snd].
      erewrite newEvents_app by reflexivity.
      repeat split. repeat constructor.
  - destruct (ipsets_RemoveFromSets _ _ _ _) as [im [e|]]; cbn [fst snd].
    + erewrite newEvents_app by reflexivity.
      repeat split; try discriminate. repeat constructor.
    + cbn [nodeName emit set_ipsetMgr]. rewrite Hno. cbn [fst snd].
      erewrite newEvents_app by reflexivity.
      repeat split. repeat constructor.
Qed.


(** *** The background tasks *)

Lemma reconcileDirtyNetPolsNow_one_commit context (dp : DataPlane) :
  ruleFlushes (newEvents dp (fst (reconcileDirtyNetPolsNow context dp))) = 1%nat.
Proof.
  destruct (policies_ReconcileDirtyNetPols (policyMgr dp)) as [pm [e|]] eqn:Hrec.
  - rewrite (reconcileDirtyNetPolsNow_failed _ _ _ _ Hrec). cbn [fst].
    erewrite newEvents_app by (simpl; rewrite <- app_assoc; reflexivity). reflexivity.
  - destruct (reconcileDirtyNetPolsNow_succeeded context dp pm Hrec) as (new & Htr & Hfl & _).
    rewrite (newEvents_app _ _ _ Htr).
    change (S (ruleFlushes new) = 1%nat). rewrite Hfl. reflexivity.
Qed.

(** X13: the iptables task of RunPeriodicTasks.  A tick that finds the
    rule counter non-zero asks for exactly one rule commit.  When the
    commit fails the counter and the pending-cleanup table are kept,
    and the next tick asks for the commit again.  When it succeeds the
    tick makes the DeleteReference calls of the rule flush, one per
    element of the table, the key of an entry after "TMP" as the
    reference name and each element of its list as the set name; it
    sets the counter to zero and empties the table whatever those calls
    released, and the next tick finds the counter at zero, makes no
    call and leaves the state as it is: a temporary reference that the
    calls of the first tick did not release is not tried again. *)
Theorem rule_tick_retries_until_success (dp : DataPlane) :
  netPolInfo_numBatches dp <> 0 ->
  ruleFlushes (newEvents dp (iptablesTick dp)) = 1%nat
  /\ match snd (policies_ReconcileDirtyNetPols (policyMgr dp)) with
     | None =>
       netPolInfo_numBatches (iptablesTick dp) = 0
       /\ toDeleteNetPolReferences (iptablesTick dp) = ∅
       /\ releasedReferences (newEvents dp (iptablesTick dp))
          ≡ₚ flushReleases (toDeleteNetPolReferences dp)
       /\ iptablesTick (iptablesTick dp) = iptablesTick dp
     | Some _ =>
       netPolInfo_numBatches (iptablesTick dp) = netPolInfo_numBatches dp
       /\ toDeleteNetPolReferences (iptablesTick dp) = toDeleteNetPolReferences dp
       /\ ruleFlushes (newEvents (iptablesTick dp) (iptablesTick (iptablesTick dp))) = 1%nat
     end.
Proof.
  intros Hn.
  assert (iptablesTick dp = fst (reconcileDirtyNetPolsNow contextBackground dp)) as Htick.
  { unfold iptablesTick. destruct (netPolInfo_numBatches dp =? 0) eqn:E; [lia | reflexivity]. }
  split; [rewrite Htick; apply reconcileDirtyNetPolsNow_one_commit|].
  destruct (policies_ReconcileDirtyNetPols (policyMgr dp)) as [pm [e|]] eqn:Hrec; cbn [snd].
  - assert (netPolInfo_numBatches (iptablesTick dp) = netPolInfo_numBatches dp) as Hkept
      by (rewrite Htick, (reconcileDirtyNetPolsNow_failed _ _ _ _ Hrec); reflexivity).
    split; [exact Hkept|].
    split; [rewrite Htick, (reconcileDirtyNetPolsNow_failed _ _ _ _ Hrec); reflexivity|].
    unfold iptablesTick at 2.
    destruct (netPolInfo_numBatches (iptablesTick dp) =? 0) eqn:E; [lia|].
    apply reconcileDirtyNetPolsNow_one_commit.
  - destruct (reconcileDirtyNetPolsNow_succeeded contextBackground dp pm Hrec)
      as (new & Htr & _ & Hrel & _ & Hzero & Hempty & _).
    rewrite <- Htick in Hzero, Hempty, Htr.
    split; [exact Hzero|]. split; [exact Hempty|].
    split; [rewrite (newEvents_app _ _ _ Htr); simpl; rewrite Hrel; reflexivity|].
    unfold iptablesTick at 1. rewrite Hzero. reflexivity.
Qed.

Lemma commits_newEvents K (a b : DataPlane) :
  grows K a b -> commits (trace b) = (commits (newEvents a b) + commits (trace a))%nat.
Proof.
  intros (new & H & _). rewrite (newEvents_app _ _ _ H), H, commits_app. lia.
Qed.

(** X14: the apply task of RunPeriodicTasks.  A tick that finds the
    apply counter non-zero asks for exactly one commit of the sets.
    When ApplyIPSets fails, the tick still ends normally: the error is
    reported, wrapped, as an error metric, which is the last event of
    the tick, and the counter is kept for the next tick.  When it
    succeeds under background apply the counter is zero afterwards. *)
Theorem apply_tick_reports_and_goes_on fuel (dp : DataPlane) :
  applyInfo_numBatches dp <> 0 ->
  let run := applyTick fuel dp in
  commits (newEvents dp (fst run)) = 1%nat
  /\ match snd (ipsets_ApplyIPSets (ipsetMgr dp)) with
     | Some e =>
       snd run = Returned tt
       /\ (exists fmt context,
              last (trace (fst run))
              = Some (ErrorMetric "[DataPlane] failed to apply dataplane in background: %v" []
                        (Some (Wrapped fmt [context] e))))
       /\ applyInfo_numBatches (fst run) = applyInfo_numBatches dp
     | None =>
       applyInBackground dp = true -> applyInfo_numBatches (fst run) = 0
     end.
Proof.
  intros Hn. unfold applyTick.
  destruct (applyInfo_numBatches dp =? 0) eqn:E; [lia|]. clear E.
  pose proof (applyDataPlaneNow_commits fuel contextBackground dp) as Hc.
  pose proof (applyDataPlaneNow_grows fuel contextBackground dp) as Hg.
  destruct (ipsets_ApplyIPSets (ipsetMgr dp)) as [im [e|]] eqn:Happly; cbn [snd].
  - rewrite (applyDataPlaneNow_failed _ _ _ _ _ Happly). cbn [fst snd].
    split; [|split; [reflexivity|split; [|reflexivity]]].
    + erewrite newEvents_app by (simpl; rewrite <- app_assoc; reflexivity). reflexivity.
    + eexists _, _. simpl. rewrite last_snoc. reflexivity.
  - pose proof (applyDataPlaneNow_resets fuel contextBackground dp im) as Hr.
    destruct (applyDataPlaneNow fuel contextBackground dp) as [d o]. cbn [fst] in *.
    assert (commits (newEvents dp d) = 1%nat) as Hone
      by (pose proof (commits_newEvents _ _ _ Hg); lia).
    destruct o as [[e|]|w|]; cbn [fst snd].
    + split; [|intros Hbg; apply Hr; [exact Hbg | exact Happly]].
      destruct Hg as (new & Htr & _). rewrite (newEvents_app _ _ _ Htr) in Hone.
      erewrite newEvents_app by (simpl; rewrite Htr, <- app_assoc; reflexivity).
      rewrite commits_snoc. simpl. lia.
    + split; [exact Hone | intros Hbg; apply Hr; [exact Hbg | exact Happly]].
    + split; [exact Hone | intros Hbg; apply Hr; [exact Hbg | exact Happly]].
    + split; [exact Hone | intros Hbg; apply Hr; [exact Hbg | exact Happly]].
Qed.

(** *** Apply without batching *)

Lemma applyDataPlaneNow_immediate fuel context (dp : DataPlane) :
  applyInBackground dp = false ->
  applyInfo_numBatches (fst (applyDataPlaneNow fuel context dp)) = applyInfo_numBatches dp.
Proof.
  intros Hbg. unfold applyDataPlaneNow.
  destruct (ipsets_ApplyIPSets (ipsetMgr dp)) as [im [e|]]; simpl; [reflexivity|].
  rewrite Hbg.
  destruct shouldUpdatePod; [|reflexivity].
  match goal with |- context [upc_isEmpty ?q] => destruct (upc_isEmpty q) end; [reflexivity|].
  match goal with |- context [refreshPodEndpoints ?c] =>
    destruct (refreshPodEndpoints c) as [ec [e|]] end; simpl; [reflexivity|].
  match goal with |- context [drainUpdatePods fuel ?d] =>
    pose proof (drainUpdatePods_keeps fuel d) as (H1 & _);
    destruct (drainUpdatePods fuel d) as [d' [u|w|]] end;
  simpl in *; rewrite H1; reflexivity.
Qed.

(** X15: when background apply is off, as it always is on Linux, every
    call of ApplyDataPlane asks for exactly one commit of the sets:
    after [n] calls in a row the history holds [n] more commits than
    before, whatever the commits answered, and the apply counter has
    not moved. *)
Theorem immediate_apply_commits_every_call fuel (dp : DataPlane) (n : nat) :
  applyInBackground dp = false ->
  commits (trace (applyCalls fuel n dp)) = (n + commits (trace dp))%nat
  /\ applyInfo_numBatches (applyCalls fuel n dp) = applyInfo_numBatches dp
  /\ applyInBackground (applyCalls fuel n dp) = false.
Proof.
  intros Hbg. induction n as [|n (IHc & IHn & IHb)]; simpl; [auto|].
  unfold ApplyDataPlane. rewrite IHb.
  rewrite applyDataPlaneNow_commits, IHc.
  rewrite (applyDataPlaneNow_immediate _ _ _ IHb), IHn.
  split; [lia|]. split; [reflexivity|].
  destruct (applyDataPlaneNow_settings fuel contextApplyDP (applyCalls fuel n dp))
    as (_ & H & _).
  rewrite H. exact IHb.
Qed.


(** *** UpdatePolicy *)

Lemma remove_policy_step_is_no_install e :
  isRemovePolicyStep e = true -> isInstall e = false.
Proof. destruct e; simpl; intros H; (reflexivity || discriminate). Qed.

Lemma install_after_prefix before : forall pre x post after,
  Forall (fun e => isInstall e = false) before ->
  isInstall x = true ->
  (pre ++ x :: post = before ++ after)%list ->
  exists pre', pre = (before ++ pre')%list /\ after = (pre' ++ x :: post)%list.
Proof.
  induction before as [|b before IH]; intros pre x post after Hno Hx Heq.
  - exists pre. split; [reflexivity | symmetry; exact Heq].
  - apply Forall_cons in Hno as [Hb Hno].
    destruct pre as [|p pre]; simpl in Heq.
    + injection Heq as -> _. congruence.
    + injection Heq as -> Heq.
      destruct (IH _ _ _ _ Hno Hx Heq) as (pre' & -> & ->).
      exists pre'. split; reflexivity.
Qed.

Lemma RemovePolicy_grows fuel (dp : DataPlane) policyKey :
  grows isRemovePolicyStep dp (fst (RemovePolicy fuel dp policyKey)).
Proof.
  apply RemovePolicy_grows_in.
  - reflexivity.
  - intros e He. apply flush_step_kinds. exact He.
  - intros sets n t d _. eapply grows_weaken; [|apply deleteIPSetsAndReferences_release].
    apply release_step_kinds.
  - intros c d _.
    eapply grows_weaken; [|apply incrementBatchAndReconcileDirtyNetPolsIfNeeded_grows].
    intros e He. apply rule_flush_step_kinds. exact He.
Qed.

(** X16: UpdatePolicy of a policy that the policy manager knows
    installs the new rules only after the removal of the old policy has
    returned nil: an install found in the history of the update is the
    install of this policy, everything the removal did comes before it,
    and so do a commit of the sets that succeeded and a successful
    endpoint resolution made after the removal.  When the removal does
    not return nil, no rule is installed. *)
Theorem UpdatePolicy_installs_after_removal fuel (dp : DataPlane) policy pre key res post :
  policies_PolicyExists (policyMgr dp) (PolicyKey policy) = true ->
  newEvents dp (fst (UpdatePolicy fuel dp policy))
  = (pre ++ CallPolicyMgrAddPolicy key res :: post)%list ->
  let removal := RemovePolicy fuel dp (PolicyKey policy) in
  snd removal = Returned None
  /\ key = PolicyKey policy
  /\ exists pre',
       pre = (newEvents dp (fst removal) ++ pre')%list
       /\ In (CallApplyIPSets None) pre'
       /\ In (CallGetEndpointsToApplyPolicy key None) pre'
       /\ Forall (fun e => isInstall e = false) pre
       /\ Forall (fun e => isInstall e = false) post.
Proof.
  intros Hexists. unfold UpdatePolicy. rewrite Hexists. cbn [negb].
  pose proof (RemovePolicy_grows fuel dp (PolicyKey policy)) as (rE & Tr & Kr).
  assert (Forall (fun e => isInstall e = false) rE) as Nr
    by (eapply Forall_impl; [exact Kr|]; apply remove_policy_step_is_no_install).
  destruct (RemovePolicy fuel dp (PolicyKey policy)) as [d1 o1]. cbn [fst snd] in *.
  destruct o1 as [[e|]|w|]; cbn [fst snd];
    try (rewrite (newEvents_app _ _ _ Tr); intros Heq; exfalso;
         eapply no_install_in; [exact Nr | exact Heq | reflexivity]).
  destruct (AddPolicy_shape fuel d1 policy) as [_ Hshape].
  pose proof (AddPolicy_shape fuel d1 policy) as [Ka _].
  assert (exists aE, trace (fst (AddPolicy fuel d1 policy)) = (trace d1 ++ aE)%list
                     /\ newEvents d1 (fst (AddPolicy fuel d1 policy)) = aE) as (aE & Ta & Ea).
  { destruct (AddPolicy_extends fuel d1 policy) as (aE & Ta).
    exists aE. split; [exact Ta | apply newEvents_app; exact Ta]. }
  rewrite Ea in Hshape. clear Ka.
  assert (newEvents dp
            (fst (match AddPolicy fuel d1 policy with
                  | (dp0, Returned (Some e)) =>
                    (dp0, Returned (Some (Wrapped "[DataPlane] error while updating policy: %w"
                                            [] e)))
                  | r => r
                  end)) = (rE ++ aE)%list) as ->.
  { apply newEvents_app.
    destruct (AddPolicy fuel d1 policy) as [d2 [[e|]|w|]]; cbn [fst] in *;
      rewrite Ta, Tr, app_assoc; reflexivity. }
  intros Heq. rewrite (newEvents_app _ _ _ Tr).
  destruct (install_after_prefix rE pre (CallPolicyMgrAddPolicy key res) post aE Nr
              eq_refl (eq_sym Heq)) as (pre' & -> & HaE).
  split; [reflexivity|].
  destruct Hshape as [Hnone | (pre0 & res0 & post0 & Heq0 & Hc & Hr & Hpre & Hpost & _)].
  { exfalso. eapply no_install_in; [exact Hnone | exact HaE | reflexivity]. }
  rewrite Heq0 in HaE.
  destruct (only_install _ _ _ _ _ _ Hpre Hpost HaE eq_refl) as (-> & Hx & ->).
  injection Hx as -> ->.
  split; [reflexivity|]. exists pre0. split; [reflexivity|].
  split; [exact Hc|]. split; [exact Hr|].
  split; [apply Forall_app; split; assumption | exact Hpost].
Qed.


(** *** A flush whose pod updates succeed *)

Lemma podUpdates_app tr1 tr2 :
  podUpdates (tr1 ++ tr2) = (podUpdates tr1 + podUpdates tr2)%nat.
Proof. unfold podUpdates. rewrite filter_app, length_app. reflexivity. Qed.

Section Drain.

(** A measure of the pod queue that every dequeue lowers, and a
    condition on the managers and the endpoint cache under which
    updatePod succeeds and which it keeps. *)
Context (size : UpdatePodCache -> nat).
Context (good : PolicyManager * IPSetManager * gmap string npmEndpoint -> Prop).
Context (dequeue_shrinks :
           forall q, upc_isEmpty q = false -> (size (fst (upc_dequeue q)) < size q)%nat).
Context (good_updates :
           forall m pod, good m ->
                         snd (updatePod m pod) = None /\ good (fst (updatePod m pod))).

Lemma drainUpdatePods_ends fuel : forall dp : DataPlane,
  good (managed dp) ->
  (size (updatePodCache dp) <= fuel)%nat ->
  snd (drainUpdatePods fuel dp) = Returned tt
  /\ exists new,
       trace (fst (drainUpdatePods fuel dp)) = (trace dp ++ new)%list
       /\ Forall (fun e => isRequeue e = false) new
       /\ (podUpdates new <= size (updatePodCache dp))%nat.
Proof.
  induction fuel as [|fuel IH]; intros dp Hgood Hsize; simpl.
  - destruct (upc_isEmpty (updatePodCache dp)) eqn:Hempty; simpl.
    + split; [reflexivity|]. exists []. rewrite app_nil_r.
      split; [reflexivity|]. split; [constructor | apply Nat.le_0_l].
    + pose proof (dequeue_shrinks _ Hempty). lia.
  - destruct (upc_isEmpty (updatePodCache dp)) eqn:Hempty; simpl.
    { split; [reflexivity|]. exists []. rewrite app_nil_r.
      split; [reflexivity|]. split; [constructor | apply Nat.le_0_l]. }
    pose proof (dequeue_shrinks _ Hempty) as Hless.
    destruct (upc_dequeue (updatePodCache dp)) as [q [pod|]]; simpl in *.
    2: { split; [reflexivity|]. eexists. split; [reflexivity|].
         split; [repeat constructor | apply Nat.le_0_l]. }
    destruct (good_updates (managed (set_updatePodCache q dp)) pod Hgood) as [Hok Hkept].
    destruct (updatePod (managed (set_updatePodCache q dp)) pod) as [m err].
    simpl in Hok, Hkept. subst err.
    match goal with |- context [drainUpdatePods fuel ?d] =>
      destruct (IH d) as (Hret & new & Htr & Hno & Hcount) end.
    { destruct m as [[pm im] ec]. exact Hkept. }
    { simpl. rewrite set_managed_updatePodCache. simpl. lia. }
    split; [exact Hret|].
    exists (CallUpdatePod (PodKeyOf pod) None :: new). split.
    + rewrite Htr. simpl. rewrite set_managed_trace. simpl.
      rewrite <- app_assoc. reflexivity.
    + split; [constructor; [reflexivity | exact Hno]|].
      change (S (podUpdates new) <= size (updatePodCache dp))%nat.
      simpl in Hcount. rewrite set_managed_updatePodCache in Hcount. simpl in Hcount. lia.
Qed.

(** X17: a flush of the set path returns when the pod updates succeed.
    Given a measure of the pod queue that every dequeue lowers and a
    condition on the managers and the endpoint cache under which
    updatePod succeeds and which it keeps: when the condition holds
    once the sets are committed and the endpoints refreshed, a flush
    that is given as many steps as the measure of the queue returns,
    with nil unless ApplyIPSets failed; it requeues no pod and asks for
    at most that many pod updates. *)
Theorem flush_returns_when_updates_succeed fuel context (dp : DataPlane) :
  good (policyMgr dp, fst (ipsets_ApplyIPSets (ipsetMgr dp)),
        fst (refreshPodEndpoints (endpointCache dp))) ->
  (size (updatePodCache dp) <= fuel)%nat ->
  let run := applyDataPlaneNow fuel context dp in
  (exists r, snd run = Returned r
             /\ (r = None <-> snd (ipsets_ApplyIPSets (ipsetMgr dp)) = None))
  /\ Forall (fun e => isRequeue e = false) (newEvents dp (fst run))
  /\ (podUpdates (newEvents dp (fst run)) <= size (updatePodCache dp))%nat.
Proof.
  intros Hgood Hsize. unfold applyDataPlaneNow.
  destruct (ipsets_ApplyIPSets (ipsetMgr dp)) as [im [e|]]; cbn [fst snd] in *.
  { erewrite newEvents_app by reflexivity.
    split; [eexists; split; [reflexivity | split; discriminate]|].
    split; [repeat constructor | apply Nat.le_0_l]. }
  match goal with |- context [if shouldUpdatePod then _ else (?d0, _)] =>
    remember d0 as d eqn:Hd end.
  assert (trace d = (trace dp ++ [CallApplyIPSets None])%list
          /\ updatePodCache d = updatePodCache dp
          /\ policyMgr d = policyMgr dp
          /\ ipsetMgr d = im
          /\ endpointCache d = endpointCache dp) as (Htr & Hq & Hpm & Him & Hec).
  { subst d. simpl. destruct (applyInBackground dp); repeat split. }
  clear Hd.
  destruct shouldUpdatePod.
  2: { cbn [fst snd]. rewrite (newEvents_app _ _ _ Htr).
       split; [eexists; split; [reflexivity | split; reflexivity]|].
       split; [repeat constructor | apply Nat.le_0_l]. }
  destruct (upc_isEmpty (updatePodCache d)).
  { cbn [fst snd]. rewrite (newEvents_app _ _ _ Htr).
    split; [eexists; split; [reflexivity | split; reflexivity]|].
    split; [repeat constructor | apply Nat.le_0_l]. }
  rewrite Hec in *.
  destruct (refreshPodEndpoints (endpointCache dp)) as [ec [e|]]; cbn [fst snd] in *.
  { erewrite newEvents_app by (simpl; rewrite Htr, <- !app_assoc; reflexivity).
    split; [eexists; split; [reflexivity | split; reflexivity]|].
    split; [repeat constructor | apply Nat.le_0_l]. }
  match goal with |- context [drainUpdatePods fuel ?d1] =>
    destruct (drainUpdatePods_ends fuel d1) as (Hret & new & Hnew & Hno & Hcount) end.
  { unfold managed. simpl. rewrite Hpm, Him. exact Hgood. }
  { simpl. rewrite Hq. exact Hsize. }
  match goal with |- context [drainUpdatePods fuel ?d1] =>
    destruct (drainUpdatePods fuel d1) as [d' o] end.
  cbn [fst snd] in *. subst o. cbn [fst snd].
  erewrite newEvents_app by (rewrite Hnew; simpl; rewrite Htr, <- !app_assoc; reflexivity).
  split; [eexists; split; [reflexivity | split; reflexivity]|].
  split.
  - constructor; [reflexivity|]. constructor; [reflexivity | exact Hno].
  - simpl in Hcount. rewrite Hq in Hcount.
    change (podUpdates new <= size (updatePodCache dp))%nat. exact Hcount.
Qed.

End Drain.


End MoreFacts.
(** * Temporary references *)

Section TemporaryReferences.

Context `{C : Collaborators}.

(** *** The steps of the release *)















(** *** What is held *)

Section Held.

Context (holds : IPSetManager -> string -> string -> ReferenceType -> Prop).
Context `{!ReferenceLaws holds}.









End Held.


End TemporaryReferences.




(** * The rest of the orchestrator at work *)

Import MoreRuns.

(** The creation of references in the model obeys the laws that
    createIPSetsAndReferences relies on. *)
Lemma model_creation_laws windows F : @CreationLaws (collaborators windows F) holds.
Proof.
  constructor; unfold holds; simpl.
  - intros im m ref t im'. unfold addReference.
    destruct (negb (setExists im (Name m))); [discriminate|].
    destruct (bool_decide (Name m ∈ refusedSets F)); [discriminate|].
    intros [= <-]. simpl.
    destruct (bool_decide_reflect ((Name m, ref, t) ∈ references im)) as [Hin|Hout].
    + exact Hin.
    + apply list_elem_of_here.
  - intros im m ref t im' res s' ref' t'. unfold addReference.
    destruct (negb (setExists im (Name m))); [intros [= <- _]; auto|].
    destruct (bool_decide (Name m ∈ refusedSets F)); [intros [= <- _]; auto|].
    intros [= <- _] Hin. simpl.
    destruct (bool_decide ((Name m, ref, t) ∈ references im)); [exact Hin|].
    apply list_elem_of_further. exact Hin.
  - intros im ms s ref t H. exact H.
  - intros im ms ip key im' res s ref t. unfold addMembers.
    destruct (failAddToSets F); intros [= <- _]; auto.
  - intros im ls ms im' res s ref t. unfold addToLists.
    intros [= <- _]. auto.
Qed.

(** The data plane that [boot] stands for is the one NewDataPlane
    returned, when it returned one. *)
Lemma boot_returned (C : Collaborators) cfg0 :
  match fst (@NewDataPlane C "node-1" cfg0) with Some _ => True | None => False end ->
  snd (@NewDataPlane C "node-1" cfg0) = None ->
  @NewDataPlane C "node-1" cfg0 = (Some (boot C cfg0), None).
Proof.
  unfold boot. destruct (@NewDataPlane C "node-1" cfg0) as [[d|] e]; simpl.
  - intros _ ->. reflexivity.
  - intros [].
Qed.

(** X2 at work: the Windows data plane with background apply, a
    maximum of three and an interval of one second. *)
Lemma NewDataPlane_result_witness :
  applyInBackground applying0 && iptablesInBackground applying0 = false
  /\ 0 < ApplyMaxBatches (cfg applying0)
  /\ applyInfo_numBatches applying0 = 0
  /\ nodeName applying0 = "node-1"
  /\ AddEmptySetToLists (cfg applying0) = true.
Proof.
  destruct (@NewDataPlane_result applying "node-1" (applyConfig true 3 1000) applying0)
    as (H1 & H2 & H3 & _ & _ & H7 & H8).
  { apply boot_returned; [vm_compute; exact I | vm_compute; reflexivity]. }
  split; [exact H1|]. split; [apply H2; reflexivity|]. split; [exact H3|].
  split; [exact H7|]. apply H8. reflexivity.
Defined.

(** X3 at work: the flush that follows the removal of "ns/p" under
    rule batching; the one pending entry is read with the set name as
    the policy key. *)
Lemma successful_rule_flush_witness :
  snd (reconcileDirtyNetPolsNow contextBackground batchedRemoved) = None
  /\ netPolInfo_numBatches batchedFlushed = 0
  /\ toDeleteNetPolReferences batchedFlushed = ∅
  /\ ruleFlushes (newEvents batchedRemoved batchedFlushed) = 1%nat
  /\ releasedReferences (newEvents batchedRemoved batchedFlushed)
     ≡ₚ [("ns/p", "TMPsetA", NetPolType)].
Proof.
  assert (policies_ReconcileDirtyNetPols (policyMgr batchedRemoved)
          = (fst (policies_ReconcileDirtyNetPols (policyMgr batchedRemoved)), None)) as Hok
    by by_second.
  pose proof (successful_rule_flush (C := batching)
                (map_to_list (toDeleteNetPolReferences batchedRemoved))
                contextBackground batchedRemoved _ Hok (reflexivity _)) as H.
  cbv zeta in H.
  rewrite <- (reconcileDirtyNetPolsNow_order (C := batching)) in H.
  destruct H as (H1 & H2 & H3 & _ & H5 & H6 & _).
  split; [exact H1|]. split; [exact H2|]. split; [exact H3|]. split; [exact H5|].
  transitivity (flushReleases (toDeleteNetPolReferences batchedRemoved));
    [exact H6 | vm_compute; reflexivity].
Defined.

(** X4 at work: two dirty-policy events with a maximum of two. *)
Lemma rule_batch_threshold_witness :
  (iptablesInBackground ruleBatch0 = true
   /\ IPTablesMaxBatches (cfg ruleBatch0) = 2
   /\ netPolInfo_numBatches ruleBatch0 = 0)
  /\ netPolInfo_numBatches (ruleEvents contextAddNetPol 1 ruleBatch0) = 1
  /\ ruleFlushes (trace (ruleEvents contextAddNetPol 1 ruleBatch0)) = 0%nat
  /\ ruleFlushes (trace (ruleEvents contextAddNetPol 2 ruleBatch0)) = 1%nat
  /\ netPolInfo_numBatches (ruleEvents contextAddNetPol 2 ruleBatch0) = 0.
Proof.
  split; [repeat split|].
  destruct (rule_batch_threshold (C := batching) contextAddNetPol ruleBatch0 2)
    as [Hfirst Hlast]; [reflexivity | reflexivity | unfold max_int; lia | reflexivity |].
  destruct (Hfirst 0%nat) as (_ & H1 & H2 & _); [lia|].
  apply (f_equal ruleFlushes) in H2.
  vm_compute in H1, H2, Hlast. destruct Hlast as (_ & H3 & H4 & _).
  vm_compute. split; [exact H1|]. split; [exact H2|]. split; [exact H3 | exact H4].
Defined.

(** X5 at work: the release of the rule set of "ns/q" on Windows, where
    rules are never batched. *)
Lemma unbatched_release_witness :
  iptablesInBackground (bound applying) = false
  /\ releasedReferences
       (newEvents (bound applying)
          (fst (deleteIPSetsAndReferences (RuleIPSets policyQ) "ns/q" NetPolType
                  (bound applying))))
     = [("rule1", "ns/q", NetPolType)]
  /\ Forall (fun e => isAddReference e = false)
       (newEvents (bound applying)
          (fst (deleteIPSetsAndReferences (RuleIPSets policyQ) "ns/q" NetPolType
                  (bound applying)))).
Proof.
  split; [reflexivity|].
  destruct (unbatched_release (C := applying) (RuleIPSets policyQ) "ns/q" NetPolType
              (bound applying) eq_refl) as (H1 & H2 & _).
  split; [exact H1 | exact H2].
Defined.

(** X6 at work: the member of a set of address blocks cannot be
    removed; and a list of sets without members is released without
    error by the same manager. *)
Lemma release_fails_witness :
  (exists fmt cause pre ev,
      snd (deleteIPSetsAndReferences [blocks] "ns/c" NetPolType brokenMembers0)
      = Some (NPMError DeleteNetPolReference false fmt cause)
      /\ newEvents brokenMembers0
           (fst (deleteIPSetsAndReferences [blocks] "ns/c" NetPolType brokenMembers0))
         = (pre ++ [ev])%list
      /\ failedMemberRemoval cause ev)
  /\ snd (deleteIPSetsAndReferences (RuleIPSets policyP) "ns/p" NetPolType brokenMembers0)
     = None.
Proof.
  split.
  - destruct (release_fails_only_on_members (C := brokenMembers) [blocks] "ns/c" NetPolType
                brokenMembers0) as [Hfail _].
    assert (deleteIPSetsAndReferences [blocks] "ns/c" NetPolType brokenMembers0
            = (fst (deleteIPSetsAndReferences [blocks] "ns/c" NetPolType brokenMembers0),
               Some (NPMError DeleteNetPolReference false
                       "[DataPlane] failed to RemoveFromSet in deleteIPSetReferences with err: %s"
                       (ExternalError "failed to update members")))) as Hrun by by_second.
    destruct (Hfail _ _ Hrun) as (fmt & cause & pre & ev & He & Hev & Hf).
    exists fmt, cause, pre, ev. split; [|split; assumption].
    rewrite Hrun. cbn [snd]. f_equal. exact He.
  - apply (release_fails_only_on_members (C := brokenMembers) (RuleIPSets policyP) "ns/p"
             NetPolType brokenMembers0).
    repeat constructor.
Defined.

(** X7 at work: a pod is queued and the refresh of the endpoints
    fails; the flush returns nil and the pod stays queued. *)
Lemma flush_without_drain_witness :
  @upc_isEmpty failingRefresh (updatePodCache refreshQueued) = false
  /\ snd (applyDataPlaneNow 0 contextApplyDP refreshQueued) = Returned None
  /\ updatePodCache (fst (applyDataPlaneNow 0 contextApplyDP refreshQueued))
     = updatePodCache refreshQueued
  /\ Forall (fun e => isPodUpdate e = false)
       (newEvents refreshQueued (fst (applyDataPlaneNow 0 contextApplyDP refreshQueued))).
Proof.
  split; [reflexivity|].
  destruct (flush_without_drain (C := failingRefresh) 0 contextApplyDP refreshQueued)
    as ((r & Hr & Hiff) & _ & Hpods & Hq & _).
  { right. right. eexists _, _. reflexivity. }
  split; [|split; [exact Hq | exact Hpods]].
  rewrite Hr. f_equal. apply Hiff. reflexivity.
Defined.

(** X8 at work: AddPolicy of "ns/q" on Windows. *)
Lemma rules_follow_sets_witness :
  newEvents (start applying) (fst (AddPolicy 0 (start applying) policyQ))
  = (addedQ ++ [CallPolicyMgrAddPolicy "ns/q" None])%list
  /\ In (CallApplyIPSets None) addedQ
  /\ In (CallGetEndpointsToApplyPolicy "ns/q" None) addedQ
  /\ Forall (fun e => isInstall e = false) addedQ.
Proof.
  assert (newEvents (start applying) (fst (AddPolicy 0 (start applying) policyQ))
          = (addedQ ++ [CallPolicyMgrAddPolicy "ns/q" None])%list) as Hrun
    by (vm_compute; reflexivity).
  split; [exact Hrun|].
  destruct (rules_follow_sets (C := applying) 0 (start applying) policyQ addedQ "ns/q" None []
              Hrun) as (_ & H1 & H2 & H3 & _).
  split; [exact H1|]. split; [exact H2 | exact H3].
Defined.

(** X9 at work: the history of the removal of "ns/q" on Windows, where
    rules are never batched. *)
Lemma policy_calls_witness :
  iptablesInBackground (bound applying) = false
  /\ Forall (fun e => isRemovePolicyStep e = true)
       (newEvents (bound applying) (fst (RemovePolicy 0 (bound applying) "ns/q")))
  /\ Forall (fun e => isReconcile e = false /\ isAddReference e = false)
       (newEvents (bound applying) (fst (RemovePolicy 0 (bound applying) "ns/q"))).
Proof.
  split; [reflexivity|].
  destruct (policy_calls_stay_in_their_lane (C := applying) 0 (bound applying) policyQ "ns/q")
    as (_ & H1 & H2).
  split; [exact H1|]. apply (H2 eq_refl).
Defined.


(** X11 at work: the rule set of "ns/q" after its references are
    created. *)
Lemma created_references_witness :
  holds
    (ipsetMgr (fst (createIPSetsAndReferences (RuleIPSets policyQ) "ns/q" NetPolType
                      (start applying))))
    "rule1" "ns/q" NetPolType.
Proof.
  destruct (@created_references_are_held applying holds (model_creation_laws true noFaults)
              (RuleIPSets policyQ) "ns/q" NetPolType (start applying)) as [_ H].
  apply (H eq_refl (mkTranslatedIPSet rule1 [])). left. reflexivity.
Defined.

(** X12 at work: on Windows a pod of node-2 is not queued on node-1,
    while the pod of node-1 is. *)
Lemma pods_of_other_nodes_witness :
  @shouldUpdatePod applying = true
  /\ updatePodCache (fst (dataplaneUpdate AddMember (start applying) [setA] pod2))
     = updatePodCache (start applying)
  /\ length (newEvents (start applying)
               (fst (dataplaneUpdate AddMember (start applying) [setA] pod2))) = 1%nat
  /\ updatePodCache (fst (AddToSets (start applying) [setA] pod1))
     <> updatePodCache (start applying).
Proof.
  split; [reflexivity|].
  destruct (pods_of_other_nodes_are_not_queued (C := applying) AddMember (start applying)
              [setA] pod2) as ((_ & _ & _ & Hq & _) & _ & _ & Hlen & _).
  { right. vm_compute. intros H. discriminate H. }
  split; [exact Hq|]. split; [exact Hlen|].
  vm_compute. intros H. discriminate H.
Defined.

(** X13 at work: a tick after the removal of "ns/p" when the rule
    commit fails, and when it succeeds; in the second run the tick
    asks for the release of "TMPsetA" from "ns/p", and "setA" still
    holds "TMPns/p" after it. *)
Lemma rule_tick_witness :
  (netPolInfo_numBatches brokenRulesRemoved = 2
   /\ netPolInfo_numBatches (iptablesTick brokenRulesRemoved) = 2
   /\ ruleFlushes (newEvents (iptablesTick brokenRulesRemoved)
                     (iptablesTick (iptablesTick brokenRulesRemoved))) = 1%nat)
  /\ (netPolInfo_numBatches batchedRemoved = 2
      /\ netPolInfo_numBatches (iptablesTick batchedRemoved) = 0
      /\ releasedReferences (newEvents batchedRemoved (iptablesTick batchedRemoved))
         ≡ₚ [("ns/p", "TMPsetA", NetPolType)]
      /\ holds (ipsetMgr (iptablesTick batchedRemoved)) "setA" "TMPns/p" NetPolType
      /\ iptablesTick (iptablesTick batchedRemoved) = iptablesTick batchedRemoved).
Proof.
  split.
  - destruct (rule_tick_retries_until_success (C := brokenRules) brokenRulesRemoved)
      as [_ H]; [vm_compute; intros H; discriminate H|].
    assert (snd (policies_ReconcileDirtyNetPols (policyMgr brokenRulesRemoved))
            = Some (ExternalError "failed to restore rules")) as Hs
      by (vm_compute; reflexivity).
    rewrite Hs in H. destruct H as (H1 & _ & H3).
    assert (netPolInfo_numBatches brokenRulesRemoved = 2) as H0
      by (vm_compute; reflexivity).
    split; [exact H0|]. split; [rewrite H1; exact H0 | exact H3].
  - destruct (rule_tick_retries_until_success (C := batching) batchedRemoved)
      as [_ H]; [vm_compute; intros H; discriminate H|].
    assert (snd (policies_ReconcileDirtyNetPols (policyMgr batchedRemoved)) = None) as Hs
      by (vm_compute; reflexivity).
    rewrite Hs in H. destruct H as (H1 & _ & H2 & H3).
    split; [vm_compute; reflexivity|]. split; [exact H1|].
    split; [transitivity (flushReleases (toDeleteNetPolReferences batchedRemoved));
            [exact H2 | vm_compute; reflexivity]|].
    split; [|exact H3].
    unfold holds. apply list_elem_of_In. vm_compute. left. reflexivity.
Defined.

(** X14 at work: a tick of the apply task with two batches pending and
    a commit that fails. *)
Lemma apply_tick_witness :
  applyInfo_numBatches brokenApply2 = 2
  /\ snd (applyTick 0 brokenApply2) = Returned tt
  /\ applyInfo_numBatches (fst (applyTick 0 brokenApply2)) = 2
  /\ commits (newEvents brokenApply2 (fst (applyTick 0 brokenApply2))) = 1%nat.
Proof.
  split; [reflexivity|].
  destruct (apply_tick_reports_and_goes_on (C := brokenApply) 0 brokenApply2)
    as [Hone H]; [vm_compute; intros H; discriminate H|].
  vm_compute in H. destruct H as (H1 & _ & H3).
  vm_compute in Hone. vm_compute.
  split; [exact H1|]. split; [exact H3 | exact Hone].
Defined.

(** X15 at work: three calls of ApplyDataPlane on Linux. *)
Lemma immediate_apply_witness :
  applyInBackground batched0 = false
  /\ commits (trace (applyCalls 0 3 batched0)) = 3%nat
  /\ applyInfo_numBatches (applyCalls 0 3 batched0) = 0.
Proof.
  split; [reflexivity|].
  destruct (immediate_apply_commits_every_call (C := batching) 0 batched0 3 eq_refl)
    as (H1 & H2 & _).
  split; [exact H1 | exact H2].
Defined.

(** X16 at work: UpdatePolicy of "ns/q" on Windows, where the policy is
    installed: the removal comes first, then what AddPolicy does. *)
Lemma UpdatePolicy_witness :
  newEvents (bound applying) (fst (UpdatePolicy 0 (bound applying) policyQ))
  = ((removedQ ++ addedQ) ++ [CallPolicyMgrAddPolicy "ns/q" None])%list
  /\ snd (RemovePolicy 0 (bound applying) "ns/q") = Returned None
  /\ exists pre',
       (removedQ ++ addedQ)%list
       = (newEvents (bound applying) (fst (RemovePolicy 0 (bound applying) "ns/q")) ++ pre')%list
       /\ In (CallApplyIPSets None) pre'.
Proof.
  assert (newEvents (bound applying) (fst (UpdatePolicy 0 (bound applying) policyQ))
          = ((removedQ ++ addedQ) ++ [CallPolicyMgrAddPolicy "ns/q" None])%list) as Hrun
    by (vm_compute; reflexivity).
  split; [exact Hrun|].
  destruct (UpdatePolicy_installs_after_removal (C := applying) 0 (bound applying) policyQ
              (removedQ ++ addedQ)%list "ns/q" None [] eq_refl Hrun)
    as (H1 & _ & pre' & H2 & H3 & _).
  split; [exact H1|]. exists pre'. split; [exact H2 | exact H3].
Defined.

(** X17 at work: the queued pod of node-1 on Windows; the length of
    the queue is the measure. *)
Lemma flush_returns_witness :
  @upc_isEmpty applying (updatePodCache queued1) = false
  /\ snd (applyDataPlaneNow 1 contextApplyDP queued1) = Returned None
  /\ (podUpdates (newEvents queued1 (fst (applyDataPlaneNow 1 contextApplyDP queued1))) <= 1)%nat.
Proof.
  split; [reflexivity|].
  destruct (flush_returns_when_updates_succeed (C := applying)
              (length : @UpdatePodCache applying -> nat) noFailuresLeft)
    with (fuel := 1%nat) (context := contextApplyDP) (dp := queued1)
    as ((r & Hr & Hiff) & _ & Hcount).
  - intros [|pod q]; simpl; [discriminate | lia].
  - intros [[pm im] ec] pod Hgood. unfold noFailuresLeft in *. simpl in *.
    unfold updatePodOf. simpl. rewrite Hgood. split; [reflexivity | exact Hgood].
  - reflexivity.
  - vm_compute. lia.
  - split.
    + rewrite Hr. f_equal. apply Hiff. reflexivity.
    + assert (length (updatePodCache queued1) = 1%nat) as Hone by (vm_compute; reflexivity).
      rewrite Hone in Hcount. exact Hcount.
Defined.
